(** * MusicService operator: reconciliation core

    A shallow embedding of the Go operator (packages [api/v1],
    [internal/builder], [internal/reconciler], [internal/status] and
    [internal/controller]) together with the properties its specification
    states about it.

    Conventions of the embedding:
    - Go structs are records, optional (pointer) fields are [option]s,
      [map[string]T] is [gmap string T], slices are lists (a nil slice and an
      empty slice are both [[]]; what [reflect.DeepEqual] makes of the
      difference is part of the layout, see [DeepEqual]).
    - [int32]/[int64] values are [Z]; the code only compares and copies them.
    - [resource.Quantity] is the integer value of the quantity; the parser of
      the Kubernetes library is a parameter ([QuantityParser]). The form in
      which a quantity is held, which only [reflect.DeepEqual] looks at, is
      part of the layout.
    - A Go panic ([resource.MustParse], nil dereference) is the [Panicked]
      outcome; a Go [error] value is an [option error].
    - The API server behind [client.Client] is an in-memory object store with
      an injectable fault table; every write the operator issues is appended
      to a trace. *)

From Stdlib Require Import ZArith Ascii String DecimalString List.
From stdpp Require Import gmap strings list.

Open Scope string_scope.
Open Scope Z_scope.

(** ** Go runtime: panics and errors *)

Inductive Res (A : Type) : Type :=
| Ok (a : A)
| Panicked (msg : string).
Arguments Ok {A} a.
Arguments Panicked {A} msg.

Definition res_bind {A B} (r : Res A) (f : A -> Res B) : Res B :=
  match r with
  | Ok a => f a
  | Panicked msg => Panicked msg
  end.

Definition is_ok {A} (r : Res A) : bool :=
  match r with Ok _ => true | Panicked _ => false end.

(** A Go [error] as the operator looks at it: [errors.IsNotFound] and
    [err.Error()]. *)
Record error : Type := mkError { IsNotFound : bool; Error : string }.

Definition Time : Type := Z.

(** [metav1.Time.IsZero]: the zero time is 0, the clock never returns it. *)
Definition IsZero (t : Time) : bool := t =? 0.

(** The double-quote character, for the shell scripts. *)
Definition dq : string := String "034"%char EmptyString.

(** [fmt.Sprintf("%d", n)] *)
Definition fmt_d (n : Z) : string := NilZero.string_of_int (Z.to_int n).

(** ** Quantities *)

(** [resource.ParseQuantity] of k8s.io/apimachinery: [None] on a malformed
    string, otherwise the value of the quantity. [Cmp] is the comparison of
    the values. *)
Class QuantityParser : Type := ParseQuantity : string -> option Z.

Definition Cmp (a b : Z) : Z :=
  match a ?= b with Lt => -1 | Eq => 0 | Gt => 1 end.

(** [resource.MustParse] panics where [ParseQuantity] fails. *)
Definition MustParse `{QuantityParser} (s : string) : Res Z :=
  match ParseQuantity s with
  | Some q => Ok q
  | None => Panicked ("cannot parse '" +:+ s +:+ "': quantities must match the regular expression")
  end.

(** ** Kubernetes object model (the fields the operator reads or writes) *)

Record OwnerReference : Type := mkOwnerReference {
  or_APIVersion : string;
  or_Kind : string;
  or_Name : string;
  or_UID : string;
  or_Controller : option bool;
  or_BlockOwnerDeletion : option bool
}.

Record ObjectMeta : Type := mkObjectMeta {
  Name : string;
  Namespace : string;
  Labels : gmap string string;
  OwnerReferences : list OwnerReference;
  UID : string;
  Generation : Z;
  DeletionTimestamp : option Time;
  Finalizers : list string
}.

(** [metav1.ObjectMeta{Name: .., Namespace: .., Labels: .., OwnerReferences: ..}] *)
Definition objectMeta (name ns : string) (labels : gmap string string)
    (owners : list OwnerReference) : ObjectMeta :=
  {| Name := name; Namespace := ns; Labels := labels; OwnerReferences := owners;
     UID := ""; Generation := 0; DeletionTimestamp := None; Finalizers := [] |}.

Inductive ConditionStatus : Type := ConditionTrue | ConditionFalse | ConditionUnknown.

Record Condition : Type := mkCondition {
  c_Type : string;
  c_Status : ConditionStatus;
  c_ObservedGeneration : Z;
  c_LastTransitionTime : Time;
  c_Reason : string;
  c_Message : string
}.

(** The quantities are kept by value. Their format and cached string, which
    [reflect.DeepEqual] also compares (a limit of 1Gi and one of 1024Mi, or
    1000m and 1, are one amount in two forms), belong to the layout: see
    [DeepEqual] below. *)
Record ResourceRequirements : Type := mkResourceRequirements {
  rr_Limits : gmap string Z;
  rr_Requests : gmap string Z
}.

Record ContainerPort : Type := mkContainerPort {
  cp_Name : string;
  cp_ContainerPort : Z;
  cp_Protocol : string
}.

Record EnvVarSource : Type := mkEnvVarSource {
  evs_FieldRef : option string;                  (* FieldPath *)
  evs_SecretKeyRef : option (string * string)    (* secret name, key *)
}.

Record EnvVar : Type := mkEnvVar {
  ev_Name : string;
  ev_Value : string;
  ev_ValueFrom : option EnvVarSource
}.

Record VolumeMount : Type := mkVolumeMount {
  vm_Name : string;
  vm_MountPath : string
}.

Record Probe : Type := mkProbe {
  pr_ExecCommand : list string;
  pr_InitialDelaySeconds : Z;
  pr_PeriodSeconds : Z
}.

Record Container : Type := mkContainer {
  ct_Name : string;
  ct_Image : string;
  ct_Command : list string;
  ct_Resources : ResourceRequirements;
  ct_Ports : list ContainerPort;
  ct_Env : list EnvVar;
  ct_VolumeMounts : list VolumeMount;
  ct_ReadinessProbe : option Probe;
  ct_LivenessProbe : option Probe
}.

Record Volume : Type := mkVolume {
  vol_Name : string;
  vol_EmptyDir : bool
}.

Record PodSpec : Type := mkPodSpec {
  ps_InitContainers : list Container;
  ps_Containers : list Container;
  ps_Volumes : list Volume
}.

Record PodTemplateSpec : Type := mkPodTemplateSpec {
  pt_Labels : gmap string string;
  pt_Spec : PodSpec
}.

Definition ResourceStorage : string := "storage".
Definition ResourceCPU : string := "cpu".
Definition ResourceMemory : string := "memory".
Definition ClaimBound : string := "Bound".

Record PersistentVolumeClaim : Type := mkPVC {
  pvc_Meta : ObjectMeta;
  pvc_AccessModes : list string;
  pvc_Requests : gmap string Z;     (* Spec.Resources.Requests *)
  pvc_Phase : string                (* Status.Phase *)
}.

Record StatefulSetSpec : Type := mkStatefulSetSpec {
  ss_Replicas : option Z;
  ss_ServiceName : string;
  ss_Selector : gmap string string;
  ss_Template : PodTemplateSpec;
  ss_VolumeClaimTemplates : list PersistentVolumeClaim
}.

Record StatefulSet : Type := mkStatefulSet {
  sts_Meta : ObjectMeta;
  sts_Spec : StatefulSetSpec;
  sts_ReadyReplicas : Z             (* Status.ReadyReplicas *)
}.

Record ServicePort : Type := mkServicePort {
  sp_Name : string;
  sp_Port : Z;
  sp_TargetPort : Z;
  sp_Protocol : string
}.

Record Service : Type := mkService {
  svc_Meta : ObjectMeta;
  svc_Selector : gmap string string;
  svc_Ports : list ServicePort;
  svc_Type : string;
  svc_ClusterIP : string;
  svc_PublishNotReadyAddresses : bool
}.

Record Secret : Type := mkSecret {
  sec_Meta : ObjectMeta;
  sec_Type : string;
  sec_Data : gmap string string
}.

Record ResourceMetricSource : Type := mkResourceMetricSource {
  rms_Name : string;
  rms_TargetType : string;
  rms_AverageUtilization : option Z
}.

Record MetricSpec : Type := mkMetricSpec {
  met_Type : string;
  met_Resource : option ResourceMetricSource
}.

Record CrossVersionObjectReference : Type := mkCrossVersionObjectReference {
  ref_APIVersion : string;
  ref_Kind : string;
  ref_Name : string
}.

Record HorizontalPodAutoscalerSpec : Type := mkHPASpec {
  hs_ScaleTargetRef : CrossVersionObjectReference;
  hs_MinReplicas : option Z;
  hs_MaxReplicas : Z;
  hs_Metrics : list MetricSpec
}.

Record HorizontalPodAutoscaler : Type := mkHPA {
  hpa_Meta : ObjectMeta;
  hpa_Spec : HorizontalPodAutoscalerSpec
}.

#[global] Instance error_eq_dec : EqDecision error.
Proof. solve_decision. Defined.
#[global] Instance OwnerReference_eq_dec : EqDecision OwnerReference.
Proof. solve_decision. Defined.
#[global] Instance ObjectMeta_eq_dec : EqDecision ObjectMeta.
Proof. solve_decision. Defined.
#[global] Instance ConditionStatus_eq_dec : EqDecision ConditionStatus.
Proof. solve_decision. Defined.
#[global] Instance Condition_eq_dec : EqDecision Condition.
Proof. solve_decision. Defined.
#[global] Instance ResourceRequirements_eq_dec : EqDecision ResourceRequirements.
Proof. solve_decision. Defined.
#[global] Instance ContainerPort_eq_dec : EqDecision ContainerPort.
Proof. solve_decision. Defined.
#[global] Instance EnvVarSource_eq_dec : EqDecision EnvVarSource.
Proof. solve_decision. Defined.
#[global] Instance EnvVar_eq_dec : EqDecision EnvVar.
Proof. solve_decision. Defined.
#[global] Instance VolumeMount_eq_dec : EqDecision VolumeMount.
Proof. solve_decision. Defined.
#[global] Instance Probe_eq_dec : EqDecision Probe.
Proof. solve_decision. Defined.
#[global] Instance Container_eq_dec : EqDecision Container.
Proof. solve_decision. Defined.
#[global] Instance Volume_eq_dec : EqDecision Volume.
Proof. solve_decision. Defined.
#[global] Instance PodSpec_eq_dec : EqDecision PodSpec.
Proof. solve_decision. Defined.
#[global] Instance PodTemplateSpec_eq_dec : EqDecision PodTemplateSpec.
Proof. solve_decision. Defined.
#[global] Instance PersistentVolumeClaim_eq_dec : EqDecision PersistentVolumeClaim.
Proof. solve_decision. Defined.
#[global] Instance StatefulSetSpec_eq_dec : EqDecision StatefulSetSpec.
Proof. solve_decision. Defined.
#[global] Instance StatefulSet_eq_dec : EqDecision StatefulSet.
Proof. solve_decision. Defined.
#[global] Instance ResourceMetricSource_eq_dec : EqDecision ResourceMetricSource.
Proof. solve_decision. Defined.
#[global] Instance MetricSpec_eq_dec : EqDecision MetricSpec.
Proof. solve_decision. Defined.
#[global] Instance CrossVersionObjectReference_eq_dec : EqDecision CrossVersionObjectReference.
Proof. solve_decision. Defined.
#[global] Instance HorizontalPodAutoscalerSpec_eq_dec : EqDecision HorizontalPodAutoscalerSpec.
Proof. solve_decision. Defined.

(** [reflect.DeepEqual]. The records above keep the fields the operator sets
    and reads. A Go value holds more than that: the fields left out (those a
    cluster fills with defaults among them), the format and the cached string
    of a [resource.Quantity], whether an empty slice or map is nil; and
    [reflect.DeepEqual] compares all of it. What is not kept is a parameter:
    [sameLayout a b] says whether [a] and [b] agree in it. Two values that
    differ in a field kept here are never deeply equal; two values that agree
    in every field kept here are deeply equal exactly when they are laid out
    alike. *)
Class Layout : Type := sameLayout : forall A : Type, A -> A -> bool.
Arguments sameLayout {_ A} a b.

Definition DeepEqual {A} `{EqDecision A} {L : Layout} (a b : A) : bool :=
  bool_decide (a = b) && sameLayout a b.

(** ** Package [api/v1]: the MusicService resource *)

Module musicv1.

Definition StorageUpdatePolicyResize : string := "Resize".
Definition StorageUpdatePolicyRecreate : string := "Recreate".

(** [GroupVersion.String()] and the kind given to [NewControllerRef]. *)
Definition GroupVersion : string := "music.mixcorp.org/v1".
Definition MusicServiceKind : string := "MusicService".

Record StreamingSpec : Type := mkStreamingSpec {
  str_Bitrate : string;
  str_MaxConnections : Z
}.

Record StorageSpec : Type := mkStorageSpec {
  st_Size : string;
  st_UpdatePolicy : string      (* "" when omitted *)
}.

Record AutoscalingSpec : Type := mkAutoscalingSpec {
  as_MinReplicas : Z;
  as_MaxReplicas : Z;
  as_TargetCPUUtilizationPercentage : Z;
  as_TargetMemoryUtilizationPercentage : option Z
}.

Record DatabaseReplicationSpec : Type := mkDatabaseReplicationSpec {
  rep_Enabled : option bool;
  rep_GTID : option bool
}.

(** Modelled from the spec: the [HighAvailabilitySpec {enabled}] of the data
    model. Its type declaration is not part of the [api/v1] file at hand;
    the controller ([databaseHAEnabled]) and the builder tests use it as an
    optional struct with one boolean field. *)
Record DatabaseHighAvailabilitySpec : Type := mkDatabaseHighAvailabilitySpec {
  ha_Enabled : bool
}.

Record DatabaseSpec : Type := mkDatabaseSpec {
  db_Enabled : bool;
  db_Replicas : Z;
  db_Image : string;
  db_Storage : option StorageSpec;
  db_RootPassword : string;
  db_Replication : option DatabaseReplicationSpec;
  db_HighAvailability : option DatabaseHighAvailabilitySpec;
  db_Autoscaling : option AutoscalingSpec
}.

Record DatabaseStatus : Type := mkDatabaseStatus {
  dbs_Phase : string;
  dbs_MasterReady : bool;
  dbs_ReplicasReady : Z;
  dbs_ReplicaEverCreated : bool;
  dbs_ReplicaLastSeen : option Time;
  dbs_ReplicaDeletionDetected : bool;
  dbs_ReplicationReady : bool
}.

(** [musicv1.DatabaseStatus{}] *)
Definition emptyDatabaseStatus : DatabaseStatus :=
  {| dbs_Phase := ""; dbs_MasterReady := false; dbs_ReplicasReady := 0;
     dbs_ReplicaEverCreated := false; dbs_ReplicaLastSeen := None;
     dbs_ReplicaDeletionDetected := false; dbs_ReplicationReady := false |}.

Record MusicServiceSpec : Type := mkMusicServiceSpec {
  spec_Replicas : Z;
  spec_Image : string;
  spec_Port : Z;
  spec_Storage : StorageSpec;
  spec_Streaming : StreamingSpec;
  spec_Resources : option ResourceRequirements;
  spec_Autoscaling : option AutoscalingSpec;
  spec_Database : option DatabaseSpec
}.

Record MusicServiceStatus : Type := mkMusicServiceStatus {
  ObservedGeneration : Z;
  DesiredReplicas : Z;
  ReadyReplicas : Z;
  Phase : string;
  LastReconcileTime : option Time;
  LastError : string;
  Conditions : list Condition;
  Database : option DatabaseStatus
}.

Definition emptyStatus : MusicServiceStatus :=
  {| ObservedGeneration := 0; DesiredReplicas := 0; ReadyReplicas := 0;
     Phase := ""; LastReconcileTime := None; LastError := "";
     Conditions := []; Database := None |}.

Record MusicService : Type := mkMusicService {
  Meta : ObjectMeta;
  Spec : MusicServiceSpec;
  Status : MusicServiceStatus
}.

#[global] Instance StreamingSpec_eq_dec : EqDecision StreamingSpec.
Proof. solve_decision. Defined.
#[global] Instance StorageSpec_eq_dec : EqDecision StorageSpec.
Proof. solve_decision. Defined.
#[global] Instance AutoscalingSpec_eq_dec : EqDecision AutoscalingSpec.
Proof. solve_decision. Defined.
#[global] Instance DatabaseReplicationSpec_eq_dec : EqDecision DatabaseReplicationSpec.
Proof. solve_decision. Defined.
#[global] Instance DatabaseHighAvailabilitySpec_eq_dec : EqDecision DatabaseHighAvailabilitySpec.
Proof. solve_decision. Defined.
#[global] Instance DatabaseSpec_eq_dec : EqDecision DatabaseSpec.
Proof. solve_decision. Defined.
#[global] Instance DatabaseStatus_eq_dec : EqDecision DatabaseStatus.
Proof. solve_decision. Defined.
#[global] Instance MusicServiceSpec_eq_dec : EqDecision MusicServiceSpec.
Proof. solve_decision. Defined.
#[global] Instance MusicServiceStatus_eq_dec : EqDecision MusicServiceStatus.
Proof. solve_decision. Defined.

(** Field assignments on the status ([ms.Status.X = v]). *)
Definition withStatus (ms : MusicService) (st : MusicServiceStatus) : MusicService :=
  {| Meta := Meta ms; Spec := Spec ms; Status := st |}.

Definition withMeta (ms : MusicService) (m : ObjectMeta) : MusicService :=
  {| Meta := m; Spec := Spec ms; Status := Status ms |}.

Definition setObservedGeneration (g : Z) (st : MusicServiceStatus) : MusicServiceStatus :=
  {| ObservedGeneration := g; DesiredReplicas := DesiredReplicas st;
     ReadyReplicas := ReadyReplicas st; Phase := Phase st;
     LastReconcileTime := LastReconcileTime st; LastError := LastError st;
     Conditions := Conditions st; Database := Database st |}.

Definition setDesiredReplicas (n : Z) (st : MusicServiceStatus) : MusicServiceStatus :=
  {| ObservedGeneration := ObservedGeneration st; DesiredReplicas := n;
     ReadyReplicas := ReadyReplicas st; Phase := Phase st;
     LastReconcileTime := LastReconcileTime st; LastError := LastError st;
     Conditions := Conditions st; Database := Database st |}.

Definition setReadyReplicas (n : Z) (st : MusicServiceStatus) : MusicServiceStatus :=
  {| ObservedGeneration := ObservedGeneration st; DesiredReplicas := DesiredReplicas st;
     ReadyReplicas := n; Phase := Phase st;
     LastReconcileTime := LastReconcileTime st; LastError := LastError st;
     Conditions := Conditions st; Database := Database st |}.

Definition setPhase (p : string) (st : MusicServiceStatus) : MusicServiceStatus :=
  {| ObservedGeneration := ObservedGeneration st; DesiredReplicas := DesiredReplicas st;
     ReadyReplicas := ReadyReplicas st; Phase := p;
     LastReconcileTime := LastReconcileTime st; LastError := LastError st;
     Conditions := Conditions st; Database := Database st |}.

Definition setLastReconcileTime (t : option Time) (st : MusicServiceStatus) : MusicServiceStatus :=
  {| ObservedGeneration := ObservedGeneration st; DesiredReplicas := DesiredReplicas st;
     ReadyReplicas := ReadyReplicas st; Phase := Phase st;
     LastReconcileTime := t; LastError := LastError st;
     Conditions := Conditions st; Database := Database st |}.

Definition setLastError (e : string) (st : MusicServiceStatus) : MusicServiceStatus :=
  {| ObservedGeneration := ObservedGeneration st; DesiredReplicas := DesiredReplicas st;
     ReadyReplicas := ReadyReplicas st; Phase := Phase st;
     LastReconcileTime := LastReconcileTime st; LastError := e;
     Conditions := Conditions st; Database := Database st |}.

Definition setConditions (cs : list Condition) (st : MusicServiceStatus) : MusicServiceStatus :=
  {| ObservedGeneration := ObservedGeneration st; DesiredReplicas := DesiredReplicas st;
     ReadyReplicas := ReadyReplicas st; Phase := Phase st;
     LastReconcileTime := LastReconcileTime st; LastError := LastError st;
     Conditions := cs; Database := Database st |}.

Definition setDatabase (d : option DatabaseStatus) (st : MusicServiceStatus) : MusicServiceStatus :=
  {| ObservedGeneration := ObservedGeneration st; DesiredReplicas := DesiredReplicas st;
     ReadyReplicas := ReadyReplicas st; Phase := Phase st;
     LastReconcileTime := LastReconcileTime st; LastError := LastError st;
     Conditions := Conditions st; Database := d |}.

End musicv1.

Import musicv1.

#[global] Instance MusicService_eq_dec : EqDecision MusicService.
Proof. solve_decision. Defined.

(** ** Package [internal/builder]: the desired-state builder *)

Notation "'let?' x := m 'in' k" := (res_bind m (fun x => k))
  (at level 10, x name, m at level 200, k at level 200).

Module builder.

(** [metav1.NewControllerRef(ms, musicv1.GroupVersion.WithKind("MusicService"))] *)
Definition NewControllerRef (ms : MusicService) : OwnerReference :=
  {| or_APIVersion := musicv1.GroupVersion;
     or_Kind := musicv1.MusicServiceKind;
     or_Name := Name (Meta ms);
     or_UID := UID (Meta ms);
     or_Controller := Some true;
     or_BlockOwnerDeletion := Some true |}.

Definition getLabels (ms : MusicService) (component : string) : gmap string string :=
  list_to_map [
    ("app", Name (Meta ms));
    ("component", component);
    ("app.kubernetes.io/name", "music-service");
    ("app.kubernetes.io/instance", Name (Meta ms));
    ("app.kubernetes.io/managed-by", "music-operator")
  ].

Definition podLabels (ms : MusicService) (component : string) : gmap string string :=
  list_to_map [("app", Name (Meta ms)); ("component", component)].

Definition ProtocolTCP : string := "TCP".
Definition ServiceTypeClusterIP : string := "ClusterIP".
Definition ReadWriteOnce : string := "ReadWriteOnce".
Definition SecretTypeOpaque : string := "Opaque".

Definition noResources : ResourceRequirements :=
  {| rr_Limits := ∅; rr_Requests := ∅ |}.

(** A volume claim template with one storage request. *)
Definition claimTemplate (name : string) (storageSize : Z) : PersistentVolumeClaim :=
  {| pvc_Meta := objectMeta name "" ∅ [];
     pvc_AccessModes := [ReadWriteOnce];
     pvc_Requests := {[ ResourceStorage := storageSize ]};
     pvc_Phase := "" |}.

Definition BuildAppService (ms : MusicService) : Service :=
  let labels := getLabels ms "app" in
  {| svc_Meta := objectMeta (Name (Meta ms)) (Namespace (Meta ms)) labels [NewControllerRef ms];
     svc_Selector := list_to_map [("app", Name (Meta ms)); ("component", "music-service")];
     svc_Ports := [ {| sp_Name := "http"; sp_Port := spec_Port (Spec ms);
                       sp_TargetPort := 80; sp_Protocol := ProtocolTCP |} ];
     svc_Type := ServiceTypeClusterIP;
     svc_ClusterIP := "";
     svc_PublishNotReadyAddresses := false |}.

Definition buildMasterConfigScript : string :=
  "
set -e
cat <<'EOF' > /db-config/server-id.cnf
[mysqld]
server-id=1
log_bin=mysql-bin
binlog_format=ROW
gtid_strict_mode=ON
log_slave_updates=ON
EOF
".

Definition buildReplicaConfigScript : string :=
  "
set -e
ordinal=${POD_NAME##*-}
server_id=$((200 + ordinal))
cat <<EOF > /db-config/server-id.cnf
[mysqld]
server-id=${server_id}
log_bin=mysql-bin
binlog_format=ROW
gtid_strict_mode=ON
log_slave_updates=ON
read_only=ON
skip_slave_start=1
EOF
".

Definition buildReplicaSetupScript (masterHost : string) : string :=
  "
#!/bin/bash
set -e
echo " +:+ dq +:+ "Waiting for local MariaDB to be ready..." +:+ dq +:+ "
until mysql -h 127.0.0.1 -P 3306 -uroot -p${MYSQL_ROOT_PASSWORD} -e " +:+ dq +:+ "SELECT 1" +:+ dq +:+ " > /dev/null 2>&1; do
	sleep 2
done
echo " +:+ dq +:+ "Waiting for master to be ready..." +:+ dq +:+ "
until mysql -h " +:+ masterHost +:+ " -P 3306 -uroot -p${MYSQL_ROOT_PASSWORD} -e " +:+ dq +:+ "SELECT 1" +:+ dq +:+ " > /dev/null 2>&1; do
	sleep 2
done
echo " +:+ dq +:+ "Master is ready, ensuring replication user..." +:+ dq +:+ "
mysql -h " +:+ masterHost +:+ " -P 3306 -uroot -p${MYSQL_ROOT_PASSWORD} -e " +:+ dq +:+ "CREATE USER IF NOT EXISTS '${REPLICATION_USER}'@'%' IDENTIFIED BY '${REPLICATION_PASSWORD}'; GRANT REPLICATION SLAVE ON *.* TO '${REPLICATION_USER}'@'%'; FLUSH PRIVILEGES;" +:+ dq +:+ "
echo " +:+ dq +:+ "Configuring replica..." +:+ dq +:+ "
mysql -h 127.0.0.1 -P 3306 -uroot -p${MYSQL_ROOT_PASSWORD} -e " +:+ dq +:+ "STOP SLAVE; RESET SLAVE ALL; CHANGE MASTER TO MASTER_HOST='" +:+ masterHost +:+ "', MASTER_USER='${REPLICATION_USER}', MASTER_PASSWORD='${REPLICATION_PASSWORD}', MASTER_PORT=3306, MASTER_USE_GTID=slave_pos; START SLAVE;" +:+ dq +:+ "
mysql -h 127.0.0.1 -P 3306 -uroot -p${MYSQL_ROOT_PASSWORD} -e " +:+ dq +:+ "SHOW SLAVE STATUS\\G" +:+ dq +:+ " | grep -E " +:+ dq +:+ "Slave_IO_Running: Yes|Slave_SQL_Running: Yes" +:+ dq +:+ " || true
echo " +:+ dq +:+ "Replication setup complete. Sleeping..." +:+ dq +:+ "
sleep infinity
".

Definition replicationSecretName (ms : MusicService) : string :=
  Name (Meta ms) +:+ "-db-replication".

Record databaseConfig : Type := mkDatabaseConfig {
  image : string;
  storageSize : Z;
  rootPassword : string;
  replicas : Z;
  masterHost : string;
  replicationEnabled : bool;
  replicationGTID : bool;
  replicationSecret : string
}.

Definition pingProbe (initialDelay period : Z) : Probe :=
  {| pr_ExecCommand := ["/bin/sh"; "-c"; "mysqladmin ping -uroot -p$MYSQL_ROOT_PASSWORD"];
     pr_InitialDelaySeconds := initialDelay;
     pr_PeriodSeconds := period |}.

Definition plainEnv (name value : string) : EnvVar :=
  {| ev_Name := name; ev_Value := value; ev_ValueFrom := None |}.

Definition secretEnv (name secret key : string) : EnvVar :=
  {| ev_Name := name; ev_Value := "";
     ev_ValueFrom := Some {| evs_FieldRef := None; evs_SecretKeyRef := Some (secret, key) |} |}.

Definition buildResourceMetric (resourceName : string) (targetUtilization : Z) : MetricSpec :=
  {| met_Type := "Resource";
     met_Resource := Some {| rms_Name := resourceName;
                             rms_TargetType := "Utilization";
                             rms_AverageUtilization := Some targetUtilization |} |}.

Definition buildReplicaSetupContainer (config : databaseConfig) (script : string)
    : list Container :=
  if negb (replicationEnabled config) then []
  else [ {| ct_Name := "replication-setup";
            ct_Image := image config;
            ct_Command := ["/bin/sh"; "-c"; script];
            ct_Resources := noResources;
            ct_Ports := [];
            ct_Env := [ plainEnv "MYSQL_ROOT_PASSWORD" (rootPassword config);
                        secretEnv "REPLICATION_USER" (replicationSecret config) "username";
                        secretEnv "REPLICATION_PASSWORD" (replicationSecret config) "password" ];
            ct_VolumeMounts := [];
            ct_ReadinessProbe := None;
            ct_LivenessProbe := None |} ].

Section WithQuantities.
Context `{QuantityParser}.

Definition BuildAppStatefulSet (ms : MusicService) : Res StatefulSet :=
  let labels := getLabels ms "app" in
  let podLabels := podLabels ms "music-service" in
  let resources :=
    match spec_Resources (Spec ms) with
    | Some r => r
    | None => noResources
    end in
  let? storageSize := MustParse (st_Size (spec_Storage (Spec ms))) in
  Ok {| sts_Meta := objectMeta (Name (Meta ms)) (Namespace (Meta ms)) labels [NewControllerRef ms];
        sts_Spec :=
          {| ss_Replicas := Some (spec_Replicas (Spec ms));
             ss_ServiceName := Name (Meta ms);
             ss_Selector := podLabels;
             ss_Template :=
               {| pt_Labels := podLabels;
                  pt_Spec :=
                    {| ps_InitContainers := [];
                       ps_Containers :=
                         [ {| ct_Name := "music-service";
                              ct_Image := spec_Image (Spec ms);
                              ct_Command := [];
                              ct_Resources := resources;
                              ct_Ports := [ {| cp_Name := "http"; cp_ContainerPort := 80;
                                               cp_Protocol := ProtocolTCP |} ];
                              ct_Env :=
                                [ plainEnv "STREAMING_BITRATE" (str_Bitrate (spec_Streaming (Spec ms)));
                                  plainEnv "MAX_CONNECTIONS"
                                    (fmt_d (str_MaxConnections (spec_Streaming (Spec ms)))) ];
                              ct_VolumeMounts := [ {| vm_Name := "music-data"; vm_MountPath := "/data" |} ];
                              ct_ReadinessProbe := None;
                              ct_LivenessProbe := None |} ];
                       ps_Volumes := [] |} |};
             ss_VolumeClaimTemplates := [claimTemplate "music-data" storageSize] |};
        sts_ReadyReplicas := 0 |}.

Definition buildDatabaseConfig (ms : MusicService) : Res databaseConfig :=
  let? defaultSize := MustParse "10Gi" in
  let config :=
    {| image := "mariadb:10.11";
       storageSize := defaultSize;
       rootPassword := "rootpass";
       replicas := 0;
       masterHost := Name (Meta ms) +:+ "-db-master";
       replicationEnabled := true;
       replicationGTID := true;
       replicationSecret := replicationSecretName ms |} in
  match spec_Database (Spec ms) with
  | None => Ok config
  | Some db =>
      let? size :=
        match db_Storage db with
        | Some st => MustParse (st_Size st)
        | None => Ok (storageSize config)
        end in
      Ok {| image := if String.eqb (db_Image db) "" then image config else db_Image db;
            storageSize := size;
            rootPassword :=
              if String.eqb (db_RootPassword db) "" then rootPassword config
              else db_RootPassword db;
            replicas := db_Replicas db;
            masterHost := masterHost config;
            replicationEnabled :=
              match db_Replication db with
              | Some r => match rep_Enabled r with Some b => b | None => replicationEnabled config end
              | None => replicationEnabled config
              end;
            replicationGTID :=
              match db_Replication db with
              | Some r => match rep_GTID r with Some b => b | None => replicationGTID config end
              | None => replicationGTID config
              end;
            replicationSecret := replicationSecret config |}
  end.

Definition BuildDatabaseMasterStatefulSet (ms : MusicService) : Res StatefulSet :=
  let labels := getLabels ms "db-master" in
  let podLabels := podLabels ms "db-master" in
  let? config := buildDatabaseConfig ms in
  let replicas := 1 in
  Ok {| sts_Meta := objectMeta (Name (Meta ms) +:+ "-db-master") (Namespace (Meta ms)) labels
                      [NewControllerRef ms];
        sts_Spec :=
          {| ss_Replicas := Some replicas;
             ss_ServiceName := Name (Meta ms) +:+ "-db-master";
             ss_Selector := podLabels;
             ss_Template :=
               {| pt_Labels := podLabels;
                  pt_Spec :=
                    {| ps_InitContainers :=
                         [ {| ct_Name := "init-db-config";
                              ct_Image := image config;
                              ct_Command := ["/bin/sh"; "-c"; buildMasterConfigScript];
                              ct_Resources := noResources;
                              ct_Ports := [];
                              ct_Env := [];
                              ct_VolumeMounts := [ {| vm_Name := "db-config"; vm_MountPath := "/db-config" |} ];
                              ct_ReadinessProbe := None;
                              ct_LivenessProbe := None |} ];
                       ps_Containers :=
                         [ {| ct_Name := "mariadb";
                              ct_Image := image config;
                              ct_Command := [];
                              ct_Resources := noResources;
                              ct_Ports := [ {| cp_Name := "mysql"; cp_ContainerPort := 3306;
                                               cp_Protocol := ProtocolTCP |} ];
                              ct_Env := [ plainEnv "MYSQL_ROOT_PASSWORD" (rootPassword config);
                                          plainEnv "MYSQL_DATABASE" "musicdb" ];
                              ct_VolumeMounts :=
                                [ {| vm_Name := "db-data"; vm_MountPath := "/var/lib/mysql" |};
                                  {| vm_Name := "db-config"; vm_MountPath := "/etc/mysql/conf.d" |} ];
                              ct_ReadinessProbe := Some (pingProbe 10 10);
                              ct_LivenessProbe := Some (pingProbe 30 20) |} ];
                       ps_Volumes := [ {| vol_Name := "db-config"; vol_EmptyDir := true |} ] |} |};
             ss_VolumeClaimTemplates := [claimTemplate "db-data" (storageSize config)] |};
        sts_ReadyReplicas := 0 |}.

Definition BuildDatabaseReplicaStatefulSet (ms : MusicService) : Res StatefulSet :=
  let labels := getLabels ms "db-replica" in
  let podLabels := podLabels ms "db-replica" in
  let? config := buildDatabaseConfig ms in
  let replicationSetupScript := buildReplicaSetupScript (masterHost config) in
  let initContainers :=
    [ {| ct_Name := "init-db-config";
         ct_Image := image config;
         ct_Command := ["/bin/sh"; "-c"; buildReplicaConfigScript];
         ct_Resources := noResources;
         ct_Ports := [];
         ct_Env := [ {| ev_Name := "POD_NAME"; ev_Value := "";
                        ev_ValueFrom := Some {| evs_FieldRef := Some "metadata.name";
                                                evs_SecretKeyRef := None |} |} ];
         ct_VolumeMounts := [ {| vm_Name := "db-config"; vm_MountPath := "/db-config" |} ];
         ct_ReadinessProbe := None;
         ct_LivenessProbe := None |} ] in
  let volumes := [ {| vol_Name := "db-config"; vol_EmptyDir := true |} ] in
  let replicaEnv :=
    [ plainEnv "MYSQL_ROOT_PASSWORD" (rootPassword config);
      plainEnv "MYSQL_DATABASE" "musicdb" ] in
  let replicaVolumeMounts :=
    [ {| vm_Name := "db-data"; vm_MountPath := "/var/lib/mysql" |};
      {| vm_Name := "db-config"; vm_MountPath := "/etc/mysql/conf.d" |} ] in
  let replicaEnv :=
    if replicationEnabled config then
      (replicaEnv ++ [ secretEnv "REPLICATION_USER" (replicationSecret config) "username";
                       secretEnv "REPLICATION_PASSWORD" (replicationSecret config) "password" ])%list
    else replicaEnv in
  Ok {| sts_Meta := objectMeta (Name (Meta ms) +:+ "-db-replica") (Namespace (Meta ms)) labels
                      [NewControllerRef ms];
        sts_Spec :=
          {| ss_Replicas := Some (replicas config);
             ss_ServiceName := Name (Meta ms) +:+ "-db-replica";
             ss_Selector := podLabels;
             ss_Template :=
               {| pt_Labels := podLabels;
                  pt_Spec :=
                    {| ps_InitContainers := initContainers;
                       ps_Containers :=
                         ([ {| ct_Name := "mariadb";
                               ct_Image := image config;
                               ct_Command := [];
                               ct_Resources := noResources;
                               ct_Ports := [ {| cp_Name := "mysql"; cp_ContainerPort := 3306;
                                                cp_Protocol := ProtocolTCP |} ];
                               ct_Env := replicaEnv;
                               ct_VolumeMounts := replicaVolumeMounts;
                               ct_ReadinessProbe := Some (pingProbe 10 10);
                               ct_LivenessProbe := Some (pingProbe 30 20) |} ]
                          ++ buildReplicaSetupContainer config replicationSetupScript)%list;
                       ps_Volumes := volumes |} |};
             ss_VolumeClaimTemplates := [claimTemplate "db-data" (storageSize config)] |};
        sts_ReadyReplicas := 0 |}.

End WithQuantities.

Definition BuildDatabaseMasterService (ms : MusicService) : Service :=
  let labels := getLabels ms "db-master" in
  {| svc_Meta := objectMeta (Name (Meta ms) +:+ "-db-master") (Namespace (Meta ms)) labels
                   [NewControllerRef ms];
     svc_Selector := list_to_map [("app", Name (Meta ms)); ("component", "db-master")];
     svc_Ports := [ {| sp_Name := "mysql"; sp_Port := 3306; sp_TargetPort := 0;
                       sp_Protocol := ProtocolTCP |} ];
     svc_Type := ServiceTypeClusterIP;
     svc_ClusterIP := "None";
     svc_PublishNotReadyAddresses := false |}.

Definition BuildDatabaseReadService (ms : MusicService) : Service :=
  let labels := getLabels ms "db-read" in
  {| svc_Meta := objectMeta (Name (Meta ms) +:+ "-db-read") (Namespace (Meta ms)) labels
                   [NewControllerRef ms];
     svc_Selector := list_to_map [("app", Name (Meta ms)); ("component", "db-replica")];
     svc_Ports := [ {| sp_Name := "mysql"; sp_Port := 3306; sp_TargetPort := 0;
                       sp_Protocol := ProtocolTCP |} ];
     svc_Type := ServiceTypeClusterIP;
     svc_ClusterIP := "";
     svc_PublishNotReadyAddresses := false |}.

(** The autoscaler builders dereference the optional autoscaling section
    without a nil check: an absent section is a nil-pointer panic. *)
Definition nilDereference : string :=
  "runtime error: invalid memory address or nil pointer dereference".

Definition autoscalerMetrics (a : AutoscalingSpec) : list MetricSpec :=
  let metrics := [ buildResourceMetric ResourceCPU (as_TargetCPUUtilizationPercentage a) ] in
  match as_TargetMemoryUtilizationPercentage a with
  | Some m => (metrics ++ [ buildResourceMetric ResourceMemory m ])%list
  | None => metrics
  end.

Definition BuildAutoscaler (ms : MusicService) : Res HorizontalPodAutoscaler :=
  let labels := getLabels ms "autoscaler" in
  match spec_Autoscaling (Spec ms) with
  | None => Panicked nilDereference
  | Some a =>
      let metrics := autoscalerMetrics a in
      Ok {| hpa_Meta := objectMeta (Name (Meta ms) +:+ "-autoscaler") (Namespace (Meta ms)) labels
                          [NewControllerRef ms];
            hpa_Spec :=
              {| hs_ScaleTargetRef := {| ref_APIVersion := "apps/v1"; ref_Kind := "StatefulSet";
                                         ref_Name := Name (Meta ms) |};
                 hs_MinReplicas := Some (as_MinReplicas a);
                 hs_MaxReplicas := as_MaxReplicas a;
                 hs_Metrics := metrics |} |}
  end.

Definition BuildDatabaseReplicaAutoscaler (ms : MusicService) : Res HorizontalPodAutoscaler :=
  let labels := getLabels ms "db-autoscaler" in
  match spec_Database (Spec ms) with
  | None => Panicked nilDereference
  | Some db =>
      match db_Autoscaling db with
      | None => Panicked nilDereference
      | Some autoscaling =>
          let metrics := autoscalerMetrics autoscaling in
          Ok {| hpa_Meta := objectMeta (Name (Meta ms) +:+ "-db-replica-autoscaler")
                              (Namespace (Meta ms)) labels [NewControllerRef ms];
                hpa_Spec :=
                  {| hs_ScaleTargetRef := {| ref_APIVersion := "apps/v1"; ref_Kind := "StatefulSet";
                                             ref_Name := Name (Meta ms) +:+ "-db-replica" |};
                     hs_MinReplicas := Some (as_MinReplicas autoscaling);
                     hs_MaxReplicas := as_MaxReplicas autoscaling;
                     hs_Metrics := metrics |} |}
      end
  end.

End builder.

(** ** The state store behind [client.Client]

    Objects are kept per kind under their (namespace, name) key. A request
    fails when the fault table says so, or with the API's own NotFound /
    AlreadyExists; every write request the operator issues is appended to the
    trace, whether or not the store accepts it. *)

Inductive Kind : Type :=
  KMusicService | KStatefulSet | KService | KSecret | KHPA | KPVC.

Inductive Verb : Type :=
  VGet | VList | VCreate | VUpdate | VDelete | VStatusUpdate.

Inductive Object : Type :=
| OMusicService (o : MusicService)
| OStatefulSet (o : StatefulSet)
| OService (o : Service)
| OSecret (o : Secret)
| OHPA (o : HorizontalPodAutoscaler)
| OPVC (o : PersistentVolumeClaim).

Inductive Event : Type :=
| EvCreate (o : Object)
| EvUpdate (o : Object)
| EvDelete (k : Kind) (namespace name : string)
| EvStatusUpdate (ms : MusicService)
| EvRecorded (eventtype reason message : string).

#[global] Instance Kind_eq_dec : EqDecision Kind.
Proof. solve_decision. Defined.
#[global] Instance Verb_eq_dec : EqDecision Verb.
Proof. solve_decision. Defined.

Record World : Type := mkWorld {
  musicservices : gmap (string * string) MusicService;
  statefulsets : gmap (string * string) StatefulSet;
  services : gmap (string * string) Service;
  secrets : gmap (string * string) Secret;
  hpas : gmap (string * string) HorizontalPodAutoscaler;
  pvcs : gmap (string * string) PersistentVolumeClaim;
  faults : Verb -> Kind -> string -> option error;  (* injected request failures *)
  clock : Time;                                     (* what [time.Now] returns next *)
  entropy : nat -> N;                               (* the bytes [crypto/rand] hands out *)
  entropyPos : nat;
  entropyFails : bool;
  trace : list Event
}.

Definition M (A : Type) : Type := World -> Res A * World.

Definition m_ret {A} (a : A) : M A := fun w => (Ok a, w).

Definition m_bind {A B} (m : M A) (f : A -> M B) : M B :=
  fun w =>
    match m w with
    | (Ok a, w') => f a w'
    | (Panicked msg, w') => (Panicked msg, w')
    end.

Notation "'let*' x := m 'in' k" := (m_bind m (fun x => k))
  (at level 10, x name, m at level 200, k at level 200).

Definition liftRes {A} (r : Res A) : M A := fun w => (r, w).

Definition withTrace (t : list Event) (w : World) : World :=
  {| musicservices := musicservices w; statefulsets := statefulsets w;
     services := services w; secrets := secrets w; hpas := hpas w; pvcs := pvcs w;
     faults := faults w; clock := clock w; entropy := entropy w;
     entropyPos := entropyPos w; entropyFails := entropyFails w;
     trace := t |}.

Definition withClock (t : Time) (w : World) : World :=
  {| musicservices := musicservices w; statefulsets := statefulsets w;
     services := services w; secrets := secrets w; hpas := hpas w; pvcs := pvcs w;
     faults := faults w; clock := t; entropy := entropy w;
     entropyPos := entropyPos w; entropyFails := entropyFails w;
     trace := trace w |}.

Definition withEntropyPos (n : nat) (w : World) : World :=
  {| musicservices := musicservices w; statefulsets := statefulsets w;
     services := services w; secrets := secrets w; hpas := hpas w; pvcs := pvcs w;
     faults := faults w; clock := clock w; entropy := entropy w;
     entropyPos := n; entropyFails := entropyFails w;
     trace := trace w |}.

Definition emit (e : Event) : M unit :=
  fun w => (Ok tt, withTrace (trace w ++ [e]) w).

(** [time.Now()]: the clock is read and moves on. *)
Definition Now : M Time :=
  fun w => (Ok (clock w), withClock (clock w + 1) w).

Definition hexDigit (n : N) : ascii :=
  match n with
  | 0 => "0" | 1 => "1" | 2 => "2" | 3 => "3" | 4 => "4" | 5 => "5" | 6 => "6" | 7 => "7"
  | 8 => "8" | 9 => "9" | 10 => "a" | 11 => "b" | 12 => "c" | 13 => "d" | 14 => "e"
  | _ => "f"
  end%N%char.

(** [hex.EncodeToString] *)
Fixpoint EncodeToString (buf : list N) : string :=
  match buf with
  | [] => ""
  | b :: rest =>
      String (hexDigit ((b mod 256) / 16)) (String (hexDigit (b mod 16)) (EncodeToString rest))
  end%N.

(** [rand.Read(buf)] with [len(buf) = n]. *)
Definition randRead (n : nat) : M (list N + error) :=
  fun w =>
    if entropyFails w then (Ok (inr (mkError false "entropy source unavailable")), w)
    else
      (Ok (inl (map (entropy w) (seq (entropyPos w) n))),
       withEntropyPos (entropyPos w + n)%nat w).

(** One kind of object as the client sees it: where it is stored and how it
    is named (the [client.Object] interface). *)
Record Resource (A : Type) : Type := mkResource {
  kind : Kind;
  meta : A -> ObjectMeta;
  inject : A -> Object;
  select : World -> gmap (string * string) A;
  replace : gmap (string * string) A -> World -> World
}.
Arguments kind {A} _.
Arguments meta {A} _ _.
Arguments inject {A} _ _.
Arguments select {A} _ _.
Arguments replace {A} _ _ _.

Definition keyOf {A} (R : Resource A) (o : A) : string * string :=
  (Namespace (meta R o), Name (meta R o)).

Definition MusicServices : Resource MusicService :=
  {| kind := KMusicService; meta := Meta; inject := OMusicService;
     select := musicservices;
     replace := fun m w =>
       {| musicservices := m; statefulsets := statefulsets w;
          services := services w; secrets := secrets w; hpas := hpas w; pvcs := pvcs w;
          faults := faults w; clock := clock w; entropy := entropy w;
          entropyPos := entropyPos w; entropyFails := entropyFails w;
          trace := trace w |} |}.

Definition StatefulSets : Resource StatefulSet :=
  {| kind := KStatefulSet; meta := sts_Meta; inject := OStatefulSet;
     select := statefulsets;
     replace := fun m w =>
       {| musicservices := musicservices w; statefulsets := m;
          services := services w; secrets := secrets w; hpas := hpas w; pvcs := pvcs w;
          faults := faults w; clock := clock w; entropy := entropy w;
          entropyPos := entropyPos w; entropyFails := entropyFails w;
          trace := trace w |} |}.

Definition Services : Resource Service :=
  {| kind := KService; meta := svc_Meta; inject := OService;
     select := services;
     replace := fun m w =>
       {| musicservices := musicservices w; statefulsets := statefulsets w;
          services := m; secrets := secrets w; hpas := hpas w; pvcs := pvcs w;
          faults := faults w; clock := clock w; entropy := entropy w;
          entropyPos := entropyPos w; entropyFails := entropyFails w;
          trace := trace w |} |}.

Definition Secrets : Resource Secret :=
  {| kind := KSecret; meta := sec_Meta; inject := OSecret;
     select := secrets;
     replace := fun m w =>
       {| musicservices := musicservices w; statefulsets := statefulsets w;
          services := services w; secrets := m; hpas := hpas w; pvcs := pvcs w;
          faults := faults w; clock := clock w; entropy := entropy w;
          entropyPos := entropyPos w; entropyFails := entropyFails w;
          trace := trace w |} |}.

Definition HPAs : Resource HorizontalPodAutoscaler :=
  {| kind := KHPA; meta := hpa_Meta; inject := OHPA;
     select := hpas;
     replace := fun m w =>
       {| musicservices := musicservices w; statefulsets := statefulsets w;
          services := services w; secrets := secrets w; hpas := m; pvcs := pvcs w;
          faults := faults w; clock := clock w; entropy := entropy w;
          entropyPos := entropyPos w; entropyFails := entropyFails w;
          trace := trace w |} |}.

Definition PVCs : Resource PersistentVolumeClaim :=
  {| kind := KPVC; meta := pvc_Meta; inject := OPVC;
     select := pvcs;
     replace := fun m w =>
       {| musicservices := musicservices w; statefulsets := statefulsets w;
          services := services w; secrets := secrets w; hpas := hpas w; pvcs := m;
          faults := faults w; clock := clock w; entropy := entropy w;
          entropyPos := entropyPos w; entropyFails := entropyFails w;
          trace := trace w |} |}.

Definition kindName (k : Kind) : string :=
  match k with
  | KMusicService => "musicservices.music.mixcorp.org"
  | KStatefulSet => "statefulsets.apps"
  | KService => "services"
  | KSecret => "secrets"
  | KHPA => "horizontalpodautoscalers.autoscaling"
  | KPVC => "persistentvolumeclaims"
  end.

Definition notFound (k : Kind) (name : string) : error :=
  mkError true (kindName k +:+ " " +:+ dq +:+ name +:+ dq +:+ " not found").

Definition alreadyExists (k : Kind) (name : string) : error :=
  mkError false (kindName k +:+ " " +:+ dq +:+ name +:+ dq +:+ " already exists").

Module client.

(** [c.Get(ctx, types.NamespacedName{Name, Namespace}, obj)] *)
Definition Get {A} (R : Resource A) (namespace name : string) : M (A + error) :=
  fun w =>
    match faults w VGet (kind R) name with
    | Some e => (Ok (inr e), w)
    | None =>
        match select R w !! (namespace, name) with
        | Some o => (Ok (inl o), w)
        | None => (Ok (inr (notFound (kind R) name)), w)
        end
    end.

Definition store {A} (R : Resource A) (verb : Verb) (o : A) : M (option error) :=
  fun w =>
    match faults w verb (kind R) (Name (meta R o)) with
    | Some e => (Ok (Some e), w)
    | None =>
        match select R w !! keyOf R o, verb with
        | Some _, VCreate => (Ok (Some (alreadyExists (kind R) (Name (meta R o)))), w)
        | None, VCreate => (Ok None, replace R (<[keyOf R o := o]> (select R w)) w)
        | Some _, _ => (Ok None, replace R (<[keyOf R o := o]> (select R w)) w)
        | None, _ => (Ok (Some (notFound (kind R) (Name (meta R o)))), w)
        end
    end.

(** [c.Create(ctx, obj)] *)
Definition Create {A} (R : Resource A) (o : A) : M (option error) :=
  let* _ := emit (EvCreate (inject R o)) in
  store R VCreate o.

(** [c.Update(ctx, obj)] *)
Definition Update {A} (R : Resource A) (o : A) : M (option error) :=
  let* _ := emit (EvUpdate (inject R o)) in
  store R VUpdate o.

(** [c.Delete(ctx, obj)] *)
Definition Delete {A} (R : Resource A) (o : A) : M (option error) :=
  let* _ := emit (EvDelete (kind R) (Namespace (meta R o)) (Name (meta R o))) in
  fun w =>
    match faults w VDelete (kind R) (Name (meta R o)) with
    | Some e => (Ok (Some e), w)
    | None =>
        match select R w !! keyOf R o with
        | Some _ => (Ok None, replace R (delete (keyOf R o) (select R w)) w)
        | None => (Ok (Some (notFound (kind R) (Name (meta R o)))), w)
        end
    end.

(** [c.List(ctx, list, &client.ListOptions{Namespace: namespace})] *)
Definition List {A} (R : Resource A) (namespace : string) : M (list A + error) :=
  fun w =>
    match faults w VList (kind R) "" with
    | Some e => (Ok (inr e), w)
    | None =>
        (Ok (inl (filter (fun o => Namespace (meta R o) = namespace)
                         (snd <$> map_to_list (select R w)))), w)
    end.

(** [c.Status().Update(ctx, ms)]: only the status of the stored parent is
    replaced. *)
Definition StatusUpdate (ms : MusicService) : M (option error) :=
  let* _ := emit (EvStatusUpdate ms) in
  fun w =>
    match faults w VStatusUpdate KMusicService (Name (Meta ms)) with
    | Some e => (Ok (Some e), w)
    | None =>
        match musicservices w !! keyOf MusicServices ms with
        | Some stored =>
            (Ok None,
             replace MusicServices
               (<[keyOf MusicServices ms := withStatus stored (Status ms)]> (musicservices w)) w)
        | None => (Ok (Some (notFound KMusicService (Name (Meta ms)))), w)
        end
    end.

End client.

(** ** Package [internal/reconciler] *)

Definition withSpec (sts : StatefulSet) (spec : StatefulSetSpec) : StatefulSet :=
  {| sts_Meta := sts_Meta sts; sts_Spec := spec; sts_ReadyReplicas := sts_ReadyReplicas sts |}.

Definition withHPASpec (hpa : HorizontalPodAutoscaler) (spec : HorizontalPodAutoscalerSpec)
    : HorizontalPodAutoscaler :=
  {| hpa_Meta := hpa_Meta hpa; hpa_Spec := spec |}.

Definition withRequest (pvc : PersistentVolumeClaim) (name : string) (q : Z)
    : PersistentVolumeClaim :=
  {| pvc_Meta := pvc_Meta pvc; pvc_AccessModes := pvc_AccessModes pvc;
     pvc_Requests := <[name := q]> (pvc_Requests pvc); pvc_Phase := pvc_Phase pvc |}.

Definition withData (s : Secret) (data : gmap string string) : Secret :=
  {| sec_Meta := sec_Meta s; sec_Type := sec_Type s; sec_Data := data |}.

(** [*p] on an optional field: a nil pointer panics. *)
Definition deref {A} (p : option A) : Res A :=
  match p with
  | Some a => Ok a
  | None => Panicked builder.nilDereference
  end.

Module reconciler.

(** *** storage.go *)

Definition storageUpdatePolicy (storage : StorageSpec) : string :=
  if String.eqb (st_UpdatePolicy storage) "" then StorageUpdatePolicyResize
  else st_UpdatePolicy storage.

Definition storageRequestFromStatefulSet (sts : StatefulSet) : option Z :=
  match ss_VolumeClaimTemplates (sts_Spec sts) with
  | [] => None
  | t :: _ => pvc_Requests t !! ResourceStorage
  end.

Definition storageSizeChanged (current desired : StatefulSet) : bool :=
  match storageRequestFromStatefulSet current, storageRequestFromStatefulSet desired with
  | Some currentSize, Some desiredSize => negb (Cmp currentSize desiredSize =? 0)
  | _, _ => false
  end.

Definition claimPrefix (claimName appName : string) : string :=
  claimName +:+ "-" +:+ appName +:+ "-".

Definition listPVCsByPrefix (claimName appName namespace : string)
    : M (list PersistentVolumeClaim + error) :=
  let* r := client.List PVCs namespace in
  match r with
  | inr err => m_ret (inr err)
  | inl items =>
      let prefix := claimPrefix claimName appName in
      m_ret (inl (List.filter (fun pvc => String.prefix prefix (Name (pvc_Meta pvc))) items))
  end.

Fixpoint deleteEach (pvcs : list PersistentVolumeClaim) : M (option error) :=
  match pvcs with
  | [] => m_ret None
  | pvc :: rest =>
      let* e := client.Delete PVCs pvc in
      match e with
      | Some err => m_ret (Some err)
      | None => deleteEach rest
      end
  end.

Definition deletePVCsByPrefix (claimName appName namespace : string) : M (option error) :=
  let* r := listPVCsByPrefix claimName appName namespace in
  match r with
  | inr err => m_ret (Some err)
  | inl pvcs => deleteEach pvcs
  end.

Definition recreateStatefulSetStorage (sts : StatefulSet) (claimName appName : string)
    : M (option error) :=
  let* e := client.Delete StatefulSets sts in
  match e with
  | Some err => m_ret (Some err)
  | None => deletePVCsByPrefix claimName appName (Namespace (sts_Meta sts))
  end.

(** The loop of [resizePVCs] over the listed claims. *)
Fixpoint resizeEach (desiredSize : Z) (pvcs : list PersistentVolumeClaim) : M (option error) :=
  match pvcs with
  | [] => m_ret None
  | pvc :: rest =>
      match pvc_Requests pvc !! ResourceStorage with
      | None => resizeEach desiredSize rest
      | Some currentSize =>
          if Cmp currentSize desiredSize >=? 0 then resizeEach desiredSize rest
          else
            let* e := client.Update PVCs (withRequest pvc ResourceStorage desiredSize) in
            match e with
            | Some err => m_ret (Some err)
            | None => resizeEach desiredSize rest
            end
      end
  end.

Definition resizePVCs (claimName appName : string) (desired : StatefulSet) : M (option error) :=
  match storageRequestFromStatefulSet desired with
  | None => m_ret None
  | Some desiredSize =>
      let* r := listPVCsByPrefix claimName appName (Namespace (sts_Meta desired)) in
      match r with
      | inr err => m_ret (Some err)
      | inl pvcs => resizeEach desiredSize pvcs
      end
  end.

(** *** app.go *)

Section Diff.
Context {L : Layout}.

Fixpoint containersDiffer (current desired : list Container) : bool :=
  match current, desired with
  | currentContainer :: cs, desiredContainer :: ds =>
      if negb (String.eqb (ct_Image currentContainer) (ct_Image desiredContainer)) then true
      else if negb (DeepEqual (ct_Resources currentContainer) (ct_Resources desiredContainer)) then true
      else if negb (DeepEqual (ct_Env currentContainer) (ct_Env desiredContainer)) then true
      else if negb (DeepEqual (ct_VolumeMounts currentContainer) (ct_VolumeMounts desiredContainer)) then true
      else if negb (DeepEqual (ct_Ports currentContainer) (ct_Ports desiredContainer)) then true
      else if negb (DeepEqual (ct_ReadinessProbe currentContainer) (ct_ReadinessProbe desiredContainer)) then true
      else if negb (DeepEqual (ct_LivenessProbe currentContainer) (ct_LivenessProbe desiredContainer)) then true
      else containersDiffer cs ds
  | _, _ => false
  end.

Definition statefulSetNeedsUpdate (current desired : StatefulSet) : Res bool :=
  let? currentReplicas := deref (ss_Replicas (sts_Spec current)) in
  let? desiredReplicas := deref (ss_Replicas (sts_Spec desired)) in
  let cur := pt_Spec (ss_Template (sts_Spec current)) in
  let des := pt_Spec (ss_Template (sts_Spec desired)) in
  if negb (currentReplicas =? desiredReplicas) then Ok true
  else if negb (DeepEqual (ps_InitContainers cur) (ps_InitContainers des)) then Ok true
  else if negb (DeepEqual (ps_Volumes cur) (ps_Volumes des)) then Ok true
  else if negb (length (ps_Containers cur) =? length (ps_Containers des))%nat then Ok true
  else Ok (containersDiffer (ps_Containers cur) (ps_Containers des)).

End Diff.

Fixpoint metricsDiffer (current desired : list MetricSpec) : bool :=
  match current, desired with
  | metric :: ms, desiredMetric :: ds =>
      if negb (String.eqb (met_Type metric) (met_Type desiredMetric)) then true
      else
        match met_Resource metric, met_Resource desiredMetric with
        | None, None => false
        | None, Some _ | Some _, None => true
        | Some r, Some dr =>
            if negb (String.eqb (rms_Name r) (rms_Name dr)) then true
            else
              match rms_AverageUtilization r, rms_AverageUtilization dr with
              | None, None => false
              | None, Some _ | Some _, None => true
              | Some u, Some du =>
                  if negb (u =? du) then true else metricsDiffer ms ds
              end
        end
  | _, _ => false
  end.

Definition autoscalerNeedsUpdate (current desired : HorizontalPodAutoscaler) : bool :=
  if negb (hs_MaxReplicas (hpa_Spec current) =? hs_MaxReplicas (hpa_Spec desired)) then true
  else
    match hs_MinReplicas (hpa_Spec current), hs_MinReplicas (hpa_Spec desired) with
    | None, None => false
    | None, Some _ | Some _, None => true
    | Some a, Some b =>
        if negb (a =? b) then true
        else if negb (length (hs_Metrics (hpa_Spec current))
                        =? length (hs_Metrics (hpa_Spec desired)))%nat then true
        else metricsDiffer (hs_Metrics (hpa_Spec current)) (hs_Metrics (hpa_Spec desired))
    end.

Section WithQuantities.
Context `{QuantityParser} {L : Layout}.

Definition ReconcileService (ms : MusicService) : M (option error) :=
  let* r := client.Get Services (Namespace (Meta ms)) (Name (Meta ms)) in
  match r with
  | inr err =>
      if IsNotFound err then client.Create Services (builder.BuildAppService ms)
      else m_ret (Some err)
  | inl _ => m_ret None
  end.

(** The part shared by the three StatefulSet reconcilers once the live
    object is in hand: storage policy, then the field diff. *)
Definition applyStatefulSet (sts desiredSts : StatefulSet) (storage : StorageSpec)
    (claimName appName : string) : M (option error) :=
  let updateIfNeeded : M (option error) :=
    let* needsUpdate := liftRes (statefulSetNeedsUpdate sts desiredSts) in
    if needsUpdate then client.Update StatefulSets (withSpec sts (sts_Spec desiredSts))
    else m_ret None in
  let storageChanged := storageSizeChanged sts desiredSts in
  if storageChanged then
    let policy := storageUpdatePolicy storage in
    if String.eqb policy StorageUpdatePolicyRecreate then
      recreateStatefulSetStorage sts claimName appName
    else
      let* e := resizePVCs claimName appName desiredSts in
      match e with
      | Some err => m_ret (Some err)
      | None => updateIfNeeded
      end
  else updateIfNeeded.

Definition ReconcileStatefulSet (ms : MusicService) : M (option error) :=
  let* r := client.Get StatefulSets (Namespace (Meta ms)) (Name (Meta ms)) in
  match r with
  | inr err =>
      if IsNotFound err then
        let* sts := liftRes (builder.BuildAppStatefulSet ms) in
        client.Create StatefulSets sts
      else m_ret (Some err)
  | inl sts =>
      let* desiredSts := liftRes (builder.BuildAppStatefulSet ms) in
      applyStatefulSet sts desiredSts (spec_Storage (Spec ms)) "music-data" (Name (Meta ms))
  end.

Definition deleteAutoscalerIfExists (ms : MusicService) : M (option error) :=
  let* r := client.Get HPAs (Namespace (Meta ms)) (Name (Meta ms) +:+ "-autoscaler") in
  match r with
  | inr err => if IsNotFound err then m_ret None else m_ret (Some err)
  | inl hpa => client.Delete HPAs hpa
  end.

Definition ReconcileAutoscaler (ms : MusicService) : M (option error) :=
  match spec_Autoscaling (Spec ms) with
  | None => deleteAutoscalerIfExists ms
  | Some _ =>
      let* r := client.Get HPAs (Namespace (Meta ms)) (Name (Meta ms) +:+ "-autoscaler") in
      match r with
      | inr err =>
          if IsNotFound err then
            let* hpa := liftRes (builder.BuildAutoscaler ms) in
            client.Create HPAs hpa
          else m_ret (Some err)
      | inl hpa =>
          let* desiredHpa := liftRes (builder.BuildAutoscaler ms) in
          if autoscalerNeedsUpdate hpa desiredHpa then
            client.Update HPAs (withHPASpec hpa (hpa_Spec desiredHpa))
          else m_ret None
      end
  end.

(** *** database.go *)

Definition databaseStorageSpec (ms : MusicService) : StorageSpec :=
  match spec_Database (Spec ms) with
  | Some db =>
      match db_Storage db with
      | Some st => st
      | None => {| st_Size := ""; st_UpdatePolicy := "" |}
      end
  | None => {| st_Size := ""; st_UpdatePolicy := "" |}
  end.

Definition replicationEnabled (ms : MusicService) : bool :=
  match spec_Database (Spec ms) with
  | None => false
  | Some db =>
      match db_Replication db with
      | None => true
      | Some r =>
          match rep_Enabled r with
          | None => true
          | Some b => b
          end
      end
  end.

Definition generatePassword (length : nat) : M (string + error) :=
  let* r := randRead length in
  match r with
  | inr err => m_ret (inr err)
  | inl buf => m_ret (inl (EncodeToString buf))
  end.

Definition ensureReplicationSecret (ms : MusicService) : M (option Secret * option error) :=
  if negb (replicationEnabled ms) then m_ret (None, None)
  else
    let* db := liftRes (deref (spec_Database (Spec ms))) in
    if db_Replicas db =? 0 then m_ret (None, None)
    else
      let secretName := Name (Meta ms) +:+ "-db-replication" in
      let* r := client.Get Secrets (Namespace (Meta ms)) secretName in
      match r with
      | inr err =>
          if negb (IsNotFound err) then m_ret (None, Some err)
          else
            let username := "repl" in
            let* p := generatePassword 16 in
            match p with
            | inr err => m_ret (None, Some err)
            | inl password =>
                let secret :=
                  {| sec_Meta := objectMeta secretName (Namespace (Meta ms)) ∅
                                   [builder.NewControllerRef ms];
                     sec_Type := builder.SecretTypeOpaque;
                     sec_Data := list_to_map [("username", username); ("password", password)] |} in
                let* e := client.Create Secrets secret in
                m_ret (Some secret, e)
            end
      | inl secret =>
          let updated := false in
          let '(secret, updated) :=
            match sec_Data secret !! "username" with
            | Some _ => (secret, updated)
            | None => (withData secret (<["username" := "repl"]> (sec_Data secret)), true)
            end in
          match sec_Data secret !! "password" with
          | Some _ =>
              if updated then
                let* e := client.Update Secrets secret in
                match e with
                | Some err => m_ret (None, Some err)
                | None => m_ret (Some secret, None)
                end
              else m_ret (Some secret, None)
          | None =>
              let* p := generatePassword 16 in
              match p with
              | inr err => m_ret (None, Some err)
              | inl password =>
                  let secret := withData secret (<["password" := password]> (sec_Data secret)) in
                  let* e := client.Update Secrets secret in
                  match e with
                  | Some err => m_ret (None, Some err)
                  | None => m_ret (Some secret, None)
                  end
              end
          end
      end.

Definition ReconcileMaster (ms : MusicService) : M (option error) :=
  let stsName := Name (Meta ms) +:+ "-db-master" in
  let* r := client.Get StatefulSets (Namespace (Meta ms)) stsName in
  match r with
  | inr err =>
      if IsNotFound err then
        let* sts := liftRes (builder.BuildDatabaseMasterStatefulSet ms) in
        client.Create StatefulSets sts
      else m_ret (Some err)
  | inl sts =>
      let* desiredSts := liftRes (builder.BuildDatabaseMasterStatefulSet ms) in
      applyStatefulSet sts desiredSts (databaseStorageSpec ms) "db-data"
        (Name (Meta ms) +:+ "-db-master")
  end.

Definition ReconcileReplicas (ms : MusicService) : M (option error) :=
  let* db := liftRes (deref (spec_Database (Spec ms))) in
  if db_Replicas db =? 0 then m_ret None
  else
    let* secret := ensureReplicationSecret ms in
    match snd secret with
    | Some err => m_ret (Some err)
    | None =>
        let stsName := Name (Meta ms) +:+ "-db-replica" in
        let* r := client.Get StatefulSets (Namespace (Meta ms)) stsName in
        match r with
        | inr err =>
            if IsNotFound err then
              let* sts := liftRes (builder.BuildDatabaseReplicaStatefulSet ms) in
              client.Create StatefulSets sts
            else m_ret (Some err)
        | inl sts =>
            let* desiredSts := liftRes (builder.BuildDatabaseReplicaStatefulSet ms) in
            applyStatefulSet sts desiredSts (databaseStorageSpec ms) "db-data"
              (Name (Meta ms) +:+ "-db-replica")
        end
    end.

Definition ReconcileServices (ms : MusicService) : M (option error) :=
  let readService : M (option error) :=
    let* db := liftRes (deref (spec_Database (Spec ms))) in
    if db_Replicas db >? 0 then
      let* r := client.Get Services (Namespace (Meta ms)) (Name (Meta ms) +:+ "-db-read") in
      match r with
      | inr err =>
          if IsNotFound err then client.Create Services (builder.BuildDatabaseReadService ms)
          else m_ret None
      | inl _ => m_ret None
      end
    else m_ret None in
  let* r := client.Get Services (Namespace (Meta ms)) (Name (Meta ms) +:+ "-db-master") in
  match r with
  | inr err =>
      if IsNotFound err then
        let* e := client.Create Services (builder.BuildDatabaseMasterService ms) in
        match e with
        | Some err => m_ret (Some err)
        | None => readService
        end
      else m_ret (Some err)
  | inl _ => readService
  end.

(** [DatabaseReconciler.ReconcileAutoscaler] *)
Definition ReconcileDatabaseAutoscaler (ms : MusicService) : M (option error) :=
  let* db := liftRes (deref (spec_Database (Spec ms))) in
  if bool_decide (db_Autoscaling db = None) || (db_Replicas db =? 0) then m_ret None
  else
    let* r := client.Get HPAs (Namespace (Meta ms)) (Name (Meta ms) +:+ "-db-replica-autoscaler") in
    match r with
    | inr err =>
        if IsNotFound err then
          let* hpa := liftRes (builder.BuildDatabaseReplicaAutoscaler ms) in
          client.Create HPAs hpa
        else m_ret (Some err)
    | inl hpa =>
        let* desired := liftRes (builder.BuildDatabaseReplicaAutoscaler ms) in
        if negb (DeepEqual (hpa_Spec hpa) (hpa_Spec desired)) then
          client.Update HPAs (withHPASpec hpa (hpa_Spec desired))
        else m_ret None
    end.

End WithQuantities.

End reconciler.

(** ** Package [internal/status] *)

Definition withLastTransitionTime (c : Condition) (t : Time) : Condition :=
  {| c_Type := c_Type c; c_Status := c_Status c;
     c_ObservedGeneration := c_ObservedGeneration c;
     c_LastTransitionTime := t; c_Reason := c_Reason c; c_Message := c_Message c |}.

(** A condition literal as the status manager writes them: the transition
    time is left at its zero value. *)
Definition condition (type : string) (status : ConditionStatus) (generation : Z)
    (reason message : string) : Condition :=
  {| c_Type := type; c_Status := status; c_ObservedGeneration := generation;
     c_LastTransitionTime := 0; c_Reason := reason; c_Message := message |}.

(** The first condition of a type, the way readers of a status look one up. *)
Definition findCondition (type : string) (conditions : list Condition) : option Condition :=
  List.find (fun c => String.eqb (c_Type c) type) conditions.

Module status.

(** The [for i, c := range *conditions] loop of [setCondition]: [Some] of
    the updated slice when a condition of the type is found (the function
    returns from inside the loop), [None] when the loop runs out. *)
Fixpoint replaceExisting (now : Time) (conditions : list Condition) (condition : Condition)
    : option (list Condition) :=
  match conditions with
  | [] => None
  | c :: rest =>
      if String.eqb (c_Type c) (c_Type condition) then
        let condition :=
          if negb (bool_decide (c_Status c = c_Status condition)) then
            withLastTransitionTime condition now
          else
            withLastTransitionTime condition (c_LastTransitionTime c) in
        Some (condition :: rest)
      else
        match replaceExisting now rest condition with
        | Some rest' => Some (c :: rest')
        | None => None
        end
  end.

(** The body of [setCondition] once [now] is read. *)
Definition applyCondition (now : Time) (conditions : list Condition) (condition : Condition)
    : list Condition :=
  let condition :=
    if IsZero (c_LastTransitionTime condition) then withLastTransitionTime condition now
    else condition in
  match replaceExisting now conditions condition with
  | Some conditions' => conditions'
  | None => (conditions ++ [condition])%list
  end.

Definition setCondition (conditions : list Condition) (condition : Condition)
    : M (list Condition) :=
  let* now := Now in
  m_ret (applyCondition now conditions condition).

(** [setCondition(&ms.Status.Conditions, c)] *)
Definition setStatusCondition (ms : MusicService) (c : Condition) : M MusicService :=
  let* conditions := setCondition (Conditions (Status ms)) c in
  m_ret (withStatus ms (setConditions conditions (Status ms))).

Definition UpdateReconciled (ms : MusicService) : M (MusicService * option error) :=
  let* ms := setStatusCondition ms
               (condition "Reconciled" ConditionTrue (Generation (Meta ms))
                  "ReconcileSuccess" "Successfully reconciled") in
  let* now := Now in
  let ms := withStatus ms (setLastReconcileTime (Some now) (Status ms)) in
  let ms := withStatus ms (setLastError "" (Status ms)) in
  let* e := client.StatusUpdate ms in
  m_ret (ms, e).

Definition UpdateError (ms : MusicService) (reason message : string)
    : M (MusicService * option error) :=
  let ms := withStatus ms (setPhase "Failed" (Status ms)) in
  let ms := withStatus ms (setLastError message (Status ms)) in
  let* now := Now in
  let ms := withStatus ms (setLastReconcileTime (Some now) (Status ms)) in
  let* ms := setStatusCondition ms
               (condition "Reconciled" ConditionFalse (Generation (Meta ms)) reason message) in
  let* e := client.StatusUpdate ms in
  m_ret (ms, e).

Definition storageRequestFromStatefulSet (sts : StatefulSet) : option Z :=
  match ss_VolumeClaimTemplates (sts_Spec sts) with
  | [] => None
  | t :: _ => pvc_Requests t !! ResourceStorage
  end.

Definition listPVCsByPrefix (claimName appName namespace : string)
    : M (list PersistentVolumeClaim + error) :=
  let* r := client.List PVCs namespace in
  match r with
  | inr err => m_ret (inr err)
  | inl items =>
      let prefix := claimName +:+ "-" +:+ appName +:+ "-" in
      m_ret (inl (List.filter
                    (fun pvc =>
                       (String.length prefix <=? String.length (Name (pvc_Meta pvc)))%nat
                       && String.eqb (substring 0 (String.length prefix) (Name (pvc_Meta pvc)))
                                     prefix)
                    items))
  end.

Section WithQuantities.
Context `{QuantityParser}.

(** The first test of [updateStorageWarnings]: a current request exists,
    a size is declared, it parses, and it is below the current one. *)
Definition shrinkRequested (sts : StatefulSet) (desiredSize : string) : bool :=
  match storageRequestFromStatefulSet sts with
  | Some currentSize =>
      if negb (String.eqb desiredSize "") then
        match ParseQuantity desiredSize with
        | Some desired => Cmp desired currentSize <? 0
        | None => false
        end
      else false
  | None => false
  end.

Definition updateStorageWarnings (ms : MusicService) (sts : StatefulSet)
    (claimName appName desiredSize conditionType : string) : M MusicService :=
  if shrinkRequested sts desiredSize then
    setStatusCondition ms
      (condition conditionType ConditionFalse (Generation (Meta ms))
         "ShrinkNotSupported" "Requested storage size is smaller than current PVC size")
  else
    let* r := listPVCsByPrefix claimName appName (Namespace (Meta ms)) in
    let unbound :=
      match r with
      | inl pvcs => existsb (fun pvc => negb (String.eqb (pvc_Phase pvc) ClaimBound)) pvcs
      | inr _ => false
      end in
    if unbound then
      setStatusCondition ms
        (condition conditionType ConditionFalse (Generation (Meta ms))
           "PVCNotBound" "One or more PVCs are not bound yet")
    else
      setStatusCondition ms
        (condition conditionType ConditionTrue (Generation (Meta ms))
           "StorageHealthy" "Storage requests are within expected bounds").

Definition UpdateFromAppStatefulSet (ms : MusicService) (sts : StatefulSet)
    : M (MusicService * option error) :=
  let ms := withStatus ms (setReadyReplicas (sts_ReadyReplicas sts) (Status ms)) in
  let* replicas := liftRes (deref (ss_Replicas (sts_Spec sts))) in
  let ms := withStatus ms (setDesiredReplicas replicas (Status ms)) in
  let ms := withStatus ms (setObservedGeneration (Generation (Meta ms)) (Status ms)) in
  let* ms :=
    if sts_ReadyReplicas sts =? 0 then
      let ms := withStatus ms (setPhase "Pending" (Status ms)) in
      setStatusCondition ms
        (condition "Available" ConditionFalse (Generation (Meta ms))
           "PodsNotReady" "Waiting for pods to be ready")
    else if sts_ReadyReplicas sts <? replicas then
      let ms := withStatus ms (setPhase "Progressing" (Status ms)) in
      setStatusCondition ms
        (condition "Available" ConditionFalse (Generation (Meta ms))
           "PodsProgressing"
           ("Waiting for pods: " +:+ fmt_d (sts_ReadyReplicas sts) +:+ "/"
              +:+ fmt_d replicas +:+ " ready"))
    else
      let ms := withStatus ms (setPhase "Available" (Status ms)) in
      setStatusCondition ms
        (condition "Available" ConditionTrue (Generation (Meta ms))
           "PodsReady" "All replicas are ready") in
  let* ms := updateStorageWarnings ms sts "music-data" (Name (Meta ms))
               (st_Size (spec_Storage (Spec ms))) "StorageWarningApp" in
  let* e := client.StatusUpdate ms in
  m_ret (ms, e).

(** [ms.Status.Database] after the nil check at the head of
    [UpdateDatabase]. *)
Definition databaseStatus (ms : MusicService) : DatabaseStatus :=
  match Database (Status ms) with
  | Some d => d
  | None => emptyDatabaseStatus
  end.

Definition withDatabaseStatus (ms : MusicService) (d : DatabaseStatus) : MusicService :=
  withStatus ms (setDatabase (Some d) (Status ms)).

(** The "Check master status" block of [UpdateDatabase]. *)
Definition checkMasterStatus (ms : MusicService) : M MusicService :=
  let* r := client.Get StatefulSets (Namespace (Meta ms)) (Name (Meta ms) +:+ "-db-master") in
  match r with
  | inl masterSts =>
      let d := databaseStatus ms in
      let ms := withDatabaseStatus ms
        {| dbs_Phase := if sts_ReadyReplicas masterSts >? 0 then "Ready" else "Pending";
           dbs_MasterReady := sts_ReadyReplicas masterSts >? 0;
           dbs_ReplicasReady := dbs_ReplicasReady d;
           dbs_ReplicaEverCreated := dbs_ReplicaEverCreated d;
           dbs_ReplicaLastSeen := dbs_ReplicaLastSeen d;
           dbs_ReplicaDeletionDetected := dbs_ReplicaDeletionDetected d;
           dbs_ReplicationReady := dbs_ReplicationReady d |} in
      let* db := liftRes (deref (spec_Database (Spec ms))) in
      match db_Storage db with
      | Some storage =>
          updateStorageWarnings ms masterSts "db-data" (Name (Meta ms) +:+ "-db-master")
            (st_Size storage) "StorageWarningDatabase"
      | None => m_ret ms
      end
  | inr _ => m_ret ms
  end.

(** The "Check replica status" block of [UpdateDatabase]. *)
Definition checkReplicaStatus (ms : MusicService) : M MusicService :=
  let* db := liftRes (deref (spec_Database (Spec ms))) in
  if db_Replicas db >? 0 then
    let* r := client.Get StatefulSets (Namespace (Meta ms)) (Name (Meta ms) +:+ "-db-replica") in
    match r with
    | inl replicaSts =>
        let d := databaseStatus ms in
        let* now := Now in
        let ms := withDatabaseStatus ms
          {| dbs_Phase := dbs_Phase d;
             dbs_MasterReady := dbs_MasterReady d;
             dbs_ReplicasReady := sts_ReadyReplicas replicaSts;
             dbs_ReplicaEverCreated := true;
             dbs_ReplicaLastSeen := Some now;
             dbs_ReplicaDeletionDetected := false;
             dbs_ReplicationReady := sts_ReadyReplicas replicaSts >? 0 |} in
        setStatusCondition ms
          (condition "DatabaseReplicaHistory" ConditionTrue (Generation (Meta ms))
             "ReplicaObserved" "Replica StatefulSet is present")
    | inr err =>
        if IsNotFound err then
          let d := databaseStatus ms in
          if dbs_ReplicaEverCreated d then
            let ms := withDatabaseStatus ms
              {| dbs_Phase := dbs_Phase d;
                 dbs_MasterReady := dbs_MasterReady d;
                 dbs_ReplicasReady := dbs_ReplicasReady d;
                 dbs_ReplicaEverCreated := dbs_ReplicaEverCreated d;
                 dbs_ReplicaLastSeen := dbs_ReplicaLastSeen d;
                 dbs_ReplicaDeletionDetected := true;
                 dbs_ReplicationReady := dbs_ReplicationReady d |} in
            setStatusCondition ms
              (condition "DatabaseReplicaHistory" ConditionFalse (Generation (Meta ms))
                 "ReplicaDeleted" "Replica StatefulSet was deleted after previously existing")
          else m_ret ms
        else m_ret ms
    end
  else m_ret ms.

Definition UpdateDatabase (ms : MusicService) : M (MusicService * option error) :=
  let ms := withDatabaseStatus ms (databaseStatus ms) in
  let* ms := checkMasterStatus ms in
  let* ms := checkReplicaStatus ms in
  let* e := client.StatusUpdate ms in
  m_ret (ms, e).

End WithQuantities.

End status.

(** ** Package [internal/controller] *)

Module controller.

Definition musicServiceFinalizerName : string := "music.mixcorp.org/finalizer".

(** [ctrl.Result]; [RequeueAfter] in seconds, 0 when unset. *)
Record Result : Type := mkResult { RequeueAfter : Z }.

Record Request : Type := mkRequest { req_Namespace : string; req_Name : string }.

Definition databaseEnabled (ms : MusicService) : bool :=
  match spec_Database (Spec ms) with
  | Some db => db_Enabled db
  | None => false
  end.

Definition databaseHAEnabled (ms : MusicService) : bool :=
  match spec_Database (Spec ms) with
  | Some db =>
      match db_HighAvailability db with
      | Some ha => ha_Enabled ha
      | None => false
      end
  | None => false
  end.

(** [controllerutil] *)
Definition ContainsFinalizer (ms : MusicService) (finalizer : string) : bool :=
  existsb (String.eqb finalizer) (Finalizers (Meta ms)).

Definition withFinalizers (ms : MusicService) (fs : list string) : MusicService :=
  withMeta ms
    {| Name := Name (Meta ms); Namespace := Namespace (Meta ms); Labels := Labels (Meta ms);
       OwnerReferences := OwnerReferences (Meta ms); UID := UID (Meta ms);
       Generation := Generation (Meta ms);
       DeletionTimestamp := DeletionTimestamp (Meta ms); Finalizers := fs |}.

Definition AddFinalizer (ms : MusicService) (finalizer : string) : MusicService :=
  if ContainsFinalizer ms finalizer then ms
  else withFinalizers ms (Finalizers (Meta ms) ++ [finalizer])%list.

Definition RemoveFinalizer (ms : MusicService) (finalizer : string) : MusicService :=
  withFinalizers ms (List.filter (fun f => negb (String.eqb f finalizer)) (Finalizers (Meta ms))).

(** [r.Recorder.Event(ms, corev1.EventTypeNormal, reason, message)] *)
Definition recordEvent (reason message : string) : M unit :=
  emit (EvRecorded "Normal" reason message).

(** Steps run in order up to the first one that returns an error: the
    reason and error of that step, or [None] when every step returned nil. *)
Fixpoint firstFailure (steps : list (string * M (option error)))
    : M (option (string * error)) :=
  match steps with
  | [] => m_ret None
  | (reason, step) :: rest =>
      let* e := step in
      match e with
      | Some err => m_ret (Some (reason, err))
      | None => firstFailure rest
      end
  end.

Section Reconciler.
Context `{QuantityParser} {L : Layout}.

(** [DatabaseReconciler.ReconcileGalera] and [ReconcileGaleraServices] are
    not part of the reconciler sources at hand; the controller is stated
    over any implementation of them. *)
Variable ReconcileGalera : MusicService -> M (option error).
Variable ReconcileGaleraServices : MusicService -> M (option error).

(** [if err := step; err != nil { return ctrl.Result{}, UpdateError(..) }] *)
Definition guarded (ms : MusicService) (reason : string) (step : M (option error))
    (rest : M (Result * option error)) : M (Result * option error) :=
  let* e := step in
  match e with
  | Some err =>
      let* u := status.UpdateError ms reason (Error err) in
      m_ret (mkResult 0, snd u)
  | None => rest
  end.

(** From "Sync status from StatefulSet" to the end of [Reconcile]. *)
Definition syncStatus (ms : MusicService) : M (Result * option error) :=
  let markReconciled (ms : MusicService) : M (Result * option error) :=
    let* u := status.UpdateReconciled ms in
    match snd u with
    | Some err => m_ret (mkResult 0, Some err)
    | None =>
        let ms := fst u in
        if ReadyReplicas (Status ms) <? spec_Replicas (Spec ms) then
          m_ret (mkResult 5, None)
        else m_ret (mkResult 30, None)
    end in
  let syncDatabase (ms : MusicService) : M (Result * option error) :=
    if databaseEnabled ms then
      let* u := status.UpdateDatabase ms in
      match snd u with
      | Some err => m_ret (mkResult 0, Some err)
      | None => markReconciled (fst u)
      end
    else markReconciled ms in
  let* r := client.Get StatefulSets (Namespace (Meta ms)) (Name (Meta ms)) in
  match r with
  | inl appSts =>
      let* u := status.UpdateFromAppStatefulSet ms appSts in
      match snd u with
      | Some err => m_ret (mkResult 0, Some err)
      | None =>
          let* _ := recordEvent "Ready" "Service is ready" in
          syncDatabase (fst u)
      end
  | inr _ => syncDatabase ms
  end.

(** [Reconcile] from "Initialize status" on, for the fetched parent. *)
Definition reconcileResources (ms : MusicService) : M (Result * option error) :=
  let ms := withStatus ms (setObservedGeneration (Generation (Meta ms)) (Status ms)) in
  let ms := withStatus ms (setDesiredReplicas (spec_Replicas (Spec ms)) (Status ms)) in
  guarded ms "ServiceFailed" (reconciler.ReconcileService ms) (
  guarded ms "StatefulSetFailed" (reconciler.ReconcileStatefulSet ms) (
  guarded ms "AutoscalerFailed" (reconciler.ReconcileAutoscaler ms) (
  if databaseEnabled ms then
    let ms :=
      match Database (Status ms) with
      | None => withStatus ms (setDatabase (Some emptyDatabaseStatus) (Status ms))
      | Some _ => ms
      end in
    let autoscaler :=
      guarded ms "DBAutoscalerFailed" (reconciler.ReconcileDatabaseAutoscaler ms) (
      syncStatus ms) in
    if databaseHAEnabled ms then
      guarded ms "DBGaleraFailed" (ReconcileGalera ms) (
      guarded ms "DBGaleraServicesFailed" (ReconcileGaleraServices ms) autoscaler)
    else
      guarded ms "DBMasterFailed" (reconciler.ReconcileMaster ms) (
      guarded ms "DBReplicasFailed" (reconciler.ReconcileReplicas ms) (
      guarded ms "DBServicesFailed" (reconciler.ReconcileServices ms) autoscaler))
  else syncStatus ms))).

(** The reconciliation steps of a pass in the order [Reconcile] runs
    them, each with the reason it is reported under. *)
Definition reconcileSteps (ms : MusicService) : list (string * M (option error)) :=
  let ms := withStatus ms (setObservedGeneration (Generation (Meta ms)) (Status ms)) in
  let ms := withStatus ms (setDesiredReplicas (spec_Replicas (Spec ms)) (Status ms)) in
  [ ("ServiceFailed", reconciler.ReconcileService ms);
    ("StatefulSetFailed", reconciler.ReconcileStatefulSet ms);
    ("AutoscalerFailed", reconciler.ReconcileAutoscaler ms) ]
  ++ (if databaseEnabled ms then
        let ms :=
          match Database (Status ms) with
          | None => withStatus ms (setDatabase (Some emptyDatabaseStatus) (Status ms))
          | Some _ => ms
          end in
        (if databaseHAEnabled ms then
           [ ("DBGaleraFailed", ReconcileGalera ms);
             ("DBGaleraServicesFailed", ReconcileGaleraServices ms) ]
         else
           [ ("DBMasterFailed", reconciler.ReconcileMaster ms);
             ("DBReplicasFailed", reconciler.ReconcileReplicas ms);
             ("DBServicesFailed", reconciler.ReconcileServices ms) ])
        ++ [ ("DBAutoscalerFailed", reconciler.ReconcileDatabaseAutoscaler ms) ]
      else [])%list.

Definition Reconcile (req : Request) : M (Result * option error) :=
  let* r := client.Get MusicServices (req_Namespace req) (req_Name req) in
  match r with
  | inr err =>
      if IsNotFound err then m_ret (mkResult 0, None)
      else m_ret (mkResult 0, Some err)
  | inl musicService =>
      let* _ := recordEvent "Reconciling" "Starting reconciliation" in
      match DeletionTimestamp (Meta musicService) with
      | Some _ =>
          if ContainsFinalizer musicService musicServiceFinalizerName then
            let* _ := recordEvent "Deleting" "Cleaning up resources" in
            let musicService := RemoveFinalizer musicService musicServiceFinalizerName in
            let* e := client.Update MusicServices musicService in
            match e with
            | Some err => m_ret (mkResult 0, Some err)
            | None => m_ret (mkResult 0, None)
            end
          else m_ret (mkResult 0, None)
      | None =>
          if negb (ContainsFinalizer musicService musicServiceFinalizerName) then
            let musicService := AddFinalizer musicService musicServiceFinalizerName in
            let* e := client.Update MusicServices musicService in
            match e with
            | Some err => m_ret (mkResult 0, Some err)
            | None => reconcileResources musicService
            end
          else reconcileResources musicService
      end
  end.

End Reconciler.

End controller.

(** ** The multi-primary (Galera) reconcilers *)

Module galera.

Section WithQuantities.
Context `{QuantityParser} {L : Layout}.

(** Modelled from the spec: the workload descriptor of the
    high-availability topology, "a single symmetric pool of N+1 nodes,
        all primary-capable" (N the declared replica count). The builder
    [BuildDatabaseGaleraStatefulSet] is missing from the builder sources;
    names, labels, ports and the init container are those its tests
    check. *)
Definition BuildDatabaseGaleraStatefulSet (ms : MusicService) : Res StatefulSet :=
  let labels := builder.getLabels ms "db-galera" in
  let podLabels := builder.podLabels ms "db-galera" in
  let? config := builder.buildDatabaseConfig ms in
  Ok {| sts_Meta := objectMeta (Name (Meta ms) +:+ "-db-galera") (Namespace (Meta ms)) labels
                      [builder.NewControllerRef ms];
        sts_Spec :=
          {| ss_Replicas := Some (builder.replicas config + 1);
             ss_ServiceName := Name (Meta ms) +:+ "-db-galera";
             ss_Selector := podLabels;
             ss_Template :=
               {| pt_Labels := podLabels;
                  pt_Spec :=
                    {| ps_InitContainers :=
                         [ {| ct_Name := "init-galera-config";
                              ct_Image := builder.image config;
                              ct_Command := [];
                              ct_Resources := builder.noResources;
                              ct_Ports := []; ct_Env := [];
                              ct_VolumeMounts := [];
                              ct_ReadinessProbe := None;
                              ct_LivenessProbe := None |} ];
                       ps_Containers :=
                         [ {| ct_Name := "mariadb";
                              ct_Image := builder.image config;
                              ct_Command := [];
                              ct_Resources := builder.noResources;
                              ct_Ports :=
                                [ {| cp_Name := "mysql"; cp_ContainerPort := 3306;
                                     cp_Protocol := builder.ProtocolTCP |};
                                  {| cp_Name := "galera-repl"; cp_ContainerPort := 4567;
                                     cp_Protocol := builder.ProtocolTCP |};
                                  {| cp_Name := "galera-ist"; cp_ContainerPort := 4568;
                                     cp_Protocol := builder.ProtocolTCP |};
                                  {| cp_Name := "galera-sst"; cp_ContainerPort := 4444;
                                     cp_Protocol := builder.ProtocolTCP |} ];
                              ct_Env := [ builder.plainEnv "MYSQL_ROOT_PASSWORD"
                                            (builder.rootPassword config) ];
                              ct_VolumeMounts := [];
                              ct_ReadinessProbe := None;
                              ct_LivenessProbe := None |} ];
                       ps_Volumes := [] |} |};
             ss_VolumeClaimTemplates :=
               [builder.claimTemplate "db-data" (builder.storageSize config)] |};
        sts_ReadyReplicas := 0 |}.

(** Modelled from the spec: the "direct-discovery endpoint" that publishes
    not-yet-ready node addresses ([BuildDatabaseGaleraService], missing
    from the builder sources; headless, as its test checks). *)
Definition BuildDatabaseGaleraService (ms : MusicService) : Service :=
  {| svc_Meta := objectMeta (Name (Meta ms) +:+ "-db-galera") (Namespace (Meta ms))
                   (builder.getLabels ms "db-galera") [builder.NewControllerRef ms];
     svc_Selector := builder.podLabels ms "db-galera";
     svc_Ports := [ {| sp_Name := "mysql"; sp_Port := 3306; sp_TargetPort := 0;
                       sp_Protocol := builder.ProtocolTCP |} ];
     svc_Type := builder.ServiceTypeClusterIP;
     svc_ClusterIP := "None";
     svc_PublishNotReadyAddresses := true |}.

(** Modelled from the spec: the "separate, health-filtered, load-balanced
        endpoint" for client writes ([BuildDatabaseGaleraPrimaryService],
    missing from the builder sources; its test gives it the name of the
    master service and the selector of the cluster nodes). *)
Definition BuildDatabaseGaleraPrimaryService (ms : MusicService) : Service :=
  {| svc_Meta := objectMeta (Name (Meta ms) +:+ "-db-master") (Namespace (Meta ms))
                   (builder.getLabels ms "db-galera") [builder.NewControllerRef ms];
     svc_Selector := builder.podLabels ms "db-galera";
     svc_Ports := [ {| sp_Name := "mysql"; sp_Port := 3306; sp_TargetPort := 0;
                       sp_Protocol := builder.ProtocolTCP |} ];
     svc_Type := builder.ServiceTypeClusterIP;
     svc_ClusterIP := "";
     svc_PublishNotReadyAddresses := false |}.

(** Modelled from the spec: [DatabaseReconciler.ReconcileGalera], missing
    from the reconciler sources. The orchestrator's rule for a descriptor:
    fetch the live resource by its key and create it from the descriptor
    when absent. *)
Definition ReconcileGalera (ms : MusicService) : M (option error) :=
  let* r := client.Get StatefulSets (Namespace (Meta ms)) (Name (Meta ms) +:+ "-db-galera") in
  match r with
  | inr err =>
      if IsNotFound err then
        let* sts := liftRes (BuildDatabaseGaleraStatefulSet ms) in
        client.Create StatefulSets sts
      else m_ret (Some err)
  | inl _ => m_ret None
  end.

Definition ensureService (svc : Service) : M (option error) :=
  let* r := client.Get Services (Namespace (svc_Meta svc)) (Name (svc_Meta svc)) in
  match r with
  | inr err => if IsNotFound err then client.Create Services svc else m_ret (Some err)
  | inl _ => m_ret None
  end.

(** Modelled from the spec: [DatabaseReconciler.ReconcileGaleraServices],
    missing from the reconciler sources: the two endpoints of the
    high-availability topology, each fetched and created when absent. *)
Definition ReconcileGaleraServices (ms : MusicService) : M (option error) :=
  let* e := ensureService (BuildDatabaseGaleraService ms) in
  match e with
  | Some err => m_ret (Some err)
  | None => ensureService (BuildDatabaseGaleraPrimaryService ms)
  end.

End WithQuantities.

End galera.

(** ** Spec edits used to state the properties *)

Definition withReplication (db : DatabaseSpec) (r : option DatabaseReplicationSpec)
    : DatabaseSpec :=
  {| db_Enabled := db_Enabled db; db_Replicas := db_Replicas db; db_Image := db_Image db;
     db_Storage := db_Storage db; db_RootPassword := db_RootPassword db;
     db_Replication := r; db_HighAvailability := db_HighAvailability db;
     db_Autoscaling := db_Autoscaling db |}.

Definition withDatabase (ms : MusicService) (db : option DatabaseSpec) : MusicService :=
  {| Meta := Meta ms;
     Spec := {| spec_Replicas := spec_Replicas (Spec ms); spec_Image := spec_Image (Spec ms);
                spec_Port := spec_Port (Spec ms); spec_Storage := spec_Storage (Spec ms);
                spec_Streaming := spec_Streaming (Spec ms);
                spec_Resources := spec_Resources (Spec ms);
                spec_Autoscaling := spec_Autoscaling (Spec ms);
                spec_Database := db |};
     Status := Status ms |}.

(** The same service with [Replication.Enabled] spelled out as [true] (and
    any GTID setting). *)
Definition withReplicationEnabled (ms : MusicService) (db : DatabaseSpec) (gtid : option bool)
    : MusicService :=
  withDatabase ms
    (Some (withReplication db (Some {| rep_Enabled := Some true; rep_GTID := gtid |}))).

(** The size string the database builders parse for a service. *)
Definition declaredDatabaseSize (ms : MusicService) : string :=
  match spec_Database (Spec ms) with
  | Some db =>
      match db_Storage db with
      | Some st => st_Size st
      | None => "10Gi"
      end
  | None => "10Gi"
  end.

(** [updated] holds every key of [old] with its value, and adds at most the
    username and password keys. *)
Definition backfills (old updated : Secret) : Prop :=
  sec_Meta updated = sec_Meta old /\
  (forall k v, sec_Data old !! k = Some v -> sec_Data updated !! k = Some v) /\
  (forall k, sec_Data old !! k = None -> is_Some (sec_Data updated !! k) ->
             k = "username" \/ k = "password").

(** The claims of a tier as [listPVCsByPrefix] returns them. *)
Definition tierClaims (claimName appName namespace : string) (w : World)
    : list PersistentVolumeClaim :=
  List.filter
    (fun pvc => String.prefix (reconciler.claimPrefix claimName appName) (Name (pvc_Meta pvc)))
    (filter (fun o => Namespace (pvc_Meta o) = namespace) (snd <$> map_to_list (pvcs w))).

(** The claim requests less storage than [size]. *)
Definition requestsLess (size : Z) (pvc : PersistentVolumeClaim) : bool :=
  match pvc_Requests pvc !! ResourceStorage with
  | Some current => current <? size
  | None => false
  end.

(** The write [resizePVCs] issues for a claim. *)
Definition resizeEvent (size : Z) (pvc : PersistentVolumeClaim) : Event :=
  EvUpdate (OPVC (withRequest pvc ResourceStorage size)).

(** Every stored claim sits under its own (namespace, name). *)
Definition claimsWellKeyed (w : World) : Prop :=
  forall k pvc, pvcs w !! k = Some pvc -> keyOf PVCs pvc = k.

(** A condition of type [t] with reason ShrinkNotSupported that [after] holds
    and [before] does not: one that was set in between. *)
Definition shrinkWarningSet (before after : list Condition) (t : string) : Prop :=
  exists c,
    findCondition t after = Some c /\ c_Reason c = "ShrinkNotSupported" /\
    findCondition t before <> Some c.

(** ** Vocabulary of the properties *)

(** Two worlds with the same objects and the same fault table: requests read
    the same answers in both. *)
Definition sameCluster (w w' : World) : Prop :=
  musicservices w = musicservices w' /\ statefulsets w = statefulsets w' /\
  services w = services w' /\ secrets w = secrets w' /\ hpas w = hpas w' /\
  pvcs w = pvcs w' /\ faults w = faults w' /\
  entropy w = entropy w' /\ entropyPos w = entropyPos w' /\ entropyFails w = entropyFails w'.

(** Writing an object touches its own kind only. *)
Definition tidy {A} (R : Resource A) : Prop :=
  forall m w,
    trace (replace R m w) = trace w /\ faults (replace R m w) = faults w /\
    select R (replace R m w) = m.

(** What a pass that reaches its end without an error has written last. *)
Definition reconciledLast (r : Res (controller.Result * option error) * World) : Prop :=
  forall res w', r = (Ok (res, None), w') ->
    exists ms' before c,
      trace w' = (before ++ [EvStatusUpdate ms'])%list /\
      LastError (Status ms') = "" /\
      findCondition "Reconciled" (Conditions (Status ms')) = Some c /\
      c_Status c = ConditionTrue /\ c_Reason c = "ReconcileSuccess".

(** [k] runs [steps] under their guards and then [final]. *)
Definition follows (k : M (controller.Result * option error))
    (steps : list (string * M (option error)))
    (final : M (controller.Result * option error)) : Prop :=
  forall w,
    match controller.firstFailure steps w with
    | (Ok (Some (reason, err)), w1) =>
        exists ms' e w' c,
          k w = (Ok (controller.mkResult 0, e), w') /\
          trace w' = (trace w1 ++ [EvStatusUpdate ms'])%list /\
          Phase (Status ms') = "Failed" /\
          LastError (Status ms') = Error err /\
          findCondition "Reconciled" (Conditions (Status ms')) = Some c /\
          c_Status c = ConditionFalse /\ c_Reason c = reason /\ c_Message c = Error err
    | (Ok None, w1) => k w = final w1
    | (Panicked msg, w1) => k w = (Panicked msg, w1)
    end.

(** ** Reading a trace *)

(** The StatefulSet writes of a trace: the name and the replica count of each
    StatefulSet created or updated, in order. *)
Definition statefulSetWrites (t : list Event) : list (string * option Z) :=
  omap (fun ev =>
          match ev with
          | EvCreate (OStatefulSet s) | EvUpdate (OStatefulSet s) =>
              Some (Name (sts_Meta s), ss_Replicas (sts_Spec s))
          | _ => None
          end) t.

(** The autoscaler writes of a trace: the name of each autoscaler created or
    updated and the name of the workload it scales. *)
Definition autoscalerWrites (t : list Event) : list (string * string) :=
  omap (fun ev =>
          match ev with
          | EvCreate (OHPA h) | EvUpdate (OHPA h) =>
              Some (Name (hpa_Meta h), ref_Name (hs_ScaleTargetRef (hpa_Spec h)))
          | _ => None
          end) t.

(** The claims a trace updates or deletes. *)
Definition claimWrites (t : list Event) : list string :=
  omap (fun ev =>
          match ev with
          | EvCreate (OPVC p) | EvUpdate (OPVC p) => Some (Name (pvc_Meta p))
          | EvDelete KPVC _ name => Some name
          | _ => None
          end) t.

(** The reasons a condition list reports, by condition type. *)
Definition reasons (conds : list Condition) : list (string * string) :=
  map (fun c => (c_Type c, c_Reason c)) conds.

(** ** Vocabulary of the update diffs *)

(** What [statefulSetNeedsUpdate] reads of a container. *)
Definition comparedFields (c : Container) :=
  (ct_Image c, ct_Resources c, ct_Env c, ct_VolumeMounts c, ct_Ports c,
   ct_ReadinessProbe c, ct_LivenessProbe c).

(** What [autoscalerNeedsUpdate] reads of a metric: its type and, when it has
    a resource source, the resource name and the target utilization. *)
Definition comparedMetric (m : MetricSpec) : string * option (string * option Z) :=
  (met_Type m,
   match met_Resource m with
   | Some r => Some (rms_Name r, rms_AverageUtilization r)
   | None => None
   end).

(** A metric as [buildResourceMetric] makes them: a resource source with a
    target utilization. *)
Definition resourceMetric (m : MetricSpec) : Prop :=
  exists r u, met_Resource m = Some r /\ rms_AverageUtilization r = Some u.

(** ** Vocabulary of the credential *)

Definition isHexDigit (c : ascii) : bool :=
  existsb (Ascii.eqb c) (list_ascii_of_string "0123456789abcdef").

(** The bytes [rand.Read] hands out for a buffer of [n] bytes. *)
Definition randomBytes (n : nat) (w : World) : list N :=
  map (fun i => (entropy w i mod 256)%N) (seq (entropyPos w) n).

(** ** Vocabulary of the builders *)

(** The container ports a pod template declares. *)
Definition containerPorts (sts : StatefulSet) : list Z :=
  flat_map (fun c => map cp_ContainerPort (ct_Ports c))
    (ps_Containers (pt_Spec (ss_Template (sts_Spec sts)))).

(** The port a service port forwards to: [TargetPort], or [Port] when the
    target is left unset. *)
Definition forwardsTo (p : ServicePort) : Z :=
  if sp_TargetPort p =? 0 then sp_Port p else sp_TargetPort p.

(** An object of the parent: in its namespace, labelled with its name and
    the operator, and owned by it through one controller reference. *)
Definition ownedBy (ms : MusicService) (meta : ObjectMeta) : Prop :=
  Namespace meta = Namespace (Meta ms) /\
  Labels meta !! "app" = Some (Name (Meta ms)) /\
  Labels meta !! "app.kubernetes.io/managed-by" = Some "music-operator" /\
  exists owner,
    OwnerReferences meta = [owner] /\
    (or_Kind owner, or_Name owner, or_UID owner) =
      ("MusicService", Name (Meta ms), UID (Meta ms)) /\
    or_Controller owner = Some true.

(** The environment variables of a pod template that read a secret. *)
Definition secretReferences (sts : StatefulSet) : list EnvVar :=
  List.filter
    (fun e => match ev_ValueFrom e with
              | Some source => bool_decide (is_Some (evs_SecretKeyRef source))
              | None => false
              end)
    (flat_map ct_Env (ps_InitContainers (pt_Spec (ss_Template (sts_Spec sts)))
                      ++ ps_Containers (pt_Spec (ss_Template (sts_Spec sts))))).

(** ** Vocabulary of the cluster *)

(** Every stored object of a kind sits under its own (namespace, name), as
    in an API server. *)
Definition wellKeyed {A} (R : Resource A) (w : World) : Prop :=
  forall key o, select R w !! key = Some o -> keyOf R o = key.

(** No request on a kind is made to fail. *)
Definition faultFree (k : Kind) (w : World) : Prop :=
  forall verb name, faults w verb k name = None.

(** Recording a request in the trace does not touch the stored objects. *)
Definition traceFree {A} (R : Resource A) : Prop :=
  forall t w, select R (withTrace t w) = select R w.

(** The shape [ReconcileStatefulSet] and [ReconcileMaster] share once their
    builder has returned [desired]: look the StatefulSet up, create it when it
    is missing, otherwise apply the storage policy and the field diff. *)
Definition statefulSetPass {L : Layout} (namespace name claimName : string)
    (storage : StorageSpec) (desired : StatefulSet) : M (option error) :=
  let* r := client.Get StatefulSets namespace name in
  match r with
  | inr err =>
      if IsNotFound err then
        let* sts := liftRes (Ok desired) in
        client.Create StatefulSets sts
      else m_ret (Some err)
  | inl sts =>
      let* desiredSts := liftRes (Ok desired) in
      reconciler.applyStatefulSet sts desiredSts storage claimName name
  end.

(** A reconciler settles the StatefulSet under [key] on [w]: its pass returns
    no error after at most one write, the stored StatefulSet then needs no
    update against [desired], and the same pass run again writes nothing. *)
Definition settles {L : Layout} (pass : M (option error)) (key : string * string)
    (desired : StatefulSet) (w : World) : Prop :=
  exists w' sts',
    pass w = (Ok None, w') /\
    (trace w' = trace w \/ exists write, trace w' = (trace w ++ [write])%list) /\
    statefulsets w' !! key = Some sts' /\
    reconciler.statefulSetNeedsUpdate sts' desired = Ok false /\
    pass w' = (Ok None, w').

(** The StatefulSet under [key], if there is one, has the storage size of
    [desired] and a replica count. *)
Definition sameStorage (key : string * string) (desired : StatefulSet) (w : World) : Prop :=
  forall sts, statefulsets w !! key = Some sts ->
    reconciler.storageSizeChanged sts desired = false /\
    is_Some (ss_Replicas (sts_Spec sts)).

(** The request [deletePVCsByPrefix] issues for a claim. *)
Definition deleteEvent (pvc : PersistentVolumeClaim) : Event :=
  EvDelete KPVC (Namespace (pvc_Meta pvc)) (Name (pvc_Meta pvc)).

(** The stored children of a cluster: everything but the parents. *)
Definition children (w : World) :=
  (statefulsets w, services w, secrets w, hpas w, pvcs w).

(** What [c.Status().Update] answers for the parent [namespace/name] on [w]:
    the injected failure, NotFound when the parent is not stored, otherwise
    nil. *)
Definition statusWriteResult (namespace name : string) (w : World) : option error :=
  match faults w VStatusUpdate KMusicService name with
  | Some err => Some err
  | None =>
      match musicservices w !! (namespace, name) with
      | Some _ => None
      | None => Some (notFound KMusicService name)
      end
  end.

(** [k] runs [steps] under their guards; when one of them fails it returns
    what the status write answers, with an empty result. *)
Definition returnsWriteResult (k : M (controller.Result * option error))
    (steps : list (string * M (option error))) (meta : ObjectMeta) : Prop :=
  forall w reason err w1,
    controller.firstFailure steps w = (Ok (Some (reason, err)), w1) ->
    exists w',
      k w = (Ok (controller.mkResult 0, statusWriteResult (Namespace meta) (Name meta) w1), w').

(** The ready count [Reconcile] compares with [Spec.Replicas] at the end of a
    pass: that of the application StatefulSet when the lookup finds it, the
    one already in the status otherwise. *)
Definition observedReady (ms : MusicService) (w : World) : Z :=
  match faults w VGet KStatefulSet (Name (Meta ms)) with
  | Some _ => ReadyReplicas (Status ms)
  | None =>
      match statefulsets w !! (Namespace (Meta ms), Name (Meta ms)) with
      | Some sts => sts_ReadyReplicas sts
      | None => ReadyReplicas (Status ms)
      end
  end.

(** A step of the status manager keeps the spec and the ready count of the
    parent in hand. *)
Definition keepsCounts {A} (m : M A) (get : A -> MusicService) (ms : MusicService) : Prop :=
  forall w a w', m w = (Ok a, w') ->
    Spec (get a) = Spec ms /\ ReadyReplicas (Status (get a)) = ReadyReplicas (Status ms).

(** ** Package [internal/database]: the database providers *)

Module database.

(** The [Provider] interface, as the record of its methods. *)
Record Provider : Type := mkProvider {
  Name : string;
  DefaultImage : string;
  DefaultPort : Z;
  DefaultRootPassword : string;
  DefaultStorageSize : string;
  BuildInitReplicationScript : string -> string -> string
}.

Definition MariaDBProvider : Provider :=
  {| Name := "mariadb";
     DefaultImage := "mariadb:10.11";
     DefaultPort := 3306;
     DefaultRootPassword := "rootpass";
     DefaultStorageSize := "10Gi";
     BuildInitReplicationScript := fun masterHost password =>
       "
#!/bin/bash
set -e
echo " +:+ dq +:+ "Waiting for master to be ready..." +:+ dq +:+ "
until mysql -h " +:+ masterHost +:+ " -uroot -p" +:+ password +:+ " -e " +:+ dq +:+ "SELECT 1" +:+ dq +:+ " > /dev/null 2>&1; do
  sleep 2
done
echo " +:+ dq +:+ "Master is ready, configuring replication..." +:+ dq +:+ "
" |}.

Definition PostgreSQLProvider : Provider :=
  {| Name := "postgresql";
     DefaultImage := "postgres:15";
     DefaultPort := 5432;
     DefaultRootPassword := "postgres";
     DefaultStorageSize := "10Gi";
     BuildInitReplicationScript := fun masterHost password =>
       "
#!/bin/bash
set -e
echo " +:+ dq +:+ "Waiting for master to be ready..." +:+ dq +:+ "
until pg_isready -h " +:+ masterHost +:+ " -U postgres > /dev/null 2>&1; do
  sleep 2
done
echo " +:+ dq +:+ "Master is ready, configuring replication..." +:+ dq +:+ "
" |}.

Definition MySQLProvider : Provider :=
  {| Name := "mysql";
     DefaultImage := "mysql:8.0";
     DefaultPort := 3306;
     DefaultRootPassword := "rootpass";
     DefaultStorageSize := "10Gi";
     BuildInitReplicationScript := fun masterHost password =>
       "
#!/bin/bash
set -e
echo " +:+ dq +:+ "Waiting for master to be ready..." +:+ dq +:+ "
until mysql -h " +:+ masterHost +:+ " -uroot -p" +:+ password +:+ " -e " +:+ dq +:+ "SELECT 1" +:+ dq +:+ " > /dev/null 2>&1; do
  sleep 2
done
echo " +:+ dq +:+ "Master is ready, configuring replication..." +:+ dq +:+ "
" |}.

(** The package variable [providers]: a map from database type to a
    [Provider] interface value, [None] being the nil interface. The functions
    below take the registry they read or write and return the new one. *)
Definition providers : gmap string (option Provider) :=
  {[ "mariadb" := Some MariaDBProvider;
     "postgresql" := Some PostgreSQLProvider;
     "mysql" := Some MySQLProvider ]}.

Definition GetProvider (registry : gmap string (option Provider)) (dbType : string)
    : option Provider :=
  match registry !! dbType with
  | Some p => p
  | None =>
(* [providers["mariadb"]]: a missing key reads as the nil interface *)
match registry !! "mariadb" with
| Some p => p
| None => None
end
end.

Definition RegisterProvider (name : string) (provider : option Provider)
    (registry : gmap string (option Provider)) : gmap string (option Provider) :=
  <[name := provider]> registry.

End database.

(** A run of [RegisterProvider] calls, first to last, on the initial
    registry. *)
Definition registered (calls : list (string * option database.Provider))
    : gmap string (option database.Provider) :=
  foldl (fun registry call => database.RegisterProvider (fst call) (snd call) registry)
    database.providers calls.

(** ** Sample inputs *)

(** A quantity parser for the samples: decimal digits followed by nothing or
    by one of the binary suffixes Ki, Mi, Gi; the value in bytes. Anything
    else is malformed. It agrees with [resource.ParseQuantity] on the strings
    the samples use. *)
Fixpoint readDigits (acc : Z) (s : string) : Z * string :=
  match s with
  | EmptyString => (acc, EmptyString)
  | String c rest =>
      let n := Z.of_nat (nat_of_ascii c) in
      if (48 <=? n) && (n <=? 57) then readDigits (10 * acc + (n - 48)) rest
      else (acc, s)
  end.

Definition binaryQuantity : QuantityParser :=
  fun s =>
    match s with
    | EmptyString => None
    | String c _ =>
        let n := Z.of_nat (nat_of_ascii c) in
        if (48 <=? n) && (n <=? 57) then
          let '(value, suffix) := readDigits 0 s in
          if String.eqb suffix "" then Some value
          else if String.eqb suffix "Ki" then Some (value * 1024)
          else if String.eqb suffix "Mi" then Some (value * 1024 * 1024)
          else if String.eqb suffix "Gi" then Some (value * 1024 * 1024 * 1024)
          else None
        else None
    end.

(** The layout of the samples: a value read back from the cluster is laid
    out as it was written. *)
Definition asWritten : Layout := fun _ _ _ => true.

Definition sampleMeta : ObjectMeta :=
  {| Name := "demo"; Namespace := "default"; Labels := ∅; OwnerReferences := [];
     UID := "7d9c"; Generation := 3; DeletionTimestamp := None;
     Finalizers := [controller.musicServiceFinalizerName] |}.

Definition sampleSpec (database : option DatabaseSpec) (autoscaling : option AutoscalingSpec)
    : MusicServiceSpec :=
  {| spec_Replicas := 2; spec_Image := "nginx:latest"; spec_Port := 8080;
     spec_Storage := {| st_Size := "10Gi"; st_UpdatePolicy := "" |};
     spec_Streaming := {| str_Bitrate := "128k"; str_MaxConnections := 100 |};
     spec_Resources := None; spec_Autoscaling := autoscaling;
     spec_Database := database |}.

Definition sampleAutoscaling : AutoscalingSpec :=
  {| as_MinReplicas := 1; as_MaxReplicas := 5;
     as_TargetCPUUtilizationPercentage := 70;
     as_TargetMemoryUtilizationPercentage := None |}.

Definition sampleDatabase (size : string) (ha : bool) (autoscaling : option AutoscalingSpec)
    : DatabaseSpec :=
  {| db_Enabled := true; db_Replicas := 2; db_Image := ""; 
     db_Storage := Some {| st_Size := size; st_UpdatePolicy := "" |};
     db_RootPassword := ""; db_Replication := None;
     db_HighAvailability := if ha then Some {| ha_Enabled := true |} else None;
     db_Autoscaling := autoscaling |}.

Definition sampleService (database : option DatabaseSpec) (autoscaling : option AutoscalingSpec)
    : MusicService :=
  {| Meta := sampleMeta; Spec := sampleSpec database autoscaling; Status := emptyStatus |}.

(** A cluster that holds the parent and nothing else. *)
Definition clusterOf (ms : MusicService) : World :=
  {| musicservices := {[ ("default", "demo") := ms ]};
     statefulsets := ∅; services := ∅; secrets := ∅; hpas := ∅; pvcs := ∅;
     faults := fun _ _ _ => None;
     clock := 1000; entropy := fun i => N.of_nat (7 * i + 3); entropyPos := 0;
     entropyFails := false; trace := [] |}.

Definition withStatefulSets (m : gmap (string * string) StatefulSet) (w : World) : World :=
  replace StatefulSets m w.

Definition withFaults (f : Verb -> Kind -> string -> option error) (w : World) : World :=
  {| musicservices := musicservices w; statefulsets := statefulsets w;
     services := services w; secrets := secrets w; hpas := hpas w; pvcs := pvcs w;
     faults := f; clock := clock w; entropy := entropy w;
     entropyPos := entropyPos w; entropyFails := entropyFails w;
     trace := trace w |}.

Definition okOr {A} (default : A) (r : Res A) : A :=
  match r with Ok a => a | Panicked _ => default end.

Definition emptyStatefulSet : StatefulSet :=
  {| sts_Meta := objectMeta "" "" ∅ [];
     sts_Spec := {| ss_Replicas := None; ss_ServiceName := ""; ss_Selector := ∅;
                    ss_Template := {| pt_Labels := ∅;
                                      pt_Spec := {| ps_InitContainers := []; ps_Containers := [];
                                                    ps_Volumes := [] |} |};
                    ss_VolumeClaimTemplates := [] |};
     sts_ReadyReplicas := 0 |}.

Definition withReplicas (n : Z) (sts : StatefulSet) : StatefulSet :=
  withSpec sts
    {| ss_Replicas := Some n; ss_ServiceName := ss_ServiceName (sts_Spec sts);
       ss_Selector := ss_Selector (sts_Spec sts); ss_Template := ss_Template (sts_Spec sts);
       ss_VolumeClaimTemplates := ss_VolumeClaimTemplates (sts_Spec sts) |}.

Definition withReady (n : Z) (sts : StatefulSet) : StatefulSet :=
  {| sts_Meta := sts_Meta sts; sts_Spec := sts_Spec sts; sts_ReadyReplicas := n |}.

Definition boundClaim (name : string) (size : Z) : PersistentVolumeClaim :=
  {| pvc_Meta := objectMeta name "default" ∅ [];
     pvc_AccessModes := [builder.ReadWriteOnce];
     pvc_Requests := {[ ResourceStorage := size ]};
     pvc_Phase := ClaimBound |}.

Definition GiB : Z := 1024 * 1024 * 1024.

(** High availability with an autoscaling section for the database. *)
Definition haService : MusicService :=
  sampleService (Some (sampleDatabase "10Gi" true (Some sampleAutoscaling))) None.

(** An autoscaled application whose live StatefulSet was scaled to five
    replicas by the autoscaler; the spec says two. *)
Definition autoscaledService : MusicService := sampleService None (Some sampleAutoscaling).

Definition autoscaledCluster : World :=
  {| musicservices := {[ ("default", "demo") := autoscaledService ]};
     statefulsets :=
       {[ ("default", "demo") :=
            withReplicas 5 (okOr emptyStatefulSet
                              (builder.BuildAppStatefulSet (H := binaryQuantity) autoscaledService)) ]};
     services := ∅; secrets := ∅;
     hpas := match builder.BuildAutoscaler autoscaledService with
             | Ok hpa => {[ ("default", "demo-autoscaler") := hpa ]}
             | Panicked _ => ∅
             end;
     pvcs := ∅;
     faults := fun _ _ _ => None;
     clock := 1000; entropy := fun i => N.of_nat (7 * i + 3); entropyPos := 0;
     entropyFails := false; trace := [] |}.

(** A primary/replica database that declares 10Gi while its replica tier was
    created at 20Gi; the master tier is at 10Gi. *)
Definition shrunkService : MusicService :=
  sampleService (Some (sampleDatabase "10Gi" false None)) None.

Definition shrunkCluster : World :=
  {| musicservices := {[ ("default", "demo") := shrunkService ]};
     statefulsets :=
       {[ ("default", "demo-db-master") :=
            withReady 1 (okOr emptyStatefulSet
              (builder.BuildDatabaseMasterStatefulSet (H := binaryQuantity) shrunkService));
          ("default", "demo-db-replica") :=
            withReady 2 (okOr emptyStatefulSet
              (builder.BuildDatabaseReplicaStatefulSet (H := binaryQuantity)
                 (sampleService (Some (sampleDatabase "20Gi" false None)) None))) ]};
     services := ∅;
     secrets := {[ ("default", "demo-db-replication") :=
                     {| sec_Meta := objectMeta "demo-db-replication" "default" ∅ [];
                        sec_Type := builder.SecretTypeOpaque;
                        sec_Data := {[ "username" := "repl"; "password" := "s3cret" ]} |} ]};
     hpas := ∅;
     pvcs :=
       {[ ("default", "db-data-demo-db-master-0") :=
            boundClaim "db-data-demo-db-master-0" (10 * GiB);
          ("default", "db-data-demo-db-replica-0") :=
            boundClaim "db-data-demo-db-replica-0" (20 * GiB);
          ("default", "db-data-demo-db-replica-1") :=
            boundClaim "db-data-demo-db-replica-1" (20 * GiB) ]};
     faults := fun _ _ _ => None;
     clock := 1000; entropy := fun i => N.of_nat (7 * i + 3); entropyPos := 0;
     entropyFails := false; trace := [] |}.

(** A cluster whose API refuses to create services. *)
Definition refusingCluster : World :=
  withFaults
    (fun verb kind _ =>
       match verb, kind with
       | VCreate, KService => Some (mkError false "services is forbidden")
       | _, _ => None
       end)
    (clusterOf (sampleService None None)).

Definition sampleConditions : list Condition :=
  [ {| c_Type := "Available"; c_Status := ConditionFalse; c_ObservedGeneration := 2;
       c_LastTransitionTime := 500; c_Reason := "PodsNotReady";
       c_Message := "Waiting for pods to be ready" |};
    {| c_Type := "Reconciled"; c_Status := ConditionTrue; c_ObservedGeneration := 2;
       c_LastTransitionTime := 700; c_Reason := "ReconcileSuccess";
       c_Message := "Successfully reconciled" |} ].

(** A cluster without any workload yet, for the default service. *)
Definition sampleCluster : World := clusterOf (sampleService None None).

(** An application StatefulSet with two of its three replicas ready. *)
Definition progressingStatefulSet : StatefulSet :=
  withReady 2 (withReplicas 3 emptyStatefulSet).

Definition readyCondition : Condition :=
  condition "Available" ConditionTrue 3 "PodsReady" "All replicas are ready".

(** The primary/replica service after a pass that saw its replica tier. *)
Definition onceReplicatedService : MusicService :=
  withStatus shrunkService
    (setDatabase
       (Some {| dbs_Phase := "Ready"; dbs_MasterReady := true; dbs_ReplicasReady := 2;
                dbs_ReplicaEverCreated := true; dbs_ReplicaLastSeen := Some 900;
                dbs_ReplicaDeletionDetected := false; dbs_ReplicationReady := true |})
       (Status shrunkService)).

(** The same database declaring 10Gi while its master tier was created at
    20Gi. *)
Definition shrunkMasterCluster : World :=
  withStatefulSets
    {[ ("default", "demo-db-master") :=
         withReady 1 (okOr emptyStatefulSet
           (builder.BuildDatabaseMasterStatefulSet (H := binaryQuantity)
              (sampleService (Some (sampleDatabase "20Gi" false None)) None))) ]}
    (clusterOf shrunkService).

(** What a run leaves behind, for reading off a result. *)
Definition outcome {A} (r : Res A * World) : Res A := fst r.

Definition written {A} (r : Res A * World) : list Event := trace (snd r).

(** A service whose storage size is not a quantity. *)
Definition malformedService : MusicService :=
  {| Meta := sampleMeta;
     Spec := {| spec_Replicas := 2; spec_Image := "nginx:latest"; spec_Port := 8080;
                spec_Storage := {| st_Size := "plenty"; st_UpdatePolicy := "" |};
                spec_Streaming := {| str_Bitrate := "128k"; str_MaxConnections := 100 |};
                spec_Resources := None; spec_Autoscaling := None; spec_Database := None |};
     Status := emptyStatus |}.

(** A whole pass over the high-availability service on a cluster that holds
    nothing but the parent, with the Galera reconcilers above. *)
Definition haPass : Res (controller.Result * option error) * World :=
  controller.Reconcile (H := binaryQuantity) (L := asWritten)
    (galera.ReconcileGalera (H := binaryQuantity))
    galera.ReconcileGaleraServices
    (controller.mkRequest "default" "demo") (clusterOf haService).

(** ** More sample inputs *)

(** The StatefulSet the builder gives for the default service. *)
Definition sampleAppStatefulSet : StatefulSet :=
  okOr emptyStatefulSet
    (builder.BuildAppStatefulSet (H := binaryQuantity) (sampleService None None)).

(** A primary/replica database with replication switched off. *)
Definition unreplicatedDatabase : DatabaseSpec :=
  {| db_Enabled := true; db_Replicas := 2; db_Image := "";
     db_Storage := Some {| st_Size := "10Gi"; st_UpdatePolicy := "" |};
     db_RootPassword := "";
     db_Replication := Some {| rep_Enabled := Some false; rep_GTID := None |};
     db_HighAvailability := None; db_Autoscaling := None |}.

Definition unreplicatedService : MusicService :=
  sampleService (Some unreplicatedDatabase) None.

(** Two registrations on top of the built-in providers. *)
Definition sampleRegistrations : list (string * option database.Provider) :=
  [("mariadb", Some database.PostgreSQLProvider); ("oracle", Some database.MySQLProvider)].

(** A service that declares 20Gi under the Recreate policy, on a cluster
    whose application StatefulSet and claims were made at 10Gi. *)
Definition recreateService : MusicService :=
  {| Meta := sampleMeta;
     Spec := {| spec_Replicas := 2; spec_Image := "nginx:latest"; spec_Port := 8080;
                spec_Storage := {| st_Size := "20Gi"; st_UpdatePolicy := "Recreate" |};
                spec_Streaming := {| str_Bitrate := "128k"; str_MaxConnections := 100 |};
                spec_Resources := None; spec_Autoscaling := None; spec_Database := None |};
     Status := emptyStatus |}.

Definition recreateCluster : World :=
  {| musicservices := {[ ("default", "demo") := recreateService ]};
     statefulsets := {[ ("default", "demo") := withReady 2 sampleAppStatefulSet ]};
     services := ∅; secrets := ∅; hpas := ∅;
     pvcs :=
       {[ ("default", "music-data-demo-0") := boundClaim "music-data-demo-0" (10 * GiB);
          ("default", "music-data-demo-1") := boundClaim "music-data-demo-1" (10 * GiB) ]};
     faults := fun _ _ _ => None;
     clock := 1000; entropy := fun i => N.of_nat (7 * i + 3); entropyPos := 0;
     entropyFails := false; trace := [] |}.

(** The primary/replica service with its master Service in place, on a
    cluster where looking up the read Service times out. *)
Definition flakyReadCluster : World :=
  withFaults
    (fun verb kind name =>
       match verb, kind with
       | VGet, KService =>
           if String.eqb name "demo-db-read" then Some (mkError false "etcd request timed out")
           else None
       | _, _ => None
       end)
    (replace Services
       {[ ("default", "demo-db-master") := builder.BuildDatabaseMasterService shrunkService ]}
       (clusterOf shrunkService)).

(** The default service as first submitted, without a finalizer, and as
    deleted by its user, with a second finalizer of someone else. *)
Definition newService : MusicService :=
  withMeta (sampleService None None)
    {| Name := "demo"; Namespace := "default"; Labels := ∅; OwnerReferences := [];
       UID := "7d9c"; Generation := 1; DeletionTimestamp := None; Finalizers := [] |}.

Definition deletedService : MusicService :=
  withMeta (sampleService None None)
    {| Name := "demo"; Namespace := "default"; Labels := ∅; OwnerReferences := [];
       UID := "7d9c"; Generation := 3; DeletionTimestamp := Some 900;
       Finalizers := ["backup.example.org/hold"; controller.musicServiceFinalizerName] |}.

(** The sample StatefulSet under another governing service, without selector
    and without claim templates. *)
Definition relabelledStatefulSet : StatefulSet :=
  withSpec sampleAppStatefulSet
    {| ss_Replicas := Some 2; ss_ServiceName := "other"; ss_Selector := ∅;
       ss_Template := ss_Template (sts_Spec sampleAppStatefulSet);
       ss_VolumeClaimTemplates := [] |}.

(** * Properties *)

(** ** Running computations *)

Lemma m_bind_ok {A B} (m : M A) (f : A -> M B) (w w' : World) (a : A) :
  m w = (Ok a, w') -> m_bind m f w = f a w'.
Proof. intros Hm. unfold m_bind. now rewrite Hm. Qed.

Lemma m_bind_panicked {A B} (m : M A) (f : A -> M B) (w w' : World) (msg : string) :
  m w = (Panicked msg, w') -> m_bind m f w = (Panicked msg, w').
Proof. intros Hm. unfold m_bind. now rewrite Hm. Qed.

Lemma m_bind_liftRes_ok {A B} (a : A) (f : A -> M B) (w : World) :
  m_bind (liftRes (Ok a)) f w = f a w.
Proof. reflexivity. Qed.

Lemma m_bind_ext {A B} (m m' : M A) (f f' : A -> M B) (w : World) :
  m w = m' w -> (forall a w', f a w' = f' a w') -> m_bind m f w = m_bind m' f' w.
Proof.
  intros Hm Hf. unfold m_bind. rewrite Hm.
  destruct (m' w) as [[a|msg] w']; [apply Hf|reflexivity].
Qed.

Lemma sameCluster_refl w : sameCluster w w.
Proof. repeat split. Qed.

Lemma sameCluster_trans w1 w2 w3 :
  sameCluster w1 w2 -> sameCluster w2 w3 -> sameCluster w1 w3.
Proof. unfold sameCluster. intuition congruence. Qed.

Lemma sameCluster_withClock t w : sameCluster w (withClock t w).
Proof. repeat split. Qed.

Lemma sameCluster_withTrace t w : sameCluster w (withTrace t w).
Proof. repeat split. Qed.

Create HintDb cluster.
#[local] Hint Resolve sameCluster_refl sameCluster_withClock sameCluster_withTrace : cluster.

Lemma Get_sameCluster {A} (R : Resource A) ns name w :
  exists r, client.Get R ns name w = (Ok r, w).
Proof.
  unfold client.Get. destruct (faults w VGet (kind R) name); [eauto|].
  destruct (select R w !! (ns, name)); eauto.
Qed.

Lemma Get_found (ns name : string) (sts : StatefulSet) (w : World) :
  faults w VGet KStatefulSet name = None ->
  statefulsets w !! (ns, name) = Some sts ->
  client.Get StatefulSets ns name w = (Ok (inl sts), w).
Proof. intros Hf Hs. unfold client.Get. simpl. now rewrite Hf, Hs. Qed.

Lemma Get_absent (ns name : string) (w : World) :
  faults w VGet KStatefulSet name = None ->
  statefulsets w !! (ns, name) = None ->
  client.Get StatefulSets ns name w = (Ok (inr (notFound KStatefulSet name)), w).
Proof. intros Hf Hs. unfold client.Get. simpl. now rewrite Hf, Hs. Qed.

Lemma StatusUpdate_run (ms : MusicService) (w : World) :
  exists e w', client.StatusUpdate ms w = (Ok e, w') /\
    trace w' = (trace w ++ [EvStatusUpdate ms])%list.
Proof.
  unfold client.StatusUpdate, m_bind, emit. simpl.
  destruct (faults w VStatusUpdate KMusicService (Name (Meta ms))); [eauto|].
  destruct (musicservices w !! keyOf MusicServices ms); eauto.
Qed.

Lemma tidy_Secrets : tidy Secrets.
Proof. intros m w. repeat split. Qed.
Lemma tidy_StatefulSets : tidy StatefulSets.
Proof. intros m w. repeat split. Qed.
Lemma tidy_PVCs : tidy PVCs.
Proof. intros m w. repeat split. Qed.
Lemma tidy_HPAs : tidy HPAs.
Proof. intros m w. repeat split. Qed.
Lemma tidy_Services : tidy Services.
Proof. intros m w. repeat split. Qed.

#[local] Hint Resolve tidy_Secrets tidy_StatefulSets tidy_PVCs tidy_HPAs tidy_Services : cluster.

Lemma store_run {A} (R : Resource A) (verb : Verb) (o : A) (w : World) :
  tidy R ->
  exists e w', client.store R verb o w = (Ok e, w') /\ trace w' = trace w /\
               faults w' = faults w.
Proof.
  intros Ht. unfold client.store.
  destruct (faults w verb (kind R) (Name (meta R o))); [eauto|].
  destruct (select R w !! keyOf R o), verb; eauto;
    eexists _, _; (split; [reflexivity|]); split; apply Ht.
Qed.

Lemma Update_run {A} (R : Resource A) (o : A) (w : World) :
  tidy R ->
  exists e w', client.Update R o w = (Ok e, w') /\
               trace w' = (trace w ++ [EvUpdate (inject R o)])%list /\
               faults w' = faults w.
Proof.
  intros Ht. unfold client.Update, m_bind, emit.
  destruct (store_run R VUpdate o (withTrace (trace w ++ [EvUpdate (inject R o)]) w) Ht)
    as (e & w' & Hs & Htr & Hf).
  rewrite Hs. eauto.
Qed.

Lemma Create_run {A} (R : Resource A) (o : A) (w : World) :
  tidy R ->
  exists e w', client.Create R o w = (Ok e, w') /\
               trace w' = (trace w ++ [EvCreate (inject R o)])%list /\
               faults w' = faults w.
Proof.
  intros Ht. unfold client.Create, m_bind, emit.
  destruct (store_run R VCreate o (withTrace (trace w ++ [EvCreate (inject R o)]) w) Ht)
    as (e & w' & Hs & Htr & Hf).
  rewrite Hs. eauto.
Qed.

(** ** Conditions *)

Lemma find_app {A} (f : A -> bool) (l1 l2 : list A) :
  List.find f (l1 ++ l2) =
    match List.find f l1 with
    | Some x => Some x
    | None => List.find f l2
    end.
Proof.
  induction l1 as [|x l1 IH]; simpl; [reflexivity|].
  now destruct (f x).
Qed.

Section ConditionLemmas.
Variable now : Time.

Lemma replaceExisting_None conds c :
  status.replaceExisting now conds c = None <-> findCondition (c_Type c) conds = None.
Proof.
  induction conds as [|c0 rest IH]; simpl; [tauto|].
  destruct (String.eqb (c_Type c0) (c_Type c)) eqn:E; [split; discriminate|].
  destruct (status.replaceExisting now rest c); [split; [discriminate|]|tauto].
  intros Hn. apply IH in Hn. discriminate.
Qed.

Lemma replaceExisting_split conds c conds' :
  status.replaceExisting now conds c = Some conds' ->
  exists pre old post,
    conds = (pre ++ old :: post)%list /\
    findCondition (c_Type c) conds = Some old /\
    Forall (fun x => c_Type x <> c_Type c) pre /\
    c_Type old = c_Type c /\
    conds' = (pre ++ withLastTransitionTime c
                (if bool_decide (c_Status old = c_Status c)
                 then c_LastTransitionTime old else now) :: post)%list.
Proof.
  revert conds'. induction conds as [|c0 rest IH]; simpl; intros conds' Hr; [discriminate|].
  destruct (String.eqb (c_Type c0) (c_Type c)) eqn:E.
  - apply String.eqb_eq in E. exists [], c0, rest. simpl. repeat split; auto.
    inversion Hr; subst. destruct (bool_decide (c_Status c0 = c_Status c)); reflexivity.
  - destruct (status.replaceExisting now rest c) eqn:Er; [|discriminate].
    destruct (IH _ eq_refl) as (pre & old & post & -> & Hf & Hpre & Ht & ->).
    exists (c0 :: pre), old, post. inversion Hr; subst. repeat split; auto.
    constructor; auto. now apply String.eqb_neq.
Qed.

Lemma findCondition_app_skip t pre rest :
  Forall (fun x => c_Type x <> t) pre ->
  findCondition t (pre ++ rest) = findCondition t rest.
Proof.
  induction 1 as [|x pre Hx Hpre IH]; simpl; [reflexivity|].
  assert (E : String.eqb (c_Type x) t = false) by now apply String.eqb_neq.
  unfold findCondition in *. simpl. now rewrite E.
Qed.

Lemma findCondition_type t conds c :
  findCondition t conds = Some c -> c_Type c = t.
Proof.
  unfold findCondition. intros Hf. apply List.find_some in Hf as [_ Hf].
  now apply String.eqb_eq.
Qed.

Lemma findCondition_None_notin t conds :
  findCondition t conds = None -> ~ List.In t (map c_Type conds).
Proof.
  unfold findCondition. intros Hf Hin. apply List.in_map_iff in Hin as (x & Hx & Hin).
  apply (List.find_none _ _ Hf) in Hin. apply String.eqb_neq in Hin. congruence.
Qed.

(** What [setCondition] makes of a condition list. *)
Lemma applyCondition_spec conds c :
  let c1 := if IsZero (c_LastTransitionTime c) then withLastTransitionTime c now else c in
  match findCondition (c_Type c) conds with
  | Some old =>
      exists pre post,
        conds = (pre ++ old :: post)%list /\
        Forall (fun x => c_Type x <> c_Type c) pre /\
        status.applyCondition now conds c =
          (pre ++ withLastTransitionTime c
             (if bool_decide (c_Status old = c_Status c)
              then c_LastTransitionTime old else now) :: post)%list
  | None => status.applyCondition now conds c = (conds ++ [c1])%list
  end.
Proof.
  intros c1. unfold status.applyCondition. fold c1.
  assert (Hty : c_Type c1 = c_Type c) by (unfold c1; destruct (IsZero _); reflexivity).
  assert (Hst : c_Status c1 = c_Status c) by (unfold c1; destruct (IsZero _); reflexivity).
  assert (Hw : forall t, withLastTransitionTime c1 t = withLastTransitionTime c t)
    by (intros t; unfold c1; destruct (IsZero _); reflexivity).
  destruct (status.replaceExisting now conds c1) as [conds'|] eqn:Er.
  - apply replaceExisting_split in Er as (pre & old & post & Hc & Hf & Hpre & Ht & ->).
    rewrite Hty in Hf, Hpre. rewrite Hf. exists pre, post. repeat split; auto.
    now rewrite Hw, Hst.
  - apply replaceExisting_None in Er. rewrite Hty in Er. now rewrite Er.
Qed.

Lemma applyCondition_find conds c :
  findCondition (c_Type c) (status.applyCondition now conds c) =
    Some (withLastTransitionTime c
            match findCondition (c_Type c) conds with
            | Some old =>
                if bool_decide (c_Status old = c_Status c)
                then c_LastTransitionTime old else now
            | None =>
                if IsZero (c_LastTransitionTime c) then now else c_LastTransitionTime c
            end).
Proof.
  pose proof (applyCondition_spec conds c) as Hs. simpl in Hs.
  destruct (findCondition (c_Type c) conds) as [old|] eqn:Hf.
  - destruct Hs as (pre & post & _ & Hpre & ->).
    rewrite findCondition_app_skip by assumption.
    unfold findCondition. simpl. now rewrite String.eqb_refl.
  - rewrite Hs. unfold findCondition in *. rewrite find_app, Hf. simpl.
    destruct (IsZero (c_LastTransitionTime c)); simpl; rewrite String.eqb_refl;
      [reflexivity|]. now destruct c.
Qed.

Lemma applyCondition_find_type conds c t :
  c_Type c = t ->
  findCondition t (status.applyCondition now conds c) =
    Some (withLastTransitionTime c
            match findCondition t conds with
            | Some old =>
                if bool_decide (c_Status old = c_Status c)
                then c_LastTransitionTime old else now
            | None =>
                if IsZero (c_LastTransitionTime c) then now else c_LastTransitionTime c
            end).
Proof. intros <-. apply applyCondition_find. Qed.

Lemma applyCondition_other conds c t :
  t <> c_Type c ->
  findCondition t (status.applyCondition now conds c) = findCondition t conds.
Proof.
  intros Ht. pose proof (applyCondition_spec conds c) as Hs. simpl in Hs.
  assert (E : String.eqb (c_Type c) t = false) by (apply String.eqb_neq; congruence).
  destruct (findCondition (c_Type c) conds) as [old|] eqn:Hf.
  - destruct Hs as (pre & post & -> & Hpre & ->).
    apply findCondition_type in Hf.
    unfold findCondition. rewrite !find_app.
    destruct (List.find _ pre); [reflexivity|]. simpl. now rewrite Hf, E.
  - rewrite Hs. unfold findCondition. rewrite find_app.
    destruct (List.find _ conds); [reflexivity|]. simpl.
    destruct (IsZero (c_LastTransitionTime c)); simpl; now rewrite E.
Qed.

Lemma applyCondition_types conds c :
  map c_Type (status.applyCondition now conds c) =
    match findCondition (c_Type c) conds with
    | Some _ => map c_Type conds
    | None => (map c_Type conds ++ [c_Type c])%list
    end.
Proof.
  pose proof (applyCondition_spec conds c) as Hs. simpl in Hs.
  destruct (findCondition (c_Type c) conds) as [old|] eqn:Hf.
  - destruct Hs as (pre & post & -> & Hpre & ->).
    apply findCondition_type in Hf. rewrite !List.map_app. simpl. now rewrite Hf.
  - rewrite Hs, List.map_app. simpl. now destruct (IsZero (c_LastTransitionTime c)).
Qed.

Lemma applyCondition_NoDup conds c :
  List.NoDup (map c_Type conds) ->
  List.NoDup (map c_Type (status.applyCondition now conds c)).
Proof.
  intros Hnd. rewrite applyCondition_types.
  destruct (findCondition (c_Type c) conds) eqn:Hf; [assumption|].
  apply findCondition_None_notin in Hf.
  apply List.NoDup_app; auto.
  - repeat constructor. intros [].
  - intros x Hx [<-|[]]. contradiction.
Qed.
End ConditionLemmas.

Lemma setCondition_run conds c w :
  status.setCondition conds c w =
    (Ok (status.applyCondition (clock w) conds c), withClock (clock w + 1) w).
Proof. reflexivity. Qed.

Lemma setStatusCondition_run ms c w :
  status.setStatusCondition ms c w =
    (Ok (withStatus ms (setConditions (status.applyCondition (clock w) (Conditions (Status ms)) c)
                          (Status ms))),
     withClock (clock w + 1) w).
Proof. reflexivity. Qed.

(** C5: condition types stay unique and keep their first-insert order (an
    existing type is replaced in place, a new type is appended at the end),
    and the transition time of an existing type is kept when the status is the
    same and becomes the current time when the status changes, whatever the
    reason and message. *)
Theorem setCondition_stable (conds : list Condition) (c : Condition) (w : World) :
  List.NoDup (map c_Type conds) ->
  exists conds' new,
    status.setCondition conds c w = (Ok conds', withClock (clock w + 1) w) /\
    List.NoDup (map c_Type conds') /\
    findCondition (c_Type c) conds' = Some new /\
    c_Type new = c_Type c /\ c_Status new = c_Status c /\
    c_Reason new = c_Reason c /\ c_Message new = c_Message c /\
    (forall t, t <> c_Type c -> findCondition t conds' = findCondition t conds) /\
    match findCondition (c_Type c) conds with
    | Some old =>
        (exists pre post,
           conds = (pre ++ old :: post)%list /\ conds' = (pre ++ new :: post)%list) /\
        (c_Status old = c_Status c -> c_LastTransitionTime new = c_LastTransitionTime old) /\
        (c_Status old <> c_Status c -> c_LastTransitionTime new = clock w)
    | None => conds' = (conds ++ [new])%list
    end.
Proof.
  intros Hnd. rewrite setCondition_run.
  pose proof (applyCondition_spec (clock w) conds c) as Hs. simpl in Hs.
  pose proof (applyCondition_find (clock w) conds c) as Hf.
  eexists _, _. split; [reflexivity|].
  split; [now apply applyCondition_NoDup|].
  split; [exact Hf|].
  repeat split; try reflexivity.
  - intros t Ht. now apply applyCondition_other.
  - destruct (findCondition (c_Type c) conds) as [old|] eqn:Hold.
    + destruct Hs as (pre & post & Hc & Hpre & Ha). split; [|split].
      * exists pre, post. split; [assumption|]. exact Ha.
      * intros Heq. simpl. now rewrite bool_decide_eq_true_2.
      * intros Hne. simpl. now rewrite bool_decide_eq_false_2.
    + rewrite Hs. f_equal. f_equal.
      destruct (IsZero (c_LastTransitionTime c)); [reflexivity|]. now destruct c.
Qed.

(** ** The status manager *)

Section StatusLemmas.
Context `{QuantityParser} {L : Layout}.

Lemma status_listPVCsByPrefix_run claimName appName ns w :
  exists r, status.listPVCsByPrefix claimName appName ns w = (Ok r, w).
Proof.
  unfold status.listPVCsByPrefix, m_bind, client.List.
  destruct (faults w VList (kind PVCs) ""); simpl; eauto.
Qed.

(** [updateStorageWarnings] sets exactly one condition, of the given type,
    and changes nothing in the cluster. *)
Lemma updateStorageWarnings_run ms sts claimName appName desiredSize conditionType w :
  exists c,
    status.updateStorageWarnings ms sts claimName appName desiredSize conditionType w =
      (Ok (withStatus ms (setConditions
             (status.applyCondition (clock w) (Conditions (Status ms)) c) (Status ms))),
       withClock (clock w + 1) w) /\
    c_Type c = conditionType /\
    (status.shrinkRequested sts desiredSize = true ->
     c_Status c = ConditionFalse /\ c_Reason c = "ShrinkNotSupported") /\
    (status.shrinkRequested sts desiredSize = false -> c_Reason c <> "ShrinkNotSupported").
Proof.
  unfold status.updateStorageWarnings.
  destruct (status.shrinkRequested sts desiredSize) eqn:Hs.
  - eexists. rewrite setStatusCondition_run. split; [reflexivity|]. simpl.
    repeat split; auto; discriminate.
  - destruct (status_listPVCsByPrefix_run claimName appName (Namespace (Meta ms)) w) as [r Hr].
    rewrite (m_bind_ok _ _ _ _ _ Hr).
    match goal with |- context [if ?b then _ else _] => destruct b end;
      eexists; rewrite setStatusCondition_run; (split; [reflexivity|]); simpl;
      repeat split; auto; discriminate.
Qed.
End StatusLemmas.

(** The tail of [UpdateFromAppStatefulSet]: storage warnings, then the
    status write. Phase, replica counts and the Available condition are left
    as they are. *)
Lemma UpdateFromAppStatefulSet_tail `{QuantityParser}
    (ms : MusicService) (sts : StatefulSet) (w : World) :
  exists ms' e w',
    (let* ms := status.updateStorageWarnings ms sts "music-data" (Name (Meta ms))
                  (st_Size (spec_Storage (Spec ms))) "StorageWarningApp" in
     let* e := client.StatusUpdate ms in
     m_ret (ms, e)) w = (Ok (ms', e), w') /\
    trace w' = (trace w ++ [EvStatusUpdate ms'])%list /\
    Phase (Status ms') = Phase (Status ms) /\
    DesiredReplicas (Status ms') = DesiredReplicas (Status ms) /\
    ReadyReplicas (Status ms') = ReadyReplicas (Status ms) /\
    findCondition "Available" (Conditions (Status ms')) =
      findCondition "Available" (Conditions (Status ms)).
Proof.
  destruct (updateStorageWarnings_run ms sts "music-data" (Name (Meta ms))
              (st_Size (spec_Storage (Spec ms))) "StorageWarningApp" w)
    as (c & Hrun & Hty & _ & _).
  rewrite (m_bind_ok _ _ _ _ _ Hrun).
  match goal with |- context [m_bind (client.StatusUpdate ?m) _ ?w0] =>
    destruct (StatusUpdate_run m w0) as (e & w' & Hrun' & Htrace) end.
  rewrite (m_bind_ok _ _ _ _ _ Hrun').
  eexists _, e, w'. split; [reflexivity|]. split; [exact Htrace|].
  simpl. repeat split.
  apply applyCondition_other. rewrite Hty. discriminate.
Qed.

(** C4: with three desired replicas, no ready replica gives phase Pending and
    Available False/PodsNotReady, two ready replicas give phase Progressing
    and Available False with a message ending in "2/3 ready", three ready
    replicas give phase Available and Available True/PodsReady; the status
    with these values is the one sent to the API. *)
Theorem UpdateFromAppStatefulSet_phases `{QuantityParser}
    (ms : MusicService) (sts : StatefulSet) (w : World) :
  ss_Replicas (sts_Spec sts) = Some 3 ->
  exists ms' e w' available,
    status.UpdateFromAppStatefulSet ms sts w = (Ok (ms', e), w') /\
    trace w' = (trace w ++ [EvStatusUpdate ms'])%list /\
    DesiredReplicas (Status ms') = 3 /\
    ReadyReplicas (Status ms') = sts_ReadyReplicas sts /\
    findCondition "Available" (Conditions (Status ms')) = Some available /\
    (sts_ReadyReplicas sts = 0 ->
       Phase (Status ms') = "Pending" /\
       c_Status available = ConditionFalse /\ c_Reason available = "PodsNotReady") /\
    (sts_ReadyReplicas sts = 2 ->
       Phase (Status ms') = "Progressing" /\
       c_Status available = ConditionFalse /\
       exists prefix, c_Message available = prefix +:+ "2/3 ready") /\
    (sts_ReadyReplicas sts = 3 ->
       Phase (Status ms') = "Available" /\
       c_Status available = ConditionTrue /\ c_Reason available = "PodsReady").
Proof.
  intros Hrep. unfold status.UpdateFromAppStatefulSet. rewrite Hrep.
  unfold liftRes at 1. unfold m_bind at 1. cbn [deref].
  destruct (sts_ReadyReplicas sts =? 0) eqn:E0;
    [|destruct (sts_ReadyReplicas sts <? 3) eqn:E3];
    rewrite (m_bind_ok _ _ _ _ _ (setStatusCondition_run _ _ _));
    match goal with |- context [m_bind (status.updateStorageWarnings ?m _ _ _ _ _) _ ?w0] =>
      destruct (UpdateFromAppStatefulSet_tail m sts w0)
        as (ms' & e & w' & Hrun & Htrace & Hphase & Hd & Hr & Hav) end;
    exists ms', e, w'; eexists; (split; [exact Hrun|]);
    rewrite Hav, Hphase, Hd, Hr; cbn [Status withStatus Conditions setConditions];
    rewrite applyCondition_find_type by reflexivity;
    (split; [exact Htrace|]);
    (split; [reflexivity|]); (split; [reflexivity|]); (split; [reflexivity|]);
    (split; [|split]); intros Hready; rewrite Hready in *; cbn in E0; try cbn in E3;
    try discriminate; repeat split.
  exists "Waiting for pods: ". reflexivity.
Qed.

(** ** Replica history *)

Section ReplicaHistory.
Context `{QuantityParser} {L : Layout}.

(** The master block reads the cluster and may set storage and master
    fields; the replica history is not its business. *)
Lemma checkMasterStatus_run (ms : MusicService) (db : DatabaseSpec) (w : World) :
  spec_Database (Spec ms) = Some db ->
  exists ms1 w1,
    status.checkMasterStatus ms w = (Ok ms1, w1) /\
    (is_Some (Database (Status ms)) -> is_Some (Database (Status ms1))) /\
    sameCluster w w1 /\ trace w1 = trace w /\
    Meta ms1 = Meta ms /\ Spec ms1 = Spec ms /\
    dbs_ReplicaEverCreated (status.databaseStatus ms1) =
      dbs_ReplicaEverCreated (status.databaseStatus ms) /\
    dbs_ReplicaDeletionDetected (status.databaseStatus ms1) =
      dbs_ReplicaDeletionDetected (status.databaseStatus ms) /\
    findCondition "DatabaseReplicaHistory" (Conditions (Status ms1)) =
      findCondition "DatabaseReplicaHistory" (Conditions (Status ms)).
Proof.
  intros Hdb. unfold status.checkMasterStatus.
  destruct (Get_sameCluster StatefulSets (Namespace (Meta ms))
              (Name (Meta ms) +:+ "-db-master") w) as [r Hr].
  rewrite (m_bind_ok _ _ _ _ _ Hr).
  destruct r as [masterSts|err].
  - cbn [Spec withStatus status.withDatabaseStatus]. rewrite Hdb.
    unfold liftRes at 1. unfold m_bind at 1. cbn [deref].
    destruct (db_Storage db) as [storage|].
    + match goal with |- context [status.updateStorageWarnings ?m ?s ?a ?b ?c ?d ?w0] =>
        destruct (updateStorageWarnings_run m s a b c d w0) as (c0 & Hrun & Hty & _ & _) end.
      rewrite Hrun. eexists _, _. split; [reflexivity|].
      split; [intros _; simpl; eauto|].
      split; [apply sameCluster_withClock|].
      do 5 (split; [reflexivity|]).
      simpl. apply applyCondition_other. rewrite Hty. discriminate.
    + eexists _, _. split; [reflexivity|].
      split; [intros _; simpl; eauto|].
      split; [apply sameCluster_refl|]. repeat split.
  - eexists _, _. split; [reflexivity|].
    split; [auto|]. split; [apply sameCluster_refl|]. repeat split.
Qed.

Lemma databaseStatus_Some (ms : MusicService) :
  is_Some (Database (Status ms)) -> Database (Status ms) = Some (status.databaseStatus ms).
Proof. intros [d Hd]. unfold status.databaseStatus. now rewrite Hd. Qed.

Lemma checkReplicaStatus_run (ms : MusicService) (db : DatabaseSpec) (w : World) :
  spec_Database (Spec ms) = Some db ->
  db_Replicas db > 0 ->
  is_Some (Database (Status ms)) ->
  let replica := Name (Meta ms) +:+ "-db-replica" in
  let before := status.databaseStatus ms in
  exists ms' w',
    status.checkReplicaStatus ms w = (Ok ms', w') /\
    trace w' = trace w /\
    is_Some (Database (Status ms')) /\
    let after := status.databaseStatus ms' in
    (dbs_ReplicaEverCreated before = true -> dbs_ReplicaEverCreated after = true) /\
    (faults w VGet KStatefulSet replica = None ->
     is_Some (statefulsets w !! (Namespace (Meta ms), replica)) ->
     dbs_ReplicaEverCreated after = true /\ dbs_ReplicaDeletionDetected after = false) /\
    (faults w VGet KStatefulSet replica = None ->
     statefulsets w !! (Namespace (Meta ms), replica) = None ->
     (dbs_ReplicaEverCreated before = false ->
      dbs_ReplicaEverCreated after = false /\
      dbs_ReplicaDeletionDetected after = dbs_ReplicaDeletionDetected before /\
      findCondition "DatabaseReplicaHistory" (Conditions (Status ms')) =
        findCondition "DatabaseReplicaHistory" (Conditions (Status ms))) /\
     (dbs_ReplicaEverCreated before = true ->
      dbs_ReplicaDeletionDetected after = true /\
      exists c, findCondition "DatabaseReplicaHistory" (Conditions (Status ms')) = Some c /\
                c_Status c = ConditionFalse /\ c_Reason c = "ReplicaDeleted")).
Proof.
  intros Hdb Hrep Hinit replica before.
  assert (Hgt : (db_Replicas db >? 0) = true) by (apply Z.gtb_lt; lia).
  unfold status.checkReplicaStatus. rewrite Hdb.
  unfold liftRes, m_bind, client.Get. cbn [deref kind select StatefulSets].
  rewrite Hgt. fold replica.
  destruct (faults w VGet KStatefulSet replica) as [err|] eqn:Hf.
  - (* the read fails with an injected error *)
    destruct (IsNotFound err) eqn:Hnf;
      [destruct (dbs_ReplicaEverCreated (status.databaseStatus ms)) eqn:Hever|].
    + rewrite setStatusCondition_run. eexists _, _. split; [reflexivity|].
      split; [reflexivity|]. split; [simpl; eauto|]. simpl.
      split; [auto|]. split; discriminate.
    + eexists _, _. split; [reflexivity|]. split; [reflexivity|]. split; [exact Hinit|].
      simpl. fold before. split; [congruence|]. split; discriminate.
    + eexists _, _. split; [reflexivity|]. split; [reflexivity|]. split; [exact Hinit|].
      simpl. split; [auto|]. split; discriminate.
  - destruct (statefulsets w !! (Namespace (Meta ms), replica)) as [replicaSts|] eqn:Hs.
    + (* the replica StatefulSet is there *)
      unfold Now. rewrite setStatusCondition_run. eexists _, _. split; [reflexivity|].
      split; [reflexivity|]. split; [simpl; eauto|]. simpl.
      split; [auto|]. split; [auto|]. discriminate.
    + (* the replica StatefulSet is not found *)
      cbn [IsNotFound notFound].
      destruct (dbs_ReplicaEverCreated (status.databaseStatus ms)) eqn:Hever.
      * rewrite setStatusCondition_run. eexists _, _. split; [reflexivity|].
        split; [reflexivity|]. split; [simpl; eauto|]. simpl.
        split; [auto|]. split; [intros _ [x Hx]; discriminate|].
        intros _ _. split; [unfold before; congruence|]. intros _. split; [reflexivity|].
        rewrite applyCondition_find_type by reflexivity. eexists. split; [reflexivity|].
        split; reflexivity.
      * eexists _, _. split; [reflexivity|]. split; [reflexivity|]. split; [exact Hinit|].
        simpl. fold before. split; [congruence|]. split; [intros _ [x Hx]; discriminate|].
        intros _ _. split; [auto|]. unfold before. congruence.
Qed.
End ReplicaHistory.

(** C7: with the database enabled and replicas declared, [UpdateDatabase]
    keeps [replicaDeletionDetected] as it was while no replica was ever seen
    and the replica StatefulSet is not found; sets [replicaEverCreated] when
    the replica StatefulSet is found; never clears [replicaEverCreated]; and,
    when the flag is set and the replica StatefulSet is not found, sets
    [replicaDeletionDetected] and the DatabaseReplicaHistory condition to
    False/ReplicaDeleted. *)
Theorem UpdateDatabase_replica_history `{QuantityParser}
    (ms : MusicService) (db : DatabaseSpec) (w : World) :
  spec_Database (Spec ms) = Some db ->
  db_Enabled db = true ->
  db_Replicas db > 0 ->
  let replica := Name (Meta ms) +:+ "-db-replica" in
  let before := status.databaseStatus ms in
  exists ms' e w' after,
    status.UpdateDatabase ms w = (Ok (ms', e), w') /\
    trace w' = (trace w ++ [EvStatusUpdate ms'])%list /\
    Database (Status ms') = Some after /\
    (dbs_ReplicaEverCreated before = true -> dbs_ReplicaEverCreated after = true) /\
    (faults w VGet KStatefulSet replica = None ->
     is_Some (statefulsets w !! (Namespace (Meta ms), replica)) ->
     dbs_ReplicaEverCreated after = true /\ dbs_ReplicaDeletionDetected after = false) /\
    (faults w VGet KStatefulSet replica = None ->
     statefulsets w !! (Namespace (Meta ms), replica) = None ->
     (dbs_ReplicaEverCreated before = false ->
      dbs_ReplicaEverCreated after = false /\
      dbs_ReplicaDeletionDetected after = dbs_ReplicaDeletionDetected before /\
      findCondition "DatabaseReplicaHistory" (Conditions (Status ms')) =
        findCondition "DatabaseReplicaHistory" (Conditions (Status ms))) /\
     (dbs_ReplicaEverCreated before = true ->
      dbs_ReplicaDeletionDetected after = true /\
      exists c, findCondition "DatabaseReplicaHistory" (Conditions (Status ms')) = Some c /\
                c_Status c = ConditionFalse /\ c_Reason c = "ReplicaDeleted")).
Proof.
  intros Hdb Hen Hrep replica before. unfold status.UpdateDatabase.
  set (ms0 := status.withDatabaseStatus ms (status.databaseStatus ms)).
  assert (Hdb0 : spec_Database (Spec ms0) = Some db) by exact Hdb.
  destruct (checkMasterStatus_run ms0 db w Hdb0)
    as (ms1 & w1 & Hrun1 & Hinit & Hsame & Htr1 & Hmeta & Hspec & Hever & Hdel & Hcond).
  rewrite (m_bind_ok _ _ _ _ _ Hrun1).
  assert (Hdb1 : spec_Database (Spec ms1) = Some db) by (rewrite Hspec; exact Hdb0).
  assert (Hinit1 : is_Some (Database (Status ms1))) by (apply Hinit; simpl; eauto).
  destruct (checkReplicaStatus_run ms1 db w1 Hdb1 Hrep Hinit1)
    as (ms2 & w2 & Hrun2 & Htr2 & Hinit2 & Hkeep & Hpresent & Habsent).
  rewrite (m_bind_ok _ _ _ _ _ Hrun2).
  destruct (StatusUpdate_run ms2 w2) as (e & w' & Hrun3 & Htrace).
  rewrite (m_bind_ok _ _ _ _ _ Hrun3).
  exists ms2, e, w', (status.databaseStatus ms2).
  split; [reflexivity|]. split; [rewrite Htrace; congruence|].
  split; [now apply databaseStatus_Some|].
  destruct Hsame as (_ & Hsts & _ & _ & _ & _ & Hfaults & _).
  change (dbs_ReplicaEverCreated (status.databaseStatus ms0))
    with (dbs_ReplicaEverCreated before) in Hever.
  change (dbs_ReplicaDeletionDetected (status.databaseStatus ms0))
    with (dbs_ReplicaDeletionDetected before) in Hdel.
  change (Conditions (Status ms0)) with (Conditions (Status ms)) in Hcond.
  change (Meta ms0) with (Meta ms) in Hmeta.
  rewrite Hmeta, <- Hsts, <- Hfaults, Hever, Hdel, Hcond in *.
  split; [exact Hkeep|]. split; [exact Hpresent|]. exact Habsent.
Qed.

(** ** The builder *)

Section BuilderLemmas.
Context `{QuantityParser} {L : Layout}.

Lemma MustParse_ok (s : string) : is_ok (MustParse s) = false <-> ParseQuantity s = None.
Proof. unfold MustParse. destruct (ParseQuantity s); simpl; split; congruence. Qed.

Lemma buildDatabaseConfig_ok (ms : MusicService) :
  is_ok (builder.buildDatabaseConfig ms) = false <->
  ParseQuantity "10Gi" = None \/ ParseQuantity (declaredDatabaseSize ms) = None.
Proof.
  unfold builder.buildDatabaseConfig, declaredDatabaseSize, MustParse.
  destruct (ParseQuantity "10Gi") eqn:Hd; simpl; [|tauto].
  destruct (spec_Database (Spec ms)) as [db|]; simpl.
  - destruct (db_Storage db) as [st|]; simpl.
    + destruct (ParseQuantity (st_Size st)); simpl; split; intros; intuition congruence.
    + rewrite Hd. split; intros; intuition congruence.
  - rewrite Hd. split; intros; intuition congruence.
Qed.

Lemma res_bind_ok {A B} (r : Res A) (f : A -> Res B) :
  (forall a, is_ok (f a) = true) -> is_ok (res_bind r f) = is_ok r.
Proof. intros Hf. destruct r; simpl; auto. Qed.

(** Whether replication is spelled out or left to its default, the
    database configuration differs at most in the GTID flag, which no
    descriptor reads. *)
Lemma buildDatabaseConfig_default (ms : MusicService) (db : DatabaseSpec) (gtid : option bool) :
  spec_Database (Spec ms) = Some db ->
  (db_Replication db = None \/
   exists r, db_Replication db = Some r /\ rep_Enabled r = None) ->
  match builder.buildDatabaseConfig ms,
        builder.buildDatabaseConfig (withReplicationEnabled ms db gtid) with
  | Ok c, Ok c' =>
      builder.image c = builder.image c' /\
      builder.storageSize c = builder.storageSize c' /\
      builder.rootPassword c = builder.rootPassword c' /\
      builder.replicas c = builder.replicas c' /\
      builder.masterHost c = builder.masterHost c' /\
      builder.replicationEnabled c = true /\ builder.replicationEnabled c' = true /\
      builder.replicationSecret c = builder.replicationSecret c'
  | Panicked m, Panicked m' => m = m'
  | _, _ => False
  end.
Proof.
  intros Hdb Hrep. unfold builder.buildDatabaseConfig, withReplicationEnabled.
  cbn [Spec withDatabase spec_Database Meta]. rewrite Hdb.
  destruct (MustParse "10Gi"); cbn [res_bind]; [|reflexivity].
  cbn [withReplication db_Storage db_Image db_RootPassword db_Replicas db_Replication].
  destruct (db_Storage db) as [st|]; cbn [res_bind];
    [destruct (MustParse (st_Size st)); cbn [res_bind]; [|reflexivity]|];
    destruct Hrep as [->|(r & -> & ->)]; simpl; repeat split.
Qed.
End BuilderLemmas.

Section ReplicationDefault.
Context `{QuantityParser} {L : Layout}.
Variables (ms : MusicService) (db : DatabaseSpec) (gtid : option bool).
Hypothesis Hdb : spec_Database (Spec ms) = Some db.
Hypothesis Hdefault :
  db_Replication db = None \/
  exists r, db_Replication db = Some r /\ rep_Enabled r = None.

Lemma replicationEnabled_default : reconciler.replicationEnabled ms = true.
Proof.
  unfold reconciler.replicationEnabled. rewrite Hdb.
  now destruct Hdefault as [->|(r & -> & ->)].
Qed.

Lemma BuildDatabaseReplicaStatefulSet_default :
  builder.BuildDatabaseReplicaStatefulSet ms =
  builder.BuildDatabaseReplicaStatefulSet (withReplicationEnabled ms db gtid).
Proof.
  pose proof (buildDatabaseConfig_default ms db gtid Hdb Hdefault) as Hc.
  unfold builder.BuildDatabaseReplicaStatefulSet.
  destruct (builder.buildDatabaseConfig ms) as [c|m],
           (builder.buildDatabaseConfig (withReplicationEnabled ms db gtid)) as [c'|m'];
    try contradiction; cbn [res_bind]; [|now f_equal].
  destruct c, c'. cbn in Hc.
  destruct Hc as (-> & -> & -> & -> & -> & -> & -> & ->). reflexivity.
Qed.

Lemma ensureReplicationSecret_default (w : World) :
  reconciler.ensureReplicationSecret ms w =
  reconciler.ensureReplicationSecret (withReplicationEnabled ms db gtid) w.
Proof.
  unfold reconciler.ensureReplicationSecret. rewrite replicationEnabled_default.
  unfold reconciler.replicationEnabled, withReplicationEnabled.
  cbn [Spec withDatabase spec_Database Meta withReplication db_Replication rep_Enabled
       db_Replicas negb].
  rewrite Hdb. reflexivity.
Qed.

Lemma ReconcileReplicas_default (w : World) :
  reconciler.ReconcileReplicas ms w =
  reconciler.ReconcileReplicas (withReplicationEnabled ms db gtid) w.
Proof.
  unfold reconciler.ReconcileReplicas.
  rewrite <- BuildDatabaseReplicaStatefulSet_default.
  replace (spec_Database (Spec (withReplicationEnabled ms db gtid)))
    with (Some (withReplication db (Some {| rep_Enabled := Some true; rep_GTID := gtid |})))
    by reflexivity.
  rewrite Hdb. cbn [deref]. rewrite !m_bind_liftRes_ok.
  cbn [withReplication db_Replicas].
  destruct (db_Replicas db =? 0); [reflexivity|].
  apply m_bind_ext; [apply ensureReplicationSecret_default|].
  intros secret w'.
  replace (reconciler.databaseStorageSpec (withReplicationEnabled ms db gtid))
    with (reconciler.databaseStorageSpec ms)
    by (unfold reconciler.databaseStorageSpec, withReplicationEnabled; simpl;
        now rewrite Hdb).
  reflexivity.
Qed.
End ReplicationDefault.

(** ** The replication credential *)

Lemma EncodeToString_length (buf : list N) :
  String.length (EncodeToString buf) = (2 * List.length buf)%nat.
Proof. induction buf as [|b rest IH]; simpl; [reflexivity|]. rewrite IH. lia. Qed.

Lemma EncodeToString_mod (buf : list N) :
  EncodeToString (map (fun b => b mod 256)%N buf) = EncodeToString buf.
Proof.
  induction buf as [|b rest IH]; [reflexivity|].
  cbn [map EncodeToString]. rewrite IH, N.Div0.mod_mod. do 2 f_equal.
  change 256%N with (16 * 16)%N. rewrite N.Div0.mod_mul_r.
  rewrite N.mul_comm, N.Div0.mod_add. now rewrite N.Div0.mod_mod.
Qed.

Section Credential.
Context `{QuantityParser} {L : Layout}.

Lemma generatePassword_run (n : nat) (w : World) :
  entropyFails w = false ->
  reconciler.generatePassword n w =
    (Ok (inl (EncodeToString (randomBytes n w))), withEntropyPos (entropyPos w + n) w).
Proof.
  intros Hent. unfold reconciler.generatePassword, m_bind, randRead. rewrite Hent.
  cbn [m_ret]. unfold randomBytes.
  now rewrite <- (List.map_map (entropy w) (fun b => b mod 256)%N), EncodeToString_mod.
Qed.

Lemma generatePassword_cases (n : nat) (w : World) :
  (exists w',
     reconciler.generatePassword n w = (Ok (inl (EncodeToString (randomBytes n w))), w') /\
     trace w' = trace w) \/
  (exists err, reconciler.generatePassword n w = (Ok (inr err), w)).
Proof.
  destruct (entropyFails w) eqn:Hent.
  - right. unfold reconciler.generatePassword, m_bind, randRead. rewrite Hent. eauto.
  - left. rewrite (generatePassword_run n w Hent). eauto.
Qed.

Variables (ms : MusicService) (db : DatabaseSpec).
Hypothesis Hdb : spec_Database (Spec ms) = Some db.
Hypothesis Henabled : reconciler.replicationEnabled ms = true.
Hypothesis Hreplicas : db_Replicas db > 0.

Abbreviation secretName := (Name (Meta ms) +:+ "-db-replication").

(** First need: the secret is absent. *)
Lemma ensureReplicationSecret_creates (w : World) :
  faults w VGet KSecret secretName = None ->
  secrets w !! (Namespace (Meta ms), secretName) = None ->
  entropyFails w = false ->
  exists secret password e w',
    reconciler.ensureReplicationSecret ms w = (Ok (Some secret, e), w') /\
    trace w' = (trace w ++ [EvCreate (OSecret secret)])%list /\
    Name (sec_Meta secret) = secretName /\
    Namespace (sec_Meta secret) = Namespace (Meta ms) /\
    OwnerReferences (sec_Meta secret) = [builder.NewControllerRef ms] /\
    sec_Data secret = <["username" := "repl"]> (<["password" := password]> ∅) /\
    String.length password = 32%nat /\
    password = EncodeToString (randomBytes 16 w) /\
    entropyPos w' = (entropyPos w + 16)%nat /\
    (faults w VCreate KSecret secretName = None ->
     e = None /\ secrets w' !! (Namespace (Meta ms), secretName) = Some secret).
Proof.
  intros Hget Habsent Hent.
  assert (Hne : (db_Replicas db =? 0) = false) by (apply Z.eqb_neq; lia).
  unfold reconciler.ensureReplicationSecret. rewrite Henabled, Hdb.
  cbn [negb deref]. rewrite m_bind_liftRes_ok, Hne.
  unfold client.Get at 1. unfold m_bind at 1. cbn [kind select Secrets].
  rewrite Hget, Habsent. cbn [IsNotFound notFound negb].
  pose proof (generatePassword_run 16 w Hent) as Hrun.
  set (password := EncodeToString (randomBytes 16 w)) in *.
  assert (Hlen : String.length password = 32%nat).
  { unfold password, randomBytes.
    now rewrite EncodeToString_length, List.length_map, List.length_seq. }
  rewrite (m_bind_ok _ _ _ _ _ Hrun).
  unfold client.Create, client.store, m_bind, emit, m_ret.
  cbn -[insert lookup list_to_map String.append].
  unfold keyOf. cbn [meta Secrets sec_Meta objectMeta Namespace Name].
  rewrite Habsent.
  destruct (faults w VCreate KSecret secretName) as [err|] eqn:Hcreate.
  - eexists _, password, _, _. split; [reflexivity|]. cbn.
    repeat split; auto; discriminate.
  - eexists _, password, _, _. split; [reflexivity|]. cbn -[insert lookup].
    repeat split; auto. apply lookup_insert_eq.
Qed.

(** The same first pass when the API accepts the create: nothing but the
    secret and the entropy position changes. *)
Lemma ensureReplicationSecret_first (w : World) :
  faults w VGet KSecret secretName = None ->
  faults w VCreate KSecret secretName = None ->
  secrets w !! (Namespace (Meta ms), secretName) = None ->
  entropyFails w = false ->
  exists secret w',
    reconciler.ensureReplicationSecret ms w = (Ok (Some secret, None), w') /\
    trace w' = (trace w ++ [EvCreate (OSecret secret)])%list /\
    sec_Data secret !! "username" = Some "repl" /\
    faults w' = faults w /\ statefulsets w' = statefulsets w.
Proof.
  intros Hget Hcreate Habsent Hent.
  assert (Hne : (db_Replicas db =? 0) = false) by (apply Z.eqb_neq; lia).
  unfold reconciler.ensureReplicationSecret. rewrite Henabled, Hdb.
  cbn [negb deref]. rewrite m_bind_liftRes_ok, Hne.
  unfold client.Get at 1. unfold m_bind at 1. cbn [kind select Secrets].
  rewrite Hget, Habsent. cbn [IsNotFound notFound negb].
  rewrite (m_bind_ok _ _ _ _ _ (generatePassword_run 16 w Hent)).
  unfold client.Create, client.store, m_bind, emit, m_ret.
  cbn -[insert lookup list_to_map String.append].
  unfold keyOf. cbn [meta Secrets sec_Meta objectMeta Namespace Name].
  rewrite Habsent, Hcreate.
  eexists _, _. split; [reflexivity|]. cbn -[insert lookup].
  repeat split.
Qed.

(** Later passes: the secret exists. *)
Lemma ensureReplicationSecret_existing (old : Secret) (w : World) :
  faults w VGet KSecret secretName = None ->
  secrets w !! (Namespace (Meta ms), secretName) = Some old ->
  exists r w',
    reconciler.ensureReplicationSecret ms w = (Ok r, w') /\
    (trace w' = trace w \/
     exists updated,
       trace w' = (trace w ++ [EvUpdate (OSecret updated)])%list /\
       backfills old updated /\
       (sec_Data old !! "username" = None \/ sec_Data old !! "password" = None) /\
       (sec_Data old !! "username" = None -> sec_Data updated !! "username" = Some "repl") /\
       (sec_Data old !! "password" = None ->
        sec_Data updated !! "password" = Some (EncodeToString (randomBytes 16 w)))) /\
    (is_Some (sec_Data old !! "username") -> is_Some (sec_Data old !! "password") ->
     r = (Some old, None) /\ w' = w).
Proof.
  intros Hget Hold.
  assert (Hne : (db_Replicas db =? 0) = false) by (apply Z.eqb_neq; lia).
  unfold reconciler.ensureReplicationSecret. rewrite Henabled, Hdb.
  cbn [negb deref]. rewrite m_bind_liftRes_ok, Hne.
  unfold client.Get at 1. unfold m_bind at 1. cbn [kind select Secrets].
  rewrite Hget, Hold.
  destruct (sec_Data old !! "username") as [u|] eqn:Hu.
  - destruct (sec_Data old !! "password") as [p|] eqn:Hp.
    + (* fully populated *)
      eexists _, _. split; [reflexivity|]. split; [now left|]. now intros _ _.
    + (* the password is missing *)
      destruct (generatePassword_cases 16 w) as [(w1 & Hrun & Htr)|(err & Hrun)];
        rewrite (m_bind_ok _ _ _ _ _ Hrun).
      * set (password := EncodeToString (randomBytes 16 w)) in *.
        match goal with |- context [m_bind (client.Update Secrets ?s) _ ?w0] =>
          destruct (Update_run Secrets s w0 tidy_Secrets) as (e & w' & Hup & Htr' & _);
          rewrite (m_bind_ok _ _ _ _ _ Hup) end.
        exists (match e with Some err => (None, Some err)
                          | None => (Some (withData old (<["password" := password]> (sec_Data old))),
                                     None) end), w'.
        split; [now destruct e|]. split; [|intros _ [x Hx]; discriminate].
        right. eexists. split; [rewrite Htr', Htr; reflexivity|].
        split; [|split; [now right|split; [discriminate|intros _; apply lookup_insert_eq]]].
        split; [reflexivity|]. split; simpl.
        -- intros k v Hk. rewrite lookup_insert_ne; [exact Hk|]. congruence.
        -- intros k Hk Hs. destruct (decide (k = "password")); [now right|].
           rewrite lookup_insert_ne in Hs by congruence. rewrite Hk in Hs.
           now destruct Hs.
      * eexists _, _. split; [reflexivity|]. split; [now left|].
        intros _ [x Hx]; discriminate.
  - cbn [sec_Data withData].
    destruct (decide ("username" = "password")) as [Heq|Hneq]; [discriminate|].
    rewrite (lookup_insert_ne _ "username" "password") by exact Hneq.
    destruct (sec_Data old !! "password") as [p|] eqn:Hp.
    + (* the username is missing *)
      match goal with |- context [m_bind (client.Update Secrets ?s) _ ?w0] =>
        destruct (Update_run Secrets s w0 tidy_Secrets) as (e & w' & Hup & Htr' & _);
        rewrite (m_bind_ok _ _ _ _ _ Hup) end.
      exists (match e with Some err => (None, Some err)
                        | None => (Some (withData old (<["username" := "repl"]> (sec_Data old))),
                                   None) end), w'.
      split; [now destruct e|]. split; [|intros [x Hx]; discriminate].
      right. eexists. split; [exact Htr'|].
      split; [|split; [now left|split; [intros _; apply lookup_insert_eq|discriminate]]].
      split; [reflexivity|]. split; simpl.
      * intros k v Hk. rewrite lookup_insert_ne; [exact Hk|]. congruence.
      * intros k Hk Hs. destruct (decide (k = "username")); [now left|].
        rewrite lookup_insert_ne in Hs by congruence. rewrite Hk in Hs.
        now destruct Hs.
    + (* both are missing *)
      destruct (generatePassword_cases 16 w) as [(w1 & Hrun & Htr)|(err & Hrun)];
        rewrite (m_bind_ok _ _ _ _ _ Hrun).
      * set (password := EncodeToString (randomBytes 16 w)) in *.
        match goal with |- context [m_bind (client.Update Secrets ?s) _ ?w0] =>
          destruct (Update_run Secrets s w0 tidy_Secrets) as (e & w' & Hup & Htr' & _);
          rewrite (m_bind_ok _ _ _ _ _ Hup) end.
        eexists (match e with Some err => (None, Some err) | None => (Some _, None) end), w'.
        split; [now destruct e|]. split; [|intros [x Hx]; discriminate].
        right. eexists. split; [rewrite Htr', Htr; reflexivity|].
        split; [|split; [now left|split; intros _; cbn [sec_Data withData]]].
        -- split; [reflexivity|]. split; simpl.
           ++ intros k v Hk. rewrite !lookup_insert_ne; [exact Hk| |]; congruence.
           ++ intros k Hk Hs. destruct (decide (k = "password")); [now right|].
              destruct (decide (k = "username")); [now left|].
              rewrite !lookup_insert_ne in Hs by congruence. rewrite Hk in Hs.
              now destruct Hs.
        -- rewrite lookup_insert_ne by discriminate. apply lookup_insert_eq.
        -- apply lookup_insert_eq.
      * eexists _, _. split; [reflexivity|]. split; [now left|].
        intros [x Hx]; discriminate.
Qed.
End Credential.

(** C6: with replication enabled and replicas declared, a pass that finds no
    replication secret issues exactly one write, the creation of a secret
    owned by the parent with username "repl" and, as password, the 32
    hexadecimal characters that encode the 16 bytes it reads from the entropy
    source, which are consumed; a pass that finds the secret issues at most
    one update, which keeps every stored key and value and adds only a missing
    username ("repl") or password (again the encoding of 16 bytes read); a
    secret holding both keys is left alone: no write at all. *)
Theorem ensureReplicationSecret_create_once `{QuantityParser}
    (ms : MusicService) (db : DatabaseSpec) (w : World) :
  spec_Database (Spec ms) = Some db ->
  reconciler.replicationEnabled ms = true ->
  db_Replicas db > 0 ->
  let secretName := Name (Meta ms) +:+ "-db-replication" in
  faults w VGet KSecret secretName = None ->
  match secrets w !! (Namespace (Meta ms), secretName) with
  | None =>
      entropyFails w = false ->
      exists secret password e w',
        reconciler.ensureReplicationSecret ms w = (Ok (Some secret, e), w') /\
        trace w' = (trace w ++ [EvCreate (OSecret secret)])%list /\
        Name (sec_Meta secret) = secretName /\
        Namespace (sec_Meta secret) = Namespace (Meta ms) /\
        OwnerReferences (sec_Meta secret) = [builder.NewControllerRef ms] /\
        sec_Data secret = <["username" := "repl"]> (<["password" := password]> ∅) /\
        String.length password = 32%nat /\
        password = EncodeToString (randomBytes 16 w) /\
        entropyPos w' = (entropyPos w + 16)%nat /\
        (faults w VCreate KSecret secretName = None ->
         e = None /\ secrets w' !! (Namespace (Meta ms), secretName) = Some secret)
  | Some old =>
      exists r w',
        reconciler.ensureReplicationSecret ms w = (Ok r, w') /\
        (trace w' = trace w \/
         exists updated,
           trace w' = (trace w ++ [EvUpdate (OSecret updated)])%list /\
           backfills old updated /\
           (sec_Data old !! "username" = None \/ sec_Data old !! "password" = None) /\
           (sec_Data old !! "username" = None -> sec_Data updated !! "username" = Some "repl") /\
           (sec_Data old !! "password" = None ->
            sec_Data updated !! "password" = Some (EncodeToString (randomBytes 16 w)))) /\
        (is_Some (sec_Data old !! "username") -> is_Some (sec_Data old !! "password") ->
         r = (Some old, None) /\ w' = w)
  end.
Proof.
  intros Hdb Hen Hrep secretName Hget.
  destruct (secrets w !! (Namespace (Meta ms), secretName)) as [old|] eqn:Hs.
  - now apply (ensureReplicationSecret_existing ms db Hdb Hen Hrep old w).
  - intros Hent. now apply (ensureReplicationSecret_creates ms db Hdb Hen Hrep w).
Qed.


Lemma Delete_returns {A} (R : Resource A) (o : A) (w : World) :
  exists e w', client.Delete R o w = (Ok e, w').
Proof.
  unfold client.Delete, m_bind, emit.
  destruct (faults _ VDelete (kind R) (Name (meta R o))); [eauto|].
  destruct (select R _ !! keyOf R o); eauto.
Qed.

Lemma ReconcileAutoscaler_returns (ms : MusicService) (w : World) :
  exists e w', reconciler.ReconcileAutoscaler ms w = (Ok e, w').
Proof.
  unfold reconciler.ReconcileAutoscaler, reconciler.deleteAutoscalerIfExists.
  destruct (Get_sameCluster HPAs (Namespace (Meta ms)) (Name (Meta ms) +:+ "-autoscaler") w)
    as [r Hget].
  destruct (spec_Autoscaling (Spec ms)) as [a|] eqn:Ha; rewrite (m_bind_ok _ _ _ _ _ Hget).
  - unfold builder.BuildAutoscaler. rewrite Ha. cbn [deref res_bind].
    destruct r as [hpa|err].
    + rewrite m_bind_liftRes_ok.
      destruct (reconciler.autoscalerNeedsUpdate _ _); [|eauto].
      match goal with |- context [client.Update HPAs ?h w] =>
        destruct (Update_run HPAs h w tidy_HPAs) as (e & w' & Hrun & _) end.
      eauto.
    + destruct (IsNotFound err); [|eauto]. rewrite m_bind_liftRes_ok.
      match goal with |- context [client.Create HPAs ?h w] =>
        destruct (Create_run HPAs h w tidy_HPAs) as (e & w' & Hrun & _) end.
      eauto.
  - destruct r as [hpa|err]; [apply Delete_returns|].
    destruct (IsNotFound err); eauto.
Qed.

Lemma ReconcileDatabaseAutoscaler_returns {L : Layout}
    (ms : MusicService) (db : DatabaseSpec) (w : World) :
  spec_Database (Spec ms) = Some db ->
  exists e w', reconciler.ReconcileDatabaseAutoscaler ms w = (Ok e, w').
Proof.
  intros Hdb. unfold reconciler.ReconcileDatabaseAutoscaler. rewrite Hdb. cbn [deref].
  rewrite m_bind_liftRes_ok.
  destruct (db_Autoscaling db) as [a|] eqn:Ha;
    [rewrite bool_decide_eq_false_2 by discriminate
    |rewrite bool_decide_eq_true_2 by reflexivity; cbn [orb]; eauto].
  cbn [orb]. destruct (db_Replicas db =? 0); [eauto|].
  destruct (Get_sameCluster HPAs (Namespace (Meta ms))
              (Name (Meta ms) +:+ "-db-replica-autoscaler") w) as [r Hget].
  rewrite (m_bind_ok _ _ _ _ _ Hget).
  unfold builder.BuildDatabaseReplicaAutoscaler. rewrite Hdb, Ha. cbn [deref res_bind].
  destruct r as [hpa|err].
  - rewrite m_bind_liftRes_ok. destruct (negb (DeepEqual _ _)); [|eauto].
    match goal with |- context [client.Update HPAs ?h w] =>
      destruct (Update_run HPAs h w tidy_HPAs) as (e & w' & Hrun & _) end.
    eauto.
  - destruct (IsNotFound err); [|eauto]. rewrite m_bind_liftRes_ok.
    match goal with |- context [client.Create HPAs ?h w] =>
      destruct (Create_run HPAs h w tidy_HPAs) as (e & w' & Hrun & _) end.
    eauto.
Qed.

(** C9 (as the code has it): the builders that parse a storage size fail
    exactly when a size they parse is malformed, and the failure is a panic
    that unwinds through each of the three reconcilers that call such a
    builder: the reconciler does not return, so no error value reaches its
    caller (in [ReconcileReplicas] the panic comes after the credential
    step). The autoscaler builders fail exactly when the autoscaling section
    they dereference is absent, and the two autoscaler reconcilers call them
    only when it is set: whatever the cluster holds, they return. *)
Theorem builder_failures `{QuantityParser} {L : Layout} (ms : MusicService) :
  (is_ok (builder.BuildAppStatefulSet ms) = false <->
   ParseQuantity (st_Size (spec_Storage (Spec ms))) = None) /\
  (is_ok (builder.BuildDatabaseMasterStatefulSet ms) = false <->
   ParseQuantity "10Gi" = None \/ ParseQuantity (declaredDatabaseSize ms) = None) /\
  (is_ok (builder.BuildDatabaseReplicaStatefulSet ms) = false <->
   ParseQuantity "10Gi" = None \/ ParseQuantity (declaredDatabaseSize ms) = None) /\
  (is_ok (builder.BuildAutoscaler ms) = false <-> spec_Autoscaling (Spec ms) = None) /\
  (is_ok (builder.BuildDatabaseReplicaAutoscaler ms) = false <->
   forall db, spec_Database (Spec ms) = Some db -> db_Autoscaling db = None) /\
  (forall w msg,
     builder.BuildAppStatefulSet ms = Panicked msg ->
     faults w VGet KStatefulSet (Name (Meta ms)) = None ->
     reconciler.ReconcileStatefulSet ms w = (Panicked msg, w)) /\
  (forall w msg,
     builder.BuildDatabaseMasterStatefulSet ms = Panicked msg ->
     faults w VGet KStatefulSet (Name (Meta ms) +:+ "-db-master") = None ->
     reconciler.ReconcileMaster ms w = (Panicked msg, w)) /\
  (forall db w secret w1 msg,
     spec_Database (Spec ms) = Some db ->
     db_Replicas db <> 0 ->
     builder.BuildDatabaseReplicaStatefulSet ms = Panicked msg ->
     reconciler.ensureReplicationSecret ms w = (Ok (secret, None), w1) ->
     faults w1 VGet KStatefulSet (Name (Meta ms) +:+ "-db-replica") = None ->
     reconciler.ReconcileReplicas ms w = (Panicked msg, w1)) /\
  (forall w, exists e w', reconciler.ReconcileAutoscaler ms w = (Ok e, w')) /\
  (forall db w,
     spec_Database (Spec ms) = Some db ->
     exists e w', reconciler.ReconcileDatabaseAutoscaler ms w = (Ok e, w')).
Proof.
  split; [|split; [|split; [|split; [|split; [|split; [|split; [|split; [|split]]]]]]]].
  - unfold builder.BuildAppStatefulSet. rewrite res_bind_ok by reflexivity.
    apply MustParse_ok.
  - unfold builder.BuildDatabaseMasterStatefulSet. rewrite res_bind_ok by reflexivity.
    apply buildDatabaseConfig_ok.
  - unfold builder.BuildDatabaseReplicaStatefulSet. rewrite res_bind_ok by reflexivity.
    apply buildDatabaseConfig_ok.
  - unfold builder.BuildAutoscaler. destruct (spec_Autoscaling (Spec ms)); simpl;
      split; congruence.
  - unfold builder.BuildDatabaseReplicaAutoscaler.
    destruct (spec_Database (Spec ms)) as [db|]; simpl.
    + destruct (db_Autoscaling db) eqn:Ha; simpl; split; try congruence.
      intros Hall. specialize (Hall db eq_refl). congruence.
    + split; [intros _ db' Hdb'; discriminate|reflexivity].
  - intros w msg Hb Hf. unfold reconciler.ReconcileStatefulSet, client.Get, m_bind.
    cbn [kind select StatefulSets]. rewrite Hf, Hb.
    destruct (statefulsets w !! (Namespace (Meta ms), Name (Meta ms))); reflexivity.
  - intros w msg Hb Hf. unfold reconciler.ReconcileMaster, client.Get, m_bind.
    cbn [kind select StatefulSets]. rewrite Hf, Hb.
    destruct (statefulsets w !! _); reflexivity.
  - intros db w secret w1 msg Hdb Hrep Hb Hsecret Hf.
    unfold reconciler.ReconcileReplicas. rewrite Hdb. cbn [deref].
    rewrite m_bind_liftRes_ok. apply Z.eqb_neq in Hrep. rewrite Hrep.
    rewrite (m_bind_ok _ _ _ _ _ Hsecret). cbn [snd].
    unfold client.Get, m_bind. cbn [kind select StatefulSets]. rewrite Hf, Hb.
    destruct (statefulsets w1 !! _); reflexivity.
  - apply ReconcileAutoscaler_returns.
  - intros db w Hdb. now apply (ReconcileDatabaseAutoscaler_returns ms db).
Qed.

(** ** Storage policy *)

Lemma Cmp_ge (a b : Z) : (Cmp a b >=? 0) = negb (a <? b).
Proof.
  unfold Cmp. destruct (Z.compare_spec a b) as [->|Hlt|Hgt]; cbn.
  - symmetry. apply negb_true_iff, Z.ltb_irrefl.
  - symmetry. apply negb_false_iff, Z.ltb_lt. exact Hlt.
  - symmetry. apply negb_true_iff, Z.ltb_ge. lia.
Qed.

Lemma Cmp_lt (a b : Z) : (Cmp a b <? 0) = (a <? b).
Proof.
  unfold Cmp. destruct (Z.compare_spec a b) as [->|Hlt|Hgt]; cbn.
  - symmetry. apply Z.ltb_irrefl.
  - symmetry. apply Z.ltb_lt. exact Hlt.
  - symmetry. apply Z.ltb_ge. lia.
Qed.

Lemma reconciler_listPVCsByPrefix_run claimName appName ns w :
  (faults w VList KPVC "" = None ->
   reconciler.listPVCsByPrefix claimName appName ns w =
     (Ok (inl (tierClaims claimName appName ns w)), w)) /\
  (forall err, faults w VList KPVC "" = Some err ->
   reconciler.listPVCsByPrefix claimName appName ns w = (Ok (inr err), w)).
Proof.
  unfold reconciler.listPVCsByPrefix, m_bind, client.List. cbn [kind PVCs select].
  split.
  - intros ->. reflexivity.
  - intros err ->. reflexivity.
Qed.

(** The loop of [resizePVCs]: whatever the API answers, it only issues
    updates, each of a listed claim that requests less than the declared
    size, and each to the declared size; when the API accepts the updates,
    every such claim is updated, in list order. *)
Lemma resizeEach_writes (size : Z) (claims : list PersistentVolumeClaim) (w : World) :
  exists e w' written,
    reconciler.resizeEach size claims w = (Ok e, w') /\
    trace w' = (trace w ++ map (resizeEvent size) written)%list /\
    (forall pvc, List.In pvc written -> List.In pvc claims /\ requestsLess size pvc = true) /\
    ((forall name, faults w VUpdate KPVC name = None) ->
     (forall pvc, List.In pvc claims -> is_Some (pvcs w !! keyOf PVCs pvc)) ->
     e = None /\ written = List.filter (requestsLess size) claims).
Proof.
  revert w. induction claims as [|pvc rest IH]; intros w;
    cbn [reconciler.resizeEach List.filter].
  - exists None, w, []. cbn. rewrite List.app_nil_r. repeat split; auto; contradiction.
  - unfold requestsLess at 2.
    destruct (pvc_Requests pvc !! ResourceStorage) as [current|] eqn:Hreq.
    + rewrite Cmp_ge. destruct (current <? size) eqn:Hlt; cbn [negb].
      * assert (Hless : requestsLess size pvc = true)
          by (unfold requestsLess; now rewrite Hreq).
        unfold client.Update, client.store, m_bind, emit.
        cbn [kind meta PVCs select replace faults withTrace pvcs withRequest pvc_Meta].
        change (keyOf PVCs (withRequest pvc ResourceStorage size)) with (keyOf PVCs pvc).
        destruct (faults w VUpdate KPVC (Name (pvc_Meta pvc))) as [err|] eqn:Hfault;
          [|destruct (pvcs w !! keyOf PVCs pvc) as [stored|] eqn:Hstored].
        -- exists (Some err), (withTrace (trace w ++ [resizeEvent size pvc]) w), [pvc].
           split; [reflexivity|]. split; [reflexivity|].
           split; [intros p [<-|[]]; split; [now left|exact Hless]|].
           intros Hnone _. rewrite Hnone in Hfault. discriminate.
        -- match goal with |- context [reconciler.resizeEach size rest ?w1] =>
             destruct (IH w1) as (e & w' & written & Hrun & Htr & Hw & Hgrow) end.
           exists e, w', (pvc :: written). split; [exact Hrun|].
           split; [rewrite Htr; cbn [trace withTrace map];
                   rewrite <- List.app_assoc; reflexivity|].
           split.
           ++ intros p [<-|Hin]; [split; [now left|exact Hless]|].
              destruct (Hw p Hin). split; [now right|assumption].
           ++ intros Hnone Hkeys. destruct Hgrow as [-> ->].
              ** exact Hnone.
              ** intros p Hin. cbn [pvcs]. apply lookup_insert_is_Some'. right.
                 apply Hkeys. now right.
              ** split; reflexivity.
        -- exists (Some (notFound KPVC (Name (pvc_Meta pvc)))),
             (withTrace (trace w ++ [resizeEvent size pvc]) w), [pvc].
           split; [reflexivity|]. split; [reflexivity|].
           split; [intros p [<-|[]]; split; [now left|exact Hless]|].
           intros _ Hkeys. destruct (Hkeys pvc (or_introl eq_refl)) as [x Hx].
           rewrite Hx in Hstored. discriminate.
      * destruct (IH w) as (e & w' & written & Hrun & Htr & Hw & Hgrow).
        exists e, w', written. split; [exact Hrun|]. split; [exact Htr|]. split.
        -- intros p Hin. destruct (Hw p Hin). split; [now right|assumption].
        -- intros Hnone Hkeys. apply Hgrow; [exact Hnone|].
           intros p Hin. apply Hkeys. now right.
    + destruct (IH w) as (e & w' & written & Hrun & Htr & Hw & Hgrow).
      exists e, w', written. split; [exact Hrun|]. split; [exact Htr|]. split.
      * intros p Hin. destruct (Hw p Hin). split; [now right|assumption].
      * intros Hnone Hkeys. apply Hgrow; [exact Hnone|].
        intros p Hin. apply Hkeys. now right.
Qed.

Lemma tierClaims_stored claimName appName ns w pvc :
  claimsWellKeyed w ->
  List.In pvc (tierClaims claimName appName ns w) ->
  is_Some (pvcs w !! keyOf PVCs pvc).
Proof.
  intros Hwf Hin. unfold tierClaims in Hin.
  apply List.filter_In in Hin as [Hin _].
  apply list_elem_of_In, list_elem_of_filter in Hin as [_ Hin].
  apply list_elem_of_fmap in Hin as ([k p] & -> & Hin).
  apply elem_of_map_to_list in Hin. cbn [snd].
  rewrite (Hwf k p Hin). eauto.
Qed.

Section ApplyStatefulSet.
Context `{QuantityParser} {L : Layout}.

(** The field diff at the end of the StatefulSet reconcilers. *)
Lemma updateIfNeeded_run (sts desiredSts : StatefulSet) (w : World) :
  exists r w' tail,
    (let* needsUpdate := liftRes (reconciler.statefulSetNeedsUpdate sts desiredSts) in
     if needsUpdate then client.Update StatefulSets (withSpec sts (sts_Spec desiredSts))
     else m_ret None) w = (r, w') /\
    trace w' = (trace w ++ tail)%list /\
    (tail = [] \/ tail = [EvUpdate (OStatefulSet (withSpec sts (sts_Spec desiredSts)))]) /\
    (reconciler.statefulSetNeedsUpdate sts desiredSts = Ok true ->
     is_ok r = true /\
     tail = [EvUpdate (OStatefulSet (withSpec sts (sts_Spec desiredSts)))]).
Proof.
  unfold m_bind at 1. unfold liftRes.
  destruct (reconciler.statefulSetNeedsUpdate sts desiredSts) as [[|]|msg].
  - destruct (Update_run StatefulSets (withSpec sts (sts_Spec desiredSts)) w tidy_StatefulSets)
      as (e & w' & Hup & Htr & _).
    rewrite Hup. eexists _, _, _. split; [reflexivity|]. split; [exact Htr|].
    split; [now right|]. intros _. split; reflexivity.
  - eexists _, _, []. split; [reflexivity|]. rewrite List.app_nil_r.
    split; [reflexivity|]. split; [now left|]. discriminate.
  - eexists _, _, []. split; [reflexivity|]. rewrite List.app_nil_r.
    split; [reflexivity|]. split; [now left|]. discriminate.
Qed.

(** Under the Resize policy the StatefulSet reconcilers delete nothing; the
    claims they write are claims of the tier that request less than the
    declared size, each set to the declared size; all of them when the size
    changed and the API accepts the updates. *)
Lemma applyStatefulSet_resize (sts desiredSts : StatefulSet) (storage : StorageSpec)
    (claimName appName : string) (size : Z) (w : World) :
  reconciler.storageUpdatePolicy storage <> StorageUpdatePolicyRecreate ->
  reconciler.storageRequestFromStatefulSet desiredSts = Some size ->
  let claims := tierClaims claimName appName (Namespace (sts_Meta desiredSts)) w in
  exists r w' written tail,
    reconciler.applyStatefulSet sts desiredSts storage claimName appName w = (r, w') /\
    trace w' = (trace w ++ map (resizeEvent size) written ++ tail)%list /\
    (tail = [] \/ tail = [EvUpdate (OStatefulSet (withSpec sts (sts_Spec desiredSts)))]) /\
    (forall pvc, List.In pvc written -> List.In pvc claims /\ requestsLess size pvc = true) /\
    (reconciler.storageSizeChanged sts desiredSts = true ->
     faults w VList KPVC "" = None ->
     (forall name, faults w VUpdate KPVC name = None) ->
     claimsWellKeyed w ->
     written = List.filter (requestsLess size) claims).
Proof.
  intros Hpolicy Hsize claims. unfold reconciler.applyStatefulSet.
  destruct (reconciler.storageSizeChanged sts desiredSts) eqn:Hchanged.
  - assert (Hne : String.eqb (reconciler.storageUpdatePolicy storage)
                    StorageUpdatePolicyRecreate = false)
      by now apply String.eqb_neq.
    rewrite Hne. unfold reconciler.resizePVCs. rewrite Hsize.
    destruct (reconciler_listPVCsByPrefix_run claimName appName
                (Namespace (sts_Meta desiredSts)) w) as [Hlist Hlisterr].
    destruct (faults w VList KPVC "") as [err|] eqn:Hfault.
    + unfold m_bind at 1. rewrite (m_bind_ok _ _ _ _ _ (Hlisterr err eq_refl)).
      cbn [m_ret].
      eexists _, _, [], []. split; [reflexivity|]. cbn. rewrite List.app_nil_r.
      split; [reflexivity|]. split; [now left|]. split; [contradiction|]. discriminate.
    + unfold m_bind at 1. rewrite (m_bind_ok _ _ _ _ _ (Hlist eq_refl)).
      fold claims.
      destruct (resizeEach_writes size claims w)
        as (e & w1 & written & Hrun & Htr & Hw & Hgrow).
      rewrite Hrun.
      destruct e as [err|].
      * eexists _, _, written, []. split; [reflexivity|]. rewrite List.app_nil_r.
        split; [exact Htr|]. split; [now left|]. split; [exact Hw|].
        intros _ _ Hnone Hkeyed. destruct Hgrow as [He _]; [exact Hnone| |discriminate].
        intros pvc Hin. eapply tierClaims_stored; eauto.
      * destruct (updateIfNeeded_run sts desiredSts w1) as (r & w' & tail & Hup & Htr' & Htail & _).
        rewrite Hup. exists r, w', written, tail. split; [reflexivity|].
        split; [rewrite Htr', Htr, <- List.app_assoc; reflexivity|].
        split; [exact Htail|]. split; [exact Hw|].
        intros _ _ Hnone Hkeyed. apply Hgrow; [exact Hnone|].
        intros pvc Hin. eapply tierClaims_stored; eauto.
  - destruct (updateIfNeeded_run sts desiredSts w) as (r & w' & tail & Hup & Htr' & Htail & _).
    rewrite Hup. exists r, w', [], tail. split; [reflexivity|].
    split; [exact Htr'|]. split; [exact Htail|]. split; [contradiction|]. discriminate.
Qed.
End ApplyStatefulSet.

Section StorageStatus.
Context `{QuantityParser} {L : Layout}.

Lemma shrinkRequested_intro (sts : StatefulSet) (size : string) (current declared : Z) :
  status.storageRequestFromStatefulSet sts = Some current ->
  size <> "" ->
  ParseQuantity size = Some declared ->
  declared < current ->
  status.shrinkRequested sts size = true.
Proof.
  intros Hcur Hsize Hparse Hlt. unfold status.shrinkRequested.
  rewrite Hcur, Hparse, Cmp_lt.
  apply String.eqb_neq in Hsize. rewrite Hsize. cbn [negb]. now apply Z.ltb_lt.
Qed.

Lemma UpdateFromAppStatefulSet_shrink (ms : MusicService) (sts : StatefulSet) (w : World) :
  is_Some (ss_Replicas (sts_Spec sts)) ->
  status.shrinkRequested sts (st_Size (spec_Storage (Spec ms))) = true ->
  exists ms' e w' c,
    status.UpdateFromAppStatefulSet ms sts w = (Ok (ms', e), w') /\
    findCondition "StorageWarningApp" (Conditions (Status ms')) = Some c /\
    c_Status c = ConditionFalse /\ c_Reason c = "ShrinkNotSupported".
Proof.
  intros [replicas Hrep] Hshrink. unfold status.UpdateFromAppStatefulSet. rewrite Hrep.
  cbn [deref]. rewrite m_bind_liftRes_ok.
  assert (Hphase : forall k : MusicService -> M (MusicService * option error),
    (forall m w0, Spec m = Spec ms ->
       exists ms' e w' c, k m w0 = (Ok (ms', e), w') /\
         findCondition "StorageWarningApp" (Conditions (Status ms')) = Some c /\
         c_Status c = ConditionFalse /\ c_Reason c = "ShrinkNotSupported") ->
    forall (m : M MusicService) m1 w1, m w = (Ok m1, w1) -> Spec m1 = Spec ms ->
      exists ms' e w' c, m_bind m k w = (Ok (ms', e), w') /\
        findCondition "StorageWarningApp" (Conditions (Status ms')) = Some c /\
        c_Status c = ConditionFalse /\ c_Reason c = "ShrinkNotSupported").
  { intros k Hk m m1 w1 Hm Hs. rewrite (m_bind_ok _ _ _ _ _ Hm). now apply Hk. }
  assert (Htail : forall m w0, Spec m = Spec ms ->
    exists ms' e w' c,
      (let* ms := status.updateStorageWarnings m sts "music-data" (Name (Meta m))
                    (st_Size (spec_Storage (Spec m))) "StorageWarningApp" in
       let* e := client.StatusUpdate ms in
       m_ret (ms, e)) w0 = (Ok (ms', e), w') /\
      findCondition "StorageWarningApp" (Conditions (Status ms')) = Some c /\
      c_Status c = ConditionFalse /\ c_Reason c = "ShrinkNotSupported").
  { intros m w0 Hs.
    destruct (updateStorageWarnings_run m sts "music-data" (Name (Meta m))
                (st_Size (spec_Storage (Spec m))) "StorageWarningApp" w0)
      as (c & Hrun & Hty & Hsh & _).
    rewrite (m_bind_ok _ _ _ _ _ Hrun).
    match goal with |- context [m_bind (client.StatusUpdate ?m') _ ?w1] =>
      destruct (StatusUpdate_run m' w1) as (e & w' & Hrun' & _) end.
    rewrite (m_bind_ok _ _ _ _ _ Hrun').
    rewrite Hs in Hsh. destruct (Hsh Hshrink) as [Hst Hre].
    eexists _, e, w', _. split; [reflexivity|]. cbn [Status withStatus Conditions setConditions].
    rewrite applyCondition_find_type by exact Hty. split; [reflexivity|]. now split. }
  destruct (sts_ReadyReplicas sts =? 0); [|destruct (sts_ReadyReplicas sts <? replicas)];
    eapply Hphase; try exact Htail; try apply setStatusCondition_run; reflexivity.
Qed.

Lemma checkReplicaStatus_other (ms : MusicService) (db : DatabaseSpec) (w : World) :
  spec_Database (Spec ms) = Some db ->
  exists ms' w',
    status.checkReplicaStatus ms w = (Ok ms', w') /\
    trace w' = trace w /\
    forall t, t <> "DatabaseReplicaHistory" ->
      findCondition t (Conditions (Status ms')) = findCondition t (Conditions (Status ms)).
Proof.
  intros Hdb. unfold status.checkReplicaStatus. rewrite Hdb. cbn [deref].
  rewrite m_bind_liftRes_ok.
  destruct (db_Replicas db >? 0); [|eexists _, _; repeat split].
  destruct (Get_sameCluster StatefulSets (Namespace (Meta ms))
              (Name (Meta ms) +:+ "-db-replica") w) as [r Hr].
  rewrite (m_bind_ok _ _ _ _ _ Hr).
  destruct r as [replicaSts|err].
  - unfold m_bind, Now. rewrite setStatusCondition_run.
    eexists _, _. split; [reflexivity|]. split; [reflexivity|].
    intros t Ht. cbn. now apply applyCondition_other.
  - destruct (IsNotFound err); [|eexists _, _; repeat split].
    destruct (dbs_ReplicaEverCreated (status.databaseStatus ms));
      [|eexists _, _; repeat split].
    rewrite setStatusCondition_run.
    eexists _, _. split; [reflexivity|]. split; [reflexivity|].
    intros t Ht. cbn. now apply applyCondition_other.
Qed.

Lemma checkMasterStatus_shrink (ms : MusicService) (db : DatabaseSpec) (storage : StorageSpec)
    (masterSts : StatefulSet) (w : World) :
  spec_Database (Spec ms) = Some db ->
  db_Storage db = Some storage ->
  faults w VGet KStatefulSet (Name (Meta ms) +:+ "-db-master") = None ->
  statefulsets w !! (Namespace (Meta ms), Name (Meta ms) +:+ "-db-master") = Some masterSts ->
  status.shrinkRequested masterSts (st_Size storage) = true ->
  exists ms' w' c,
    status.checkMasterStatus ms w = (Ok ms', w') /\
    Spec ms' = Spec ms /\
    findCondition "StorageWarningDatabase" (Conditions (Status ms')) = Some c /\
    c_Status c = ConditionFalse /\ c_Reason c = "ShrinkNotSupported".
Proof.
  intros Hdb Hst Hf Hs Hshrink. unfold status.checkMasterStatus.
  rewrite (m_bind_ok _ _ _ _ _ (Get_found _ _ _ _ Hf Hs)).
  cbn [Spec withStatus status.withDatabaseStatus].
  rewrite Hdb. cbn [deref]. rewrite m_bind_liftRes_ok, Hst.
  match goal with |- context [status.updateStorageWarnings ?m ?s ?a ?b ?c ?d] =>
    destruct (updateStorageWarnings_run m s a b c d w) as (c0 & Hrun & Hty & Hsh & _) end.
  destruct (Hsh Hshrink) as [Hstatus Hreason].
  rewrite Hrun. eexists _, _, _. split; [reflexivity|]. split; [reflexivity|].
  cbn [Status withStatus Conditions setConditions].
  rewrite applyCondition_find_type by exact Hty. split; [reflexivity|]. now split.
Qed.

Lemma UpdateDatabase_shrink (ms : MusicService) (db : DatabaseSpec) (storage : StorageSpec)
    (masterSts : StatefulSet) (w : World) :
  spec_Database (Spec ms) = Some db ->
  db_Storage db = Some storage ->
  faults w VGet KStatefulSet (Name (Meta ms) +:+ "-db-master") = None ->
  statefulsets w !! (Namespace (Meta ms), Name (Meta ms) +:+ "-db-master") = Some masterSts ->
  status.shrinkRequested masterSts (st_Size storage) = true ->
  exists ms' e w' c,
    status.UpdateDatabase ms w = (Ok (ms', e), w') /\
    findCondition "StorageWarningDatabase" (Conditions (Status ms')) = Some c /\
    c_Status c = ConditionFalse /\ c_Reason c = "ShrinkNotSupported".
Proof.
  intros Hdb Hst Hf Hs Hshrink. unfold status.UpdateDatabase.
  destruct (checkMasterStatus_shrink
              (status.withDatabaseStatus ms (status.databaseStatus ms))
              db storage masterSts w Hdb Hst Hf Hs Hshrink)
    as (ms1 & w1 & c & Hrun1 & Hspec & Hfind & Hstatus & Hreason).
  rewrite (m_bind_ok _ _ _ _ _ Hrun1).
  assert (Hdb1 : spec_Database (Spec ms1) = Some db) by (rewrite Hspec; exact Hdb).
  destruct (checkReplicaStatus_other ms1 db w1 Hdb1) as (ms2 & w2 & Hrun2 & _ & Hother).
  rewrite (m_bind_ok _ _ _ _ _ Hrun2).
  destruct (StatusUpdate_run ms2 w2) as (e & w' & Hrun3 & _).
  rewrite (m_bind_ok _ _ _ _ _ Hrun3).
  exists ms2, e, w', c. split; [reflexivity|].
  rewrite Hother by discriminate. now split.
Qed.
(** What one [setCondition] leaves of a condition list. *)
Lemma applyCondition_cases (now : Time) (conds : list Condition) (c x : Condition)
    (t : string) :
  findCondition t (status.applyCondition now conds c) = Some x ->
  findCondition t conds = Some x \/ (t = c_Type c /\ c_Reason x = c_Reason c).
Proof.
  intros Hfind. destruct (decide (t = c_Type c)) as [->|Hne].
  - right. split; [reflexivity|]. rewrite applyCondition_find in Hfind.
    injection Hfind as <-. reflexivity.
  - left. now rewrite applyCondition_other in Hfind.
Qed.

(** The master block sets at most the condition StorageWarningDatabase, and
    with reason ShrinkNotSupported only for a master StatefulSet whose claim
    template requests more than the declared size. *)
Lemma checkMasterStatus_conditions (ms : MusicService) (db : DatabaseSpec) (w : World) :
  spec_Database (Spec ms) = Some db ->
  exists ms1 w1,
    status.checkMasterStatus ms w = (Ok ms1, w1) /\
    Meta ms1 = Meta ms /\ Spec ms1 = Spec ms /\
    forall t x,
      findCondition t (Conditions (Status ms1)) = Some x ->
      findCondition t (Conditions (Status ms)) = Some x \/
      (t = "StorageWarningDatabase" /\
       (c_Reason x = "ShrinkNotSupported" ->
        exists storage masterSts,
          db_Storage db = Some storage /\
          statefulsets w !! (Namespace (Meta ms), Name (Meta ms) +:+ "-db-master")
            = Some masterSts /\
          status.shrinkRequested masterSts (st_Size storage) = true)).
Proof.
  intros Hdb. unfold status.checkMasterStatus, client.Get. unfold m_bind at 1.
  cbn [kind select StatefulSets].
  destruct (faults w VGet KStatefulSet (Name (Meta ms) +:+ "-db-master"));
    [eexists _, _; repeat split; auto|].
  destruct (statefulsets w !! (Namespace (Meta ms), Name (Meta ms) +:+ "-db-master"))
    as [masterSts|] eqn:Hmaster; [|eexists _, _; repeat split; auto].
  cbn [Spec withStatus status.withDatabaseStatus]. rewrite Hdb. cbn [deref].
  rewrite m_bind_liftRes_ok.
  destruct (db_Storage db) as [storage|] eqn:Hstorage;
    [|eexists _, _; split; [reflexivity|]; repeat split; auto].
  match goal with |- context [status.updateStorageWarnings ?m ?s ?a ?b ?c ?d] =>
    destruct (updateStorageWarnings_run m s a b c d w) as (c0 & Hrun & Hty & _ & Hno) end.
  rewrite Hrun. eexists _, _. split; [reflexivity|]. split; [reflexivity|].
  split; [reflexivity|].
  intros t x Hfind. cbn [Status withStatus Conditions setConditions setDatabase] in Hfind.
  apply applyCondition_cases in Hfind as [Hold|[-> Hreason]]; [now left|].
  right. split; [exact Hty|]. intros Hshrink. exists storage, masterSts.
  split; [reflexivity|]. split; [reflexivity|].
  destruct (status.shrinkRequested masterSts (st_Size storage)); [reflexivity|].
  exfalso. apply (Hno eq_refl). now rewrite <- Hreason.
Qed.

(** The replica block sets at most the condition DatabaseReplicaHistory,
    never with reason ShrinkNotSupported: the replica StatefulSet's claim
    template and the replica claims are not read. *)
Lemma checkReplicaStatus_conditions (ms : MusicService) (db : DatabaseSpec) (w : World) :
  spec_Database (Spec ms) = Some db ->
  exists ms2 w2,
    status.checkReplicaStatus ms w = (Ok ms2, w2) /\
    forall t x,
      findCondition t (Conditions (Status ms2)) = Some x ->
      findCondition t (Conditions (Status ms)) = Some x \/
      c_Reason x <> "ShrinkNotSupported".
Proof.
  intros Hdb. unfold status.checkReplicaStatus. rewrite Hdb. cbn [deref].
  rewrite m_bind_liftRes_ok.
  destruct (db_Replicas db >? 0); [|eexists _, _; split; [reflexivity|]; auto].
  destruct (Get_sameCluster StatefulSets (Namespace (Meta ms))
              (Name (Meta ms) +:+ "-db-replica") w) as [r Hr].
  rewrite (m_bind_ok _ _ _ _ _ Hr).
  destruct r as [replicaSts|err].
  - unfold m_bind, Now. rewrite setStatusCondition_run.
    eexists _, _. split; [reflexivity|]. intros t x Hfind.
    cbn [Status withStatus Conditions setConditions setDatabase status.withDatabaseStatus]
      in Hfind.
    apply applyCondition_cases in Hfind as [Hold|[_ Hreason]]; [now left|].
    right. rewrite Hreason. discriminate.
  - destruct (IsNotFound err); [|eexists _, _; split; [reflexivity|]; auto].
    destruct (dbs_ReplicaEverCreated (status.databaseStatus ms));
      [|eexists _, _; split; [reflexivity|]; auto].
    rewrite setStatusCondition_run.
    eexists _, _. split; [reflexivity|]. intros t x Hfind.
    cbn [Status withStatus Conditions setConditions setDatabase status.withDatabaseStatus]
      in Hfind.
    apply applyCondition_cases in Hfind as [Hold|[_ Hreason]]; [now left|].
    right. rewrite Hreason. discriminate.
Qed.

(** The database status pass reports a shrink for the master tier only. *)
Lemma UpdateDatabase_shrink_master_only (ms : MusicService) (db : DatabaseSpec) (w : World) :
  spec_Database (Spec ms) = Some db ->
  exists ms' e w',
    status.UpdateDatabase ms w = (Ok (ms', e), w') /\
    forall t,
      shrinkWarningSet (Conditions (Status ms)) (Conditions (Status ms')) t ->
      t = "StorageWarningDatabase" /\
      exists storage masterSts,
        db_Storage db = Some storage /\
        statefulsets w !! (Namespace (Meta ms), Name (Meta ms) +:+ "-db-master")
          = Some masterSts /\
        status.shrinkRequested masterSts (st_Size storage) = true.
Proof.
  intros Hdb. unfold status.UpdateDatabase.
  destruct (checkMasterStatus_conditions
              (status.withDatabaseStatus ms (status.databaseStatus ms)) db w Hdb)
    as (ms1 & w1 & Hrun1 & _ & Hspec & Hmaster).
  rewrite (m_bind_ok _ _ _ _ _ Hrun1).
  assert (Hdb1 : spec_Database (Spec ms1) = Some db) by (rewrite Hspec; exact Hdb).
  destruct (checkReplicaStatus_conditions ms1 db w1 Hdb1) as (ms2 & w2 & Hrun2 & Hreplica).
  rewrite (m_bind_ok _ _ _ _ _ Hrun2).
  destruct (StatusUpdate_run ms2 w2) as (e & w' & Hrun3 & _).
  rewrite (m_bind_ok _ _ _ _ _ Hrun3).
  exists ms2, e, w'. split; [reflexivity|].
  intros t (c & Hfind & Hreason & Hnew).
  destruct (Hreplica t c Hfind) as [Hold|Hother]; [|contradiction].
  destruct (Hmaster t c Hold) as [Hbefore|[-> Hshrink]]; [contradiction|].
  split; [reflexivity|]. exact (Hshrink Hreason).
Qed.
End StorageStatus.

Lemma ReconcileStatefulSet_found `{QuantityParser} {L : Layout}
    (ms : MusicService) (sts desiredSts : StatefulSet) (w : World) :
  faults w VGet KStatefulSet (Name (Meta ms)) = None ->
  statefulsets w !! (Namespace (Meta ms), Name (Meta ms)) = Some sts ->
  builder.BuildAppStatefulSet ms = Ok desiredSts ->
  reconciler.ReconcileStatefulSet ms w =
    reconciler.applyStatefulSet sts desiredSts (spec_Storage (Spec ms)) "music-data"
      (Name (Meta ms)) w.
Proof.
  intros Hf Hs Hb. unfold reconciler.ReconcileStatefulSet.
  rewrite (m_bind_ok _ _ _ _ _ (Get_found _ _ _ _ Hf Hs)), Hb.
  reflexivity.
Qed.

Lemma ReconcileMaster_found `{QuantityParser} {L : Layout}
    (ms : MusicService) (sts desiredSts : StatefulSet) (w : World) :
  faults w VGet KStatefulSet (Name (Meta ms) +:+ "-db-master") = None ->
  statefulsets w !! (Namespace (Meta ms), Name (Meta ms) +:+ "-db-master") = Some sts ->
  builder.BuildDatabaseMasterStatefulSet ms = Ok desiredSts ->
  reconciler.ReconcileMaster ms w =
    reconciler.applyStatefulSet sts desiredSts (reconciler.databaseStorageSpec ms) "db-data"
      (Name (Meta ms) +:+ "-db-master") w.
Proof.
  intros Hf Hs Hb. unfold reconciler.ReconcileMaster.
  rewrite (m_bind_ok _ _ _ _ _ (Get_found _ _ _ _ Hf Hs)), Hb.
  reflexivity.
Qed.

Lemma ReconcileReplicas_found `{QuantityParser} {L : Layout}
    (ms : MusicService) (db : DatabaseSpec) (secret : option Secret)
    (sts desiredSts : StatefulSet) (w w1 : World) :
  spec_Database (Spec ms) = Some db ->
  db_Replicas db <> 0 ->
  reconciler.ensureReplicationSecret ms w = (Ok (secret, None), w1) ->
  faults w1 VGet KStatefulSet (Name (Meta ms) +:+ "-db-replica") = None ->
  statefulsets w1 !! (Namespace (Meta ms), Name (Meta ms) +:+ "-db-replica") = Some sts ->
  builder.BuildDatabaseReplicaStatefulSet ms = Ok desiredSts ->
  reconciler.ReconcileReplicas ms w =
    reconciler.applyStatefulSet sts desiredSts (reconciler.databaseStorageSpec ms) "db-data"
      (Name (Meta ms) +:+ "-db-replica") w1.
Proof.
  intros Hdb Hrep Hsecret Hf Hs Hb. unfold reconciler.ReconcileReplicas.
  rewrite Hdb. cbn [deref]. rewrite m_bind_liftRes_ok.
  apply Z.eqb_neq in Hrep. rewrite Hrep.
  rewrite (m_bind_ok _ _ _ _ _ Hsecret). cbn [snd].
  rewrite (m_bind_ok _ _ _ _ _ (Get_found _ _ _ _ Hf Hs)), Hb.
  reflexivity.
Qed.

(** C2 (as the code has it): under the Resize policy (or none) the
    StatefulSet reconcilers of the three tiers, each of which hands the
    StatefulSet it finds to the same storage step, delete nothing and write a
    claim only when the claim itself requests less than the declared size,
    setting it to the declared size: no claim is written when none requests
    less, and every claim that requests less is written when the size differs
    from the StatefulSet's template and the API accepts the updates. The
    status pass reports ShrinkNotSupported when the declared size is below the
    request in the StatefulSet's claim template, for the application tier and,
    when Database.Storage is set, for the database master tier. For the
    database replica tier it reports nothing: whatever the replica StatefulSet
    and its claims request, a ShrinkNotSupported condition that the database
    status pass sets is StorageWarningDatabase, for a master StatefulSet whose
    template requests more than the declared size. *)
Theorem resize_policy_storage `{QuantityParser} {L : Layout} :
  (forall sts desiredSts storage claimName appName size w,
     reconciler.storageUpdatePolicy storage <> StorageUpdatePolicyRecreate ->
     reconciler.storageRequestFromStatefulSet desiredSts = Some size ->
     let claims := tierClaims claimName appName (Namespace (sts_Meta desiredSts)) w in
     exists r w' written tail,
       reconciler.applyStatefulSet sts desiredSts storage claimName appName w = (r, w') /\
       trace w' = (trace w ++ map (resizeEvent size) written ++ tail)%list /\
       (tail = [] \/ tail = [EvUpdate (OStatefulSet (withSpec sts (sts_Spec desiredSts)))]) /\
       (forall pvc, List.In pvc written -> List.In pvc claims /\ requestsLess size pvc = true) /\
       ((forall pvc, List.In pvc claims -> requestsLess size pvc = false) -> written = []) /\
       (reconciler.storageSizeChanged sts desiredSts = true ->
        faults w VList KPVC "" = None ->
        (forall name, faults w VUpdate KPVC name = None) ->
        claimsWellKeyed w ->
        written = List.filter (requestsLess size) claims)) /\
  (forall ms sts desiredSts w,
     faults w VGet KStatefulSet (Name (Meta ms)) = None ->
     statefulsets w !! (Namespace (Meta ms), Name (Meta ms)) = Some sts ->
     builder.BuildAppStatefulSet ms = Ok desiredSts ->
     reconciler.ReconcileStatefulSet ms w =
       reconciler.applyStatefulSet sts desiredSts (spec_Storage (Spec ms)) "music-data"
         (Name (Meta ms)) w) /\
  (forall ms sts desiredSts w,
     faults w VGet KStatefulSet (Name (Meta ms) +:+ "-db-master") = None ->
     statefulsets w !! (Namespace (Meta ms), Name (Meta ms) +:+ "-db-master") = Some sts ->
     builder.BuildDatabaseMasterStatefulSet ms = Ok desiredSts ->
     reconciler.ReconcileMaster ms w =
       reconciler.applyStatefulSet sts desiredSts (reconciler.databaseStorageSpec ms) "db-data"
         (Name (Meta ms) +:+ "-db-master") w) /\
  (forall ms db secret sts desiredSts w w1,
     spec_Database (Spec ms) = Some db ->
     db_Replicas db <> 0 ->
     reconciler.ensureReplicationSecret ms w = (Ok (secret, None), w1) ->
     faults w1 VGet KStatefulSet (Name (Meta ms) +:+ "-db-replica") = None ->
     statefulsets w1 !! (Namespace (Meta ms), Name (Meta ms) +:+ "-db-replica") = Some sts ->
     builder.BuildDatabaseReplicaStatefulSet ms = Ok desiredSts ->
     reconciler.ReconcileReplicas ms w =
       reconciler.applyStatefulSet sts desiredSts (reconciler.databaseStorageSpec ms) "db-data"
         (Name (Meta ms) +:+ "-db-replica") w1) /\
  (forall sts size current declared,
     status.storageRequestFromStatefulSet sts = Some current ->
     size <> "" ->
     ParseQuantity size = Some declared ->
     declared < current ->
     status.shrinkRequested sts size = true) /\
  (forall ms sts w,
     is_Some (ss_Replicas (sts_Spec sts)) ->
     status.shrinkRequested sts (st_Size (spec_Storage (Spec ms))) = true ->
     exists ms' e w' c,
       status.UpdateFromAppStatefulSet ms sts w = (Ok (ms', e), w') /\
       findCondition "StorageWarningApp" (Conditions (Status ms')) = Some c /\
       c_Status c = ConditionFalse /\ c_Reason c = "ShrinkNotSupported") /\
  (forall ms db storage masterSts w,
     spec_Database (Spec ms) = Some db ->
     db_Storage db = Some storage ->
     faults w VGet KStatefulSet (Name (Meta ms) +:+ "-db-master") = None ->
     statefulsets w !! (Namespace (Meta ms), Name (Meta ms) +:+ "-db-master") = Some masterSts ->
     status.shrinkRequested masterSts (st_Size storage) = true ->
     exists ms' e w' c,
       status.UpdateDatabase ms w = (Ok (ms', e), w') /\
       findCondition "StorageWarningDatabase" (Conditions (Status ms')) = Some c /\
       c_Status c = ConditionFalse /\ c_Reason c = "ShrinkNotSupported") /\
  (forall ms db w,
     spec_Database (Spec ms) = Some db ->
     exists ms' e w',
       status.UpdateDatabase ms w = (Ok (ms', e), w') /\
       forall t,
         shrinkWarningSet (Conditions (Status ms)) (Conditions (Status ms')) t ->
         t = "StorageWarningDatabase" /\
         exists storage masterSts,
           db_Storage db = Some storage /\
           statefulsets w !! (Namespace (Meta ms), Name (Meta ms) +:+ "-db-master")
             = Some masterSts /\
           status.shrinkRequested masterSts (st_Size storage) = true).
Proof.
  split; [|split; [|split; [|split; [|split; [|split; [|split]]]]]].
  - intros sts desiredSts storage claimName appName size w Hpolicy Hsize claims.
    destruct (applyStatefulSet_resize sts desiredSts storage claimName appName size w
                Hpolicy Hsize)
      as (r & w' & written & tail & Hrun & Htr & Htail & Hw & Hgrow).
    exists r, w', written, tail. split; [exact Hrun|]. split; [exact Htr|].
    split; [exact Htail|]. split; [exact Hw|]. split; [|exact Hgrow].
    intros Hnone. destruct written as [|pvc rest]; [reflexivity|].
    destruct (Hw pvc (or_introl eq_refl)) as [Hin Hless].
    rewrite (Hnone pvc Hin) in Hless. discriminate.
  - intros ms sts desiredSts w. apply ReconcileStatefulSet_found.
  - intros ms sts desiredSts w. apply ReconcileMaster_found.
  - intros ms db secret sts desiredSts w w1. apply ReconcileReplicas_found.
  - intros sts size current declared. apply shrinkRequested_intro.
  - intros ms sts w. apply UpdateFromAppStatefulSet_shrink.
  - intros ms db storage masterSts w. apply UpdateDatabase_shrink.
  - intros ms db w. apply UpdateDatabase_shrink_master_only.
Qed.

(** C3 (as the code has it): the update diff always includes the replica
    count. Whenever the live application StatefulSet has another replica count
    than the spec (the storage size being unchanged), the reconciler updates it
    with the desired spec, whose replica count is the static one of the spec,
    whatever the autoscaling section says and whether or not an autoscaler
    exists. *)
Theorem replica_count_in_update_diff `{QuantityParser} {L : Layout}
    (ms : MusicService) (sts desiredSts : StatefulSet) (live : Z) (w : World) :
  faults w VGet KStatefulSet (Name (Meta ms)) = None ->
  statefulsets w !! (Namespace (Meta ms), Name (Meta ms)) = Some sts ->
  builder.BuildAppStatefulSet ms = Ok desiredSts ->
  ss_Replicas (sts_Spec sts) = Some live ->
  live <> spec_Replicas (Spec ms) ->
  reconciler.storageSizeChanged sts desiredSts = false ->
  reconciler.statefulSetNeedsUpdate sts desiredSts = Ok true /\
  ss_Replicas (sts_Spec desiredSts) = Some (spec_Replicas (Spec ms)) /\
  exists e w',
    reconciler.ReconcileStatefulSet ms w = (Ok e, w') /\
    trace w' =
      (trace w ++ [EvUpdate (OStatefulSet (withSpec sts (sts_Spec desiredSts)))])%list.
Proof.
  intros Hf Hs Hb Hlive Hne Hsame.
  assert (Hdesired : ss_Replicas (sts_Spec desiredSts) = Some (spec_Replicas (Spec ms))).
  { unfold builder.BuildAppStatefulSet in Hb.
    destruct (MustParse (st_Size (spec_Storage (Spec ms)))); cbn [res_bind] in Hb;
      [|discriminate].
    inversion Hb; reflexivity. }
  assert (Hneeds : reconciler.statefulSetNeedsUpdate sts desiredSts = Ok true).
  { unfold reconciler.statefulSetNeedsUpdate. rewrite Hlive, Hdesired. cbn [deref res_bind].
    apply Z.eqb_neq in Hne. now rewrite Hne. }
  split; [exact Hneeds|]. split; [exact Hdesired|].
  rewrite (ReconcileStatefulSet_found ms sts desiredSts w Hf Hs Hb).
  unfold reconciler.applyStatefulSet. rewrite Hsame.
  destruct (updateIfNeeded_run sts desiredSts w) as (r & w' & tail & Hrun & Htr & _ & Htail).
  destruct (Htail Hneeds) as [Hok ->].
  rewrite Hrun. destruct r as [e|msg]; [|discriminate].
  exists e, w'. split; [reflexivity|exact Htr].
Qed.

(** ** The reconcile pass *)

Section ErrorReporting.
Context `{QuantityParser} {L : Layout}.

Lemma UpdateError_run (ms : MusicService) (reason message : string) (w : World) :
  exists ms' e w' c,
    status.UpdateError ms reason message w = (Ok (ms', e), w') /\
    trace w' = (trace w ++ [EvStatusUpdate ms'])%list /\
    Phase (Status ms') = "Failed" /\
    LastError (Status ms') = message /\
    findCondition "Reconciled" (Conditions (Status ms')) = Some c /\
    c_Status c = ConditionFalse /\ c_Reason c = reason /\ c_Message c = message.
Proof.
  unfold status.UpdateError. unfold m_bind at 1. unfold Now at 1.
  rewrite (m_bind_ok _ _ _ _ _ (setStatusCondition_run _ _ _)).
  match goal with |- context [m_bind (client.StatusUpdate ?m) _ ?w0] =>
    destruct (StatusUpdate_run m w0) as (e & w' & Hrun & Htrace) end.
  rewrite (m_bind_ok _ _ _ _ _ Hrun).
  eexists _, e, w', _. split; [reflexivity|]. split; [exact Htrace|].
  cbn [Status withStatus Phase LastError Conditions setConditions setPhase setLastError
       setLastReconcileTime].
  rewrite applyCondition_find_type by reflexivity.
  repeat split.
Qed.

Lemma UpdateReconciled_run (ms : MusicService) (w : World) :
  exists ms' e w' c,
    status.UpdateReconciled ms w = (Ok (ms', e), w') /\
    trace w' = (trace w ++ [EvStatusUpdate ms'])%list /\
    LastError (Status ms') = "" /\
    findCondition "Reconciled" (Conditions (Status ms')) = Some c /\
    c_Status c = ConditionTrue /\ c_Reason c = "ReconcileSuccess".
Proof.
  unfold status.UpdateReconciled.
  rewrite (m_bind_ok _ _ _ _ _ (setStatusCondition_run _ _ _)).
  unfold m_bind at 1. unfold Now at 1.
  match goal with |- context [m_bind (client.StatusUpdate ?m) _ ?w0] =>
    destruct (StatusUpdate_run m w0) as (e & w' & Hrun & Htrace) end.
  rewrite (m_bind_ok _ _ _ _ _ Hrun).
  eexists _, e, w', _. split; [reflexivity|]. split; [exact Htrace|].
  cbn [Status withStatus Phase LastError Conditions setConditions setPhase setLastError
       setLastReconcileTime].
  rewrite applyCondition_find_type by reflexivity.
  repeat split.
Qed.

Lemma syncStatus_reconciled (ms : MusicService) (w : World) :
  reconciledLast (controller.syncStatus ms w).
Proof.
  assert (Hmark : forall m w0,
    reconciledLast
      ((let* u := status.UpdateReconciled m in
        match snd u with
        | Some err => m_ret (controller.mkResult 0, Some err)
        | None =>
            let ms := fst u in
            if ReadyReplicas (Status ms) <? spec_Replicas (Spec ms)
            then m_ret (controller.mkResult 5, None)
            else m_ret (controller.mkResult 30, None)
        end) w0)).
  { intros m w0 res w' Hres.
    destruct (UpdateReconciled_run m w0) as (ms' & e & w1 & c & Hrun & Htr & Herr & Hc).
    rewrite (m_bind_ok _ _ _ _ _ Hrun) in Hres. cbn [fst snd] in Hres.
    destruct e as [err|]; [discriminate|].
    assert (w1 = w') by (destruct (_ <? _); now inversion Hres). subst w'.
    exists ms', (trace w0), c. auto. }
  assert (Hdb : forall m w0,
    reconciledLast
      ((if controller.databaseEnabled m then
          let* u := status.UpdateDatabase m in
          match snd u with
          | Some err => m_ret (controller.mkResult 0, Some err)
          | None =>
              (let* u := status.UpdateReconciled (fst u) in
               match snd u with
               | Some err => m_ret (controller.mkResult 0, Some err)
               | None =>
                   let ms := fst u in
                   if ReadyReplicas (Status ms) <? spec_Replicas (Spec ms)
                   then m_ret (controller.mkResult 5, None)
                   else m_ret (controller.mkResult 30, None)
               end)
          end
        else
          (let* u := status.UpdateReconciled m in
           match snd u with
           | Some err => m_ret (controller.mkResult 0, Some err)
           | None =>
               let ms := fst u in
               if ReadyReplicas (Status ms) <? spec_Replicas (Spec ms)
               then m_ret (controller.mkResult 5, None)
               else m_ret (controller.mkResult 30, None)
           end)) w0)).
  { intros m w0. destruct (controller.databaseEnabled m); [|apply Hmark].
    unfold m_bind at 1.
    destruct (status.UpdateDatabase m w0) as [[[m1 [err|]]|msg] w1];
      cbn [snd fst]; try (intros res w' Hres; discriminate).
    apply Hmark. }
  unfold controller.syncStatus.
  destruct (Get_sameCluster StatefulSets (Namespace (Meta ms)) (Name (Meta ms)) w) as [r Hr].
  rewrite (m_bind_ok _ _ _ _ _ Hr).
  destruct r as [appSts|err]; [|apply Hdb].
  unfold m_bind at 1.
  destruct (status.UpdateFromAppStatefulSet ms appSts w) as [[[m1 [err|]]|msg] w1];
    cbn [snd fst]; try (intros res w' Hres; discriminate).
  unfold m_bind at 1. unfold controller.recordEvent, emit.
  apply Hdb.
Qed.

Variable ReconcileGalera : MusicService -> M (option error).
Variable ReconcileGaleraServices : MusicService -> M (option error).

Lemma follows_nil final : follows final [] final.
Proof. intros w. reflexivity. Qed.

Lemma follows_guarded ms reason step k steps final :
  follows k steps final ->
  follows (controller.guarded ms reason step k) ((reason, step) :: steps) final.
Proof.
  intros Hk w. cbn [controller.firstFailure]. unfold controller.guarded.
  destruct (step w) as [[[err|]|msg] w1] eqn:Hstep.
  - rewrite !(m_bind_ok _ _ _ _ _ Hstep). cbn [m_ret].
    destruct (UpdateError_run ms reason (Error err) w1)
      as (ms' & e & w' & c & Hrun & Hrest).
    rewrite (m_bind_ok _ _ _ _ _ Hrun). exists ms', e, w', c. split; [reflexivity|exact Hrest].
  - rewrite !(m_bind_ok _ _ _ _ _ Hstep). apply Hk.
  - rewrite !(m_bind_panicked _ _ _ _ _ Hstep). reflexivity.
Qed.

Lemma reconcileResources_follows (ms : MusicService) :
  exists final,
    follows (controller.reconcileResources ReconcileGalera ReconcileGaleraServices ms)
      (controller.reconcileSteps ReconcileGalera ReconcileGaleraServices ms)
      (controller.syncStatus final).
Proof.
  unfold controller.reconcileResources, controller.reconcileSteps.
  set (ms1 := withStatus (withStatus ms _) _).
  destruct (controller.databaseEnabled ms1).
  - set (ms2 := match Database (Status ms1) with None => _ | Some _ => ms1 end).
    exists ms2. cbn [app].
    destruct (controller.databaseHAEnabled ms2); cbn [app];
      repeat apply follows_guarded; apply follows_nil.
  - exists ms1. cbn [app]. repeat apply follows_guarded. apply follows_nil.
Qed.
End ErrorReporting.

(** C8: when a reconciliation step of a pass returns an error, nothing more
    is done after it except the status write, which carries phase Failed, the
    error message as lastError and the Reconciled condition False with the
    step's reason and the message; a pass in which no step fails and which
    returns no error ends with a status write that carries an empty lastError
    and the Reconciled condition True. *)
Theorem reconcile_error_reporting `{QuantityParser} {L : Layout}
    (ReconcileGalera ReconcileGaleraServices : MusicService -> M (option error))
    (ms : MusicService) (w : World) :
  let pass := controller.reconcileResources ReconcileGalera ReconcileGaleraServices ms w in
  match controller.firstFailure
          (controller.reconcileSteps ReconcileGalera ReconcileGaleraServices ms) w with
  | (Ok (Some (reason, err)), w1) =>
      exists ms' e w' c,
        pass = (Ok (controller.mkResult 0, e), w') /\
        trace w' = (trace w1 ++ [EvStatusUpdate ms'])%list /\
        Phase (Status ms') = "Failed" /\
        LastError (Status ms') = Error err /\
        findCondition "Reconciled" (Conditions (Status ms')) = Some c /\
        c_Status c = ConditionFalse /\ c_Reason c = reason /\ c_Message c = Error err
  | (Ok None, w1) =>
      forall res w',
        pass = (Ok (res, None), w') ->
        exists ms' before c,
          trace w' = (before ++ [EvStatusUpdate ms'])%list /\
          LastError (Status ms') = "" /\
          findCondition "Reconciled" (Conditions (Status ms')) = Some c /\
          c_Status c = ConditionTrue /\ c_Reason c = "ReconcileSuccess"
  | (Panicked msg, w1) => pass = (Panicked msg, w1)
  end.
Proof.
  intros pass. unfold pass.
  destruct (reconcileResources_follows ReconcileGalera ReconcileGaleraServices ms)
    as [final Hf].
  specialize (Hf w).
  destruct (controller.firstFailure _ w) as [[[[reason err]|]|msg] w1].
  - exact Hf.
  - rewrite Hf. apply syncStatus_reconciled.
  - exact Hf.
Qed.

(** * High availability and the replica autoscaler *)

Lemma ReconcileDatabaseAutoscaler_creates {L : Layout}
    (ms : MusicService) (db : DatabaseSpec) (a : AutoscalingSpec) (w : World) :
  spec_Database (Spec ms) = Some db ->
  db_Autoscaling db = Some a ->
  db_Replicas db <> 0 ->
  faults w VGet KHPA (Name (Meta ms) +:+ "-db-replica-autoscaler") = None ->
  hpas w !! (Namespace (Meta ms), Name (Meta ms) +:+ "-db-replica-autoscaler") = None ->
  exists hpa e w',
    reconciler.ReconcileDatabaseAutoscaler ms w = (Ok e, w') /\
    trace w' = (trace w ++ [EvCreate (OHPA hpa)])%list /\
    Name (hpa_Meta hpa) = Name (Meta ms) +:+ "-db-replica-autoscaler" /\
    ref_Kind (hs_ScaleTargetRef (hpa_Spec hpa)) = "StatefulSet" /\
    ref_Name (hs_ScaleTargetRef (hpa_Spec hpa)) = Name (Meta ms) +:+ "-db-replica".
Proof.
  intros Hdb Ha Hrep Hf Habsent.
  unfold reconciler.ReconcileDatabaseAutoscaler. rewrite Hdb. cbn [deref].
  rewrite m_bind_liftRes_ok, Ha.
  apply Z.eqb_neq in Hrep. rewrite Hrep. cbn [bool_decide decide_rel orb].
  rewrite bool_decide_eq_false_2 by discriminate. cbn [orb].
  assert (Hget : client.Get HPAs (Namespace (Meta ms))
                   (Name (Meta ms) +:+ "-db-replica-autoscaler") w =
                 (Ok (inr (notFound KHPA (Name (Meta ms) +:+ "-db-replica-autoscaler"))), w)).
  { unfold client.Get. cbn [kind select HPAs]. now rewrite Hf, Habsent. }
  rewrite (m_bind_ok _ _ _ _ _ Hget). cbn [IsNotFound notFound].
  unfold builder.BuildDatabaseReplicaAutoscaler. rewrite Hdb, Ha.
  rewrite m_bind_liftRes_ok.
  match goal with |- context [client.Create HPAs ?h w] =>
    destruct (Create_run HPAs h w tidy_HPAs) as (e & w' & Hrun & Htrace & _);
    exists h, e, w' end.
  split; [exact Hrun|]. split; [exact Htrace|]. repeat split.
Qed.

(** C1: under high availability the database autoscaler step still runs. For
    any Galera reconcilers, the steps of a pass with the database and high
    availability enabled are the application steps, the two Galera steps and
    then [DatabaseReconciler.ReconcileAutoscaler]; that step, whatever the
    topology, creates the autoscaler [<name>-db-replica-autoscaler] scaling
    the StatefulSet [<name>-db-replica] whenever the database declares
    autoscaling and replicas and the autoscaler is absent. On the sample
    service (high availability, two replicas, autoscaling) a whole pass writes
    the Galera StatefulSet, no [-db-master] or [-db-replica] StatefulSet, and
    the replica autoscaler, whose target does not exist. *)
Theorem ha_pass_creates_replica_autoscaler :
  (forall (H : QuantityParser) (L : Layout) (RG RGS : MusicService -> M (option error))
          (ms : MusicService),
     controller.databaseEnabled ms = true ->
     controller.databaseHAEnabled ms = true ->
     exists ms0 ms1,
       (Meta ms0, Spec ms0) = (Meta ms, Spec ms) /\
       (Meta ms1, Spec ms1) = (Meta ms, Spec ms) /\
       controller.reconcileSteps RG RGS ms =
         [ ("ServiceFailed", reconciler.ReconcileService ms0);
           ("StatefulSetFailed", reconciler.ReconcileStatefulSet ms0);
           ("AutoscalerFailed", reconciler.ReconcileAutoscaler ms0);
           ("DBGaleraFailed", RG ms1);
           ("DBGaleraServicesFailed", RGS ms1);
           ("DBAutoscalerFailed", reconciler.ReconcileDatabaseAutoscaler ms1) ]) /\
  (forall (L : Layout) (ms : MusicService) (db : DatabaseSpec) (a : AutoscalingSpec)
          (w : World),
     spec_Database (Spec ms) = Some db ->
     db_Autoscaling db = Some a ->
     db_Replicas db <> 0 ->
     faults w VGet KHPA (Name (Meta ms) +:+ "-db-replica-autoscaler") = None ->
     hpas w !! (Namespace (Meta ms), Name (Meta ms) +:+ "-db-replica-autoscaler") = None ->
     exists hpa e w',
       reconciler.ReconcileDatabaseAutoscaler ms w = (Ok e, w') /\
       trace w' = (trace w ++ [EvCreate (OHPA hpa)])%list /\
       Name (hpa_Meta hpa) = Name (Meta ms) +:+ "-db-replica-autoscaler" /\
       ref_Kind (hs_ScaleTargetRef (hpa_Spec hpa)) = "StatefulSet" /\
       ref_Name (hs_ScaleTargetRef (hpa_Spec hpa)) = Name (Meta ms) +:+ "-db-replica") /\
  controller.databaseEnabled haService = true /\
  controller.databaseHAEnabled haService = true /\
  outcome haPass = Ok (controller.mkResult 5, None) /\
  statefulSetWrites (written haPass) = [("demo", Some 2); ("demo-db-galera", Some 3)] /\
  autoscalerWrites (written haPass) = [("demo-db-replica-autoscaler", "demo-db-replica")] /\
  statefulsets (snd haPass) !! ("default", "demo-db-replica") = None /\
  (Name ∘ hpa_Meta <$> hpas (snd haPass) !! ("default", "demo-db-replica-autoscaler"))
    = Some "demo-db-replica-autoscaler".
Proof.
  split; [|split].
  - intros H L RG RGS ms Hdb Hha. unfold controller.reconcileSteps. cbv zeta.
    set (ms0 := withStatus (withStatus ms _) _).
    set (ms1 := match Database (Status ms0) with
                | Some _ => ms0
                | None => withStatus ms0 _
                end).
    assert (Hsame : (Meta ms1, Spec ms1) = (Meta ms, Spec ms))
      by (unfold ms1; destruct (Database (Status ms0)); reflexivity).
    assert (Hdb0 : controller.databaseEnabled ms0 = true) by exact Hdb.
    assert (Hha1 : controller.databaseHAEnabled ms1 = true).
    { unfold controller.databaseHAEnabled. injection Hsame as _ ->. exact Hha. }
    exists ms0, ms1. split; [reflexivity|]. split; [exact Hsame|].
    rewrite Hdb0, Hha1. reflexivity.
  - intros L ms db a w. apply ReconcileDatabaseAutoscaler_creates.
  - repeat split; vm_compute; reflexivity.
Qed.

(** * Sample runs *)

(** C2, on a sample: a database declaring 10Gi whose master StatefulSet was
    created with a 20Gi claim template is reported with StorageWarningDatabase
    and reason ShrinkNotSupported. *)
Lemma resize_policy_storage_master_shrunk :
  status.shrinkRequested (H := binaryQuantity)
    (withReady 1 (okOr emptyStatefulSet
       (builder.BuildDatabaseMasterStatefulSet (H := binaryQuantity)
          (sampleService (Some (sampleDatabase "20Gi" false None)) None)))) "10Gi" = true /\
  exists ms' e w' c,
    status.UpdateDatabase (H := binaryQuantity) shrunkService shrunkMasterCluster
      = (Ok (ms', e), w') /\
    findCondition "StorageWarningDatabase" (Conditions (Status ms')) = Some c /\
    c_Reason c = "ShrinkNotSupported".
Proof.
  assert (Hshrink : status.shrinkRequested (H := binaryQuantity)
            (withReady 1 (okOr emptyStatefulSet
               (builder.BuildDatabaseMasterStatefulSet (H := binaryQuantity)
                  (sampleService (Some (sampleDatabase "20Gi" false None)) None)))) "10Gi" = true)
    by (vm_compute; reflexivity).
  split; [exact Hshrink|].
  destruct (resize_policy_storage (H := binaryQuantity) (L := asWritten))
    as (_ & _ & _ & _ & _ & _ & Hmaster & _).
  destruct (Hmaster shrunkService (sampleDatabase "10Gi" false None)
              {| st_Size := "10Gi"; st_UpdatePolicy := "" |} _ shrunkMasterCluster
              eq_refl eq_refl eq_refl ltac:(vm_compute; reflexivity) Hshrink)
    as (ms' & e & w' & c & Hrun & Hfind & _ & Hreason).
  exists ms', e, w', c. repeat split; assumption.
Defined.

(** C2, the replica tier: under the Resize policy the database declares 10Gi
    while the replica StatefulSet and its two claims are at 20Gi.
    [ReconcileReplicas] writes nothing, as claimed, but the status pass ends
    with StorageWarningDatabase/StorageHealthy and no ShrinkNotSupported
    condition at all: the replica tier is never compared. *)
Lemma replica_shrink_not_reported :
  reconciler.storageUpdatePolicy {| st_Size := "10Gi"; st_UpdatePolicy := "" |}
    = StorageUpdatePolicyResize /\
  declaredDatabaseSize shrunkService = "10Gi" /\
  map (fun pvc => (Name (pvc_Meta pvc), pvc_Requests pvc !! ResourceStorage))
      (tierClaims "db-data" "demo-db-replica" "default" shrunkCluster)
    = [("db-data-demo-db-replica-1", Some (20 * GiB));
       ("db-data-demo-db-replica-0", Some (20 * GiB))] /\
  (reconciler.storageRequestFromStatefulSet
     <$> statefulsets shrunkCluster !! ("default", "demo-db-replica")) = Some (Some (20 * GiB)) /\
  outcome (reconciler.ReconcileReplicas (H := binaryQuantity) (L := asWritten)
      shrunkService shrunkCluster)
    = Ok None /\
  written (reconciler.ReconcileReplicas (H := binaryQuantity) (L := asWritten)
      shrunkService shrunkCluster) = [] /\
  match outcome (status.UpdateDatabase (H := binaryQuantity) shrunkService shrunkCluster) with
  | Ok (ms', e) => (e, reasons (Conditions (Status ms')))
  | Panicked _ => (None, [])
  end = (None, [("StorageWarningDatabase", "StorageHealthy");
                ("DatabaseReplicaHistory", "ReplicaObserved")]).
Proof. repeat split; vm_compute; reflexivity. Qed.

(** C3, on a sample: the application StatefulSet scaled to five replicas is
    updated back to the two replicas of the spec. *)
Lemma replica_count_in_update_diff_autoscaled :
  statefulsets autoscaledCluster !! ("default", "demo") =
    Some (withReplicas 5 (okOr emptyStatefulSet
            (builder.BuildAppStatefulSet (H := binaryQuantity) autoscaledService))) /\
  exists e w',
    reconciler.ReconcileStatefulSet (H := binaryQuantity) (L := asWritten)
        autoscaledService autoscaledCluster
      = (Ok e, w') /\
    statefulSetWrites (trace w') = [("demo", Some 2)].
Proof.
  assert (Hlive : statefulsets autoscaledCluster !! ("default", "demo") =
            Some (withReplicas 5 (okOr emptyStatefulSet
                    (builder.BuildAppStatefulSet (H := binaryQuantity) autoscaledService))))
    by (vm_compute; reflexivity).
  split; [exact Hlive|].
  destruct (replica_count_in_update_diff (H := binaryQuantity) (L := asWritten) autoscaledService
              (withReplicas 5 (okOr emptyStatefulSet
                 (builder.BuildAppStatefulSet (H := binaryQuantity) autoscaledService)))
              (okOr emptyStatefulSet
                 (builder.BuildAppStatefulSet (H := binaryQuantity) autoscaledService))
              5 autoscaledCluster)
    as (_ & _ & e & w' & Hrun & Htrace).
  - reflexivity.
  - exact Hlive.
  - reflexivity.
  - reflexivity.
  - discriminate.
  - vm_compute; reflexivity.
  - exists e, w'. split; [exact Hrun|]. rewrite Htrace. vm_compute. reflexivity.
Defined.

(** C3, with an autoscaler in place: the spec sets Autoscaling, the
    autoscaler [demo-autoscaler] exists and scales [demo], and the live
    StatefulSet differs from the desired one in its replica count only (five
    instead of two). [ReconcileStatefulSet] updates the StatefulSet with two
    replicas. *)
Lemma autoscaled_replicas_written_back :
  spec_Autoscaling (Spec autoscaledService) = Some sampleAutoscaling /\
  spec_Replicas (Spec autoscaledService) = 2 /\
  (Name ∘ hpa_Meta <$> hpas autoscaledCluster !! ("default", "demo-autoscaler"),
   ref_Name ∘ hs_ScaleTargetRef ∘ hpa_Spec <$> hpas autoscaledCluster !! ("default", "demo-autoscaler"))
     = (Some "demo-autoscaler", Some "demo") /\
  (ss_Replicas ∘ sts_Spec <$> statefulsets autoscaledCluster !! ("default", "demo")) = Some (Some 5) /\
  (withReplicas 2 <$> statefulsets autoscaledCluster !! ("default", "demo")) =
    Some (okOr emptyStatefulSet (builder.BuildAppStatefulSet (H := binaryQuantity) autoscaledService)) /\
  outcome (reconciler.ReconcileStatefulSet (H := binaryQuantity) (L := asWritten)
      autoscaledService autoscaledCluster)
    = Ok None /\
  statefulSetWrites
    (written (reconciler.ReconcileStatefulSet (H := binaryQuantity) (L := asWritten)
        autoscaledService autoscaledCluster))
    = [("demo", Some 2)].
Proof. repeat split; vm_compute; reflexivity. Qed.

(** C4, on a sample: two ready replicas out of three. *)
Lemma UpdateFromAppStatefulSet_phases_progressing :
  ss_Replicas (sts_Spec progressingStatefulSet) = Some 3 /\
  exists ms' e w' available,
    status.UpdateFromAppStatefulSet (H := binaryQuantity) (sampleService None None)
      progressingStatefulSet sampleCluster = (Ok (ms', e), w') /\
    Phase (Status ms') = "Progressing" /\
    findCondition "Available" (Conditions (Status ms')) = Some available /\
    c_Status available = ConditionFalse.
Proof.
  split; [reflexivity|].
  destruct (UpdateFromAppStatefulSet_phases (H := binaryQuantity) (sampleService None None)
              progressingStatefulSet sampleCluster eq_refl)
    as (ms' & e & w' & available & Hrun & _ & _ & _ & Hfind & _ & Htwo & _).
  destruct (Htwo eq_refl) as (Hphase & Hstatus & _).
  exists ms', e, w', available. repeat split; assumption.
Defined.

(** C5, on a sample: Available goes from False to True at time 1000; it
    keeps its place before Reconciled and takes the current time. *)
Lemma setCondition_stable_status_change :
  List.NoDup (map c_Type sampleConditions) /\
  exists conds' new,
    status.setCondition sampleConditions readyCondition sampleCluster =
      (Ok conds', withClock 1001 sampleCluster) /\
    map c_Type conds' = ["Available"; "Reconciled"] /\
    findCondition "Available" conds' = Some new /\
    c_LastTransitionTime new = 1000.
Proof.
  assert (Hnd : List.NoDup (map c_Type sampleConditions))
    by (repeat constructor; cbn; intuition discriminate).
  split; [exact Hnd|].
  destruct (setCondition_stable sampleConditions readyCondition sampleCluster Hnd)
    as (conds' & new & Hrun & _ & Hfind & _ & _ & _ & _ & _ & Hold).
  cbn in Hold. destruct Hold as ((pre & post & Hc & Hc') & _ & Hnew).
  exists conds', new. split; [exact Hrun|]. split.
  - injection Hrun as Hrun. rewrite <- Hrun. reflexivity.
  - split; [exact Hfind|]. apply Hnew. discriminate.
Defined.

(** C6, on a sample: the first pass over a cluster without the secret. The
    entropy source of the sample hands out the bytes 3, 10, 17, ... *)
Lemma ensureReplicationSecret_create_once_first_pass :
  reconciler.replicationEnabled shrunkService = true /\
  secrets (clusterOf shrunkService) !! ("default", "demo-db-replication") = None /\
  exists secret e w',
    reconciler.ensureReplicationSecret shrunkService
      (clusterOf shrunkService) = (Ok (Some secret, e), w') /\
    trace w' = [EvCreate (OSecret secret)] /\
    sec_Data secret !! "username" = Some "repl" /\
    sec_Data secret !! "password" = Some "030a11181f262d343b424950575e656c" /\
    entropyPos w' = 16%nat.
Proof.
  split; [reflexivity|]. split; [reflexivity|].
  pose proof (ensureReplicationSecret_create_once (H := binaryQuantity) shrunkService
                (sampleDatabase "10Gi" false None) (clusterOf shrunkService)
                eq_refl eq_refl eq_refl eq_refl) as Hpass.
  destruct (Hpass eq_refl)
    as (secret & password & e & w' & Hrun & Htrace & _ & _ & _ & Hdata & _ & Hbytes & Hpos & _).
  exists secret, e, w'. split; [exact Hrun|]. split; [exact Htrace|].
  rewrite Hdata, Hbytes.
  split; [vm_compute; reflexivity|]. split; [vm_compute; reflexivity|exact Hpos].
Defined.

(** C7, on a sample: the replica tier was seen before and is gone. *)
Lemma UpdateDatabase_replica_history_deleted :
  spec_Database (Spec onceReplicatedService) = Some (sampleDatabase "10Gi" false None) /\
  db_Replicas (sampleDatabase "10Gi" false None) > 0 /\
  statefulsets (clusterOf onceReplicatedService) !! ("default", "demo-db-replica") = None /\
  exists ms' e w' after c,
    status.UpdateDatabase (H := binaryQuantity) onceReplicatedService
      (clusterOf onceReplicatedService) = (Ok (ms', e), w') /\
    Database (Status ms') = Some after /\
    dbs_ReplicaEverCreated after = true /\
    dbs_ReplicaDeletionDetected after = true /\
    findCondition "DatabaseReplicaHistory" (Conditions (Status ms')) = Some c /\
    c_Reason c = "ReplicaDeleted".
Proof.
  split; [reflexivity|]. split; [reflexivity|]. split; [reflexivity|].
  destruct (UpdateDatabase_replica_history (H := binaryQuantity) onceReplicatedService
              (sampleDatabase "10Gi" false None) (clusterOf onceReplicatedService)
              eq_refl eq_refl eq_refl)
    as (ms' & e & w' & after & Hrun & _ & Hafter & Hkeep & _ & Habsent).
  destruct (Habsent eq_refl eq_refl) as [_ Hdeleted].
  destruct (Hdeleted eq_refl) as (Hdetected & c & Hfind & _ & Hreason).
  exists ms', e, w', after, c.
  split; [exact Hrun|]. split; [exact Hafter|]. split; [exact (Hkeep eq_refl)|].
  split; [exact Hdetected|]. split; assumption.
Defined.

(** C8, on a sample: the API refuses to create services, so the first step
    fails. *)
Lemma reconcile_error_reporting_refused :
  exists ms' e w' c,
    controller.reconcileResources (H := binaryQuantity) (L := asWritten)
        (fun _ => m_ret None) (fun _ => m_ret None)
      (sampleService None None) refusingCluster = (Ok (controller.mkResult 0, e), w') /\
    last (trace w') = Some (EvStatusUpdate ms') /\
    Phase (Status ms') = "Failed" /\
    LastError (Status ms') = "services is forbidden" /\
    findCondition "Reconciled" (Conditions (Status ms')) = Some c /\
    c_Status c = ConditionFalse /\ c_Reason c = "ServiceFailed".
Proof.
  pose proof (reconcile_error_reporting (H := binaryQuantity) (L := asWritten) (fun _ => m_ret None)
                (fun _ => m_ret None) (sampleService None None) refusingCluster) as Hpass.
  cbv zeta in Hpass.
  lazymatch type of Hpass with
  | match ?run with _ => _ end =>
      let v := eval vm_compute in run in change run with v in Hpass
  end.
  cbv iota beta in Hpass.
  destruct Hpass as (ms' & e & w' & c & Hrun & Htrace & Hphase & Herr & Hfind & Hstatus & Hreason & _).
  exists ms', e, w', c. split; [exact Hrun|].
  split; [rewrite Htrace; apply last_snoc|].
  repeat split; assumption.
Defined.

(** C9, a malformed size: the storage size "plenty" is no quantity. The
    builder does not return, and neither does the reconciler that called it:
    the run ends in the panic of [resource.MustParse], no error value reaches
    the caller of [ReconcileStatefulSet], and nothing was written. *)
Lemma malformed_size_panics :
  ParseQuantity (QuantityParser := binaryQuantity)
    (st_Size (spec_Storage (Spec malformedService))) = None /\
  builder.BuildAppStatefulSet (H := binaryQuantity) malformedService =
    Panicked "cannot parse 'plenty': quantities must match the regular expression" /\
  outcome (reconciler.ReconcileStatefulSet (H := binaryQuantity) (L := asWritten)
             malformedService (clusterOf malformedService)) =
    Panicked "cannot parse 'plenty': quantities must match the regular expression" /\
  (forall err,
     outcome (reconciler.ReconcileStatefulSet (H := binaryQuantity) (L := asWritten)
                malformedService (clusterOf malformedService)) <> Ok (Some err)) /\
  written (reconciler.ReconcileStatefulSet (H := binaryQuantity) (L := asWritten)
             malformedService (clusterOf malformedService)) = [].
Proof.
  assert (Hrun : outcome (reconciler.ReconcileStatefulSet (H := binaryQuantity) (L := asWritten)
                            malformedService (clusterOf malformedService)) =
            Panicked "cannot parse 'plenty': quantities must match the regular expression")
    by (vm_compute; reflexivity).
  split; [vm_compute; reflexivity|]. split; [vm_compute; reflexivity|].
  split; [exact Hrun|]. split; [intros err; rewrite Hrun; discriminate|].
  vm_compute; reflexivity.
Qed.


(** * The update diffs *)

Lemma DeepEqual_true {L : Layout} {A} `{EqDecision A} (a b : A) :
  DeepEqual a b = true -> a = b.
Proof.
  unfold DeepEqual. intros Heq. apply andb_true_iff in Heq as [Heq _].
  now apply bool_decide_eq_true in Heq.
Qed.

Lemma DeepEqual_alike {L : Layout} {A} `{EqDecision A} (a : A) :
  sameLayout a a = true -> DeepEqual a a = true.
Proof. intros Halike. unfold DeepEqual. now rewrite bool_decide_eq_true_2, Halike. Qed.

Section Diff.
Context {L : Layout}.

Lemma containersDiffer_false (cs ds : list Container) :
  length cs = length ds ->
  reconciler.containersDiffer cs ds = false ->
  map comparedFields cs = map comparedFields ds.
Proof.
  revert ds. induction cs as [|c cs IH]; intros [|d ds] Hlen; try discriminate.
  - reflexivity.
  - injection Hlen as Hlen. cbn [reconciler.containersDiffer map].
    destruct (String.eqb_spec (ct_Image c) (ct_Image d)) as [Hi|Hi]; cbn [negb];
      [|discriminate].
    repeat lazymatch goal with
           | |- (if negb (DeepEqual ?a ?b) then _ else _) = _ -> _ =>
               let Heq := fresh "Heq" in
               destruct (DeepEqual a b) eqn:Heq; cbn [negb];
               [apply DeepEqual_true in Heq|discriminate]
           end.
    intros Hrest. rewrite (IH ds Hlen Hrest). unfold comparedFields. congruence.
Qed.

Lemma containersDiffer_reads (cs ds cs' ds' : list Container) :
  map comparedFields cs' = map comparedFields cs ->
  map comparedFields ds' = map comparedFields ds ->
  reconciler.containersDiffer cs' ds' = reconciler.containersDiffer cs ds.
Proof.
  revert ds cs' ds'. induction cs as [|c cs IH]; intros ds [|c' cs'] ds' Hcs Hds;
    try discriminate.
  - destruct ds, ds'; reflexivity || discriminate.
  - destruct ds as [|d ds], ds' as [|d' ds']; try discriminate; [reflexivity|].
    cbn [map] in Hcs, Hds.
    injection Hcs as Hi Hr He Hv Hp Hrp Hlp Hcs. injection Hds as Hi' Hr' He' Hv' Hp' Hrp' Hlp' Hds.
    cbn [reconciler.containersDiffer].
    rewrite Hi, Hr, He, Hv, Hp, Hrp, Hlp, Hi', Hr', He', Hv', Hp', Hrp', Hlp'.
    now rewrite (IH ds cs' ds' Hcs Hds).
Qed.

Lemma containersDiffer_alike (cs : list Container) :
  (forall A (a : A), sameLayout a a = true) ->
  reconciler.containersDiffer cs cs = false.
Proof.
  intros Halike. induction cs as [|c cs IH]; [reflexivity|].
  cbn [reconciler.containersDiffer]. rewrite String.eqb_refl. cbn [negb].
  now rewrite !DeepEqual_alike by apply Halike.
Qed.
End Diff.


Lemma metricsDiffer_false (current desired : list MetricSpec) :
  length current = length desired ->
  Forall resourceMetric desired ->
  reconciler.metricsDiffer current desired = false <->
    map comparedMetric current = map comparedMetric desired.
Proof.
  revert desired. induction current as [|c cs IH]; intros [|d ds] Hlen Hres; try discriminate.
  - split; reflexivity.
  - injection Hlen as Hlen. inversion Hres as [|? ? (dr & du & Hdr & Hdu) Hrest]; subst.
    specialize (IH ds Hlen Hrest).
    cbn [reconciler.metricsDiffer map]. unfold comparedMetric at 1 3. rewrite Hdr, Hdu.
    destruct (String.eqb_spec (met_Type c) (met_Type d)) as [Ht|Ht]; cbn [negb];
      [|split; [discriminate|intros Heq; injection Heq; intros; contradiction]].
    destruct (met_Resource c) as [r|]; [|split; discriminate].
    destruct (String.eqb_spec (rms_Name r) (rms_Name dr)) as [Hname|Hname]; cbn [negb];
      [|split; [discriminate|intros Heq; injection Heq; intros; contradiction]].
    destruct (rms_AverageUtilization r) as [u|]; [|split; discriminate].
    destruct (Z.eqb_spec u du) as [Hu|Hu]; cbn [negb];
      [|split; [discriminate|intros Heq; injection Heq; intros; contradiction]].
    rewrite IH. split; [intros ->; congruence|intros Heq; now injection Heq].
Qed.

Lemma autoscalerMetrics_resource (a : AutoscalingSpec) :
  Forall resourceMetric (builder.autoscalerMetrics a).
Proof.
  unfold builder.autoscalerMetrics.
  destruct (as_TargetMemoryUtilizationPercentage a); repeat constructor;
    eexists _, _; split; reflexivity.
Qed.

(** X2: against the autoscaler the builder gives, [autoscalerNeedsUpdate]
    says no update is needed exactly when the live autoscaler has the same
    maximum, the same minimum and, metric by metric, the same type, resource
    name and target utilization. The scale target is not compared: a live
    autoscaler that scales another workload is left as it is. *)
Theorem autoscalerNeedsUpdate_compares (ms : MusicService)
    (current desired : HorizontalPodAutoscaler) :
  builder.BuildAutoscaler ms = Ok desired ->
  reconciler.autoscalerNeedsUpdate current desired = false <->
    hs_MaxReplicas (hpa_Spec current) = hs_MaxReplicas (hpa_Spec desired) /\
    hs_MinReplicas (hpa_Spec current) = hs_MinReplicas (hpa_Spec desired) /\
    map comparedMetric (hs_Metrics (hpa_Spec current)) =
      map comparedMetric (hs_Metrics (hpa_Spec desired)).
Proof.
  unfold builder.BuildAutoscaler. destruct (spec_Autoscaling (Spec ms)) as [a|]; [|discriminate].
  intros Hd. injection Hd as <-. unfold reconciler.autoscalerNeedsUpdate.
  cbn [hpa_Spec hs_MaxReplicas hs_MinReplicas hs_Metrics].
  destruct (Z.eqb_spec (hs_MaxReplicas (hpa_Spec current)) (as_MaxReplicas a)) as [Hmax|Hmax];
    cbn [negb]; [|split; [discriminate|tauto]].
  destruct (hs_MinReplicas (hpa_Spec current)) as [n|];
    [|split; [discriminate|intros (_ & ? & _); discriminate]].
  destruct (Z.eqb_spec n (as_MinReplicas a)) as [Hmin|Hmin]; cbn [negb];
    [|split; [discriminate|intros (_ & Heq & _); injection Heq; contradiction]].
  destruct (Nat.eqb_spec (length (hs_Metrics (hpa_Spec current)))
              (length (builder.autoscalerMetrics a))) as [Hlen|Hlen]; cbn [negb].
  - rewrite (metricsDiffer_false _ _ Hlen (autoscalerMetrics_resource a)).
    subst n. tauto.
  - split; [discriminate|]. intros (_ & _ & Hr). exfalso. apply Hlen.
    apply (f_equal (@length _)) in Hr. now rewrite !length_map in Hr.
Qed.

(** * Selecting a tier's claims *)

Lemma substring_length_le (n : nat) (s : string) :
  (String.length (substring 0 n s) <= String.length s)%nat.
Proof.
  revert s. induction n as [|n IH]; intros [|c s]; cbn; auto with arith.
Qed.

(** The slice test of the status manager is [strings.HasPrefix]. *)
Lemma hasPrefix_slice (prefix s : string) :
  ((String.length prefix <=? String.length s)%nat
   && String.eqb (substring 0 (String.length prefix) s) prefix)%bool
  = String.prefix prefix s.
Proof.
  destruct (String.prefix prefix s) eqn:Hp.
  - apply prefix_correct in Hp. rewrite Hp, String.eqb_refl, andb_true_r.
    apply Nat.leb_le. rewrite <- Hp at 1. apply substring_length_le.
  - apply andb_false_iff. right. apply String.eqb_neq. intros Heq.
    apply prefix_correct in Heq. congruence.
Qed.

Lemma prefix_app (p q s : string) :
  String.prefix (p +:+ q) s = true -> String.prefix p s = true.
Proof.
  revert s. induction p as [|c p IH]; intros s; [now destruct s|].
  destruct s as [|d s]; simpl; [discriminate|].
  destruct (ascii_dec c d); [apply IH|discriminate].
Qed.

Lemma prefix_split (p s : string) :
  String.prefix p s = true -> exists rest, s = p +:+ rest.
Proof.
  revert s. induction p as [|c p IH]; intros s; [exists s; reflexivity|].
  destruct s as [|d s]; simpl; [discriminate|].
  destruct (ascii_dec c d) as [->|]; [|discriminate].
  intros Hp. destruct (IH s Hp) as [rest ->]. now exists rest.
Qed.

Lemma prefix_append (p s : string) : String.prefix p (p +:+ s) = true.
Proof.
  induction p as [|c p IH]; simpl; [now destruct s|].
  destruct (ascii_dec c c); [exact IH|contradiction].
Qed.

Lemma append_assoc (a b c : string) : (a +:+ b) +:+ c = a +:+ (b +:+ c).
Proof.
  induction a as [|x a IH]; [reflexivity|].
  change (String x ((a +:+ b) +:+ c) = String x (a +:+ (b +:+ c))). now rewrite IH.
Qed.

(** X3: the two copies of [listPVCsByPrefix], the reconciler's (with
    [strings.HasPrefix]) and the status manager's (with a length test and a
    slice), give the same answer on every cluster. *)
Theorem listPVCsByPrefix_copies_agree (claimName appName namespace : string) (w : World) :
  status.listPVCsByPrefix claimName appName namespace w =
  reconciler.listPVCsByPrefix claimName appName namespace w.
Proof.
  unfold status.listPVCsByPrefix, reconciler.listPVCsByPrefix, reconciler.claimPrefix.
  apply m_bind_ext; [reflexivity|].
  intros [items|err] w'; [|reflexivity].
  cbv zeta. erewrite List.filter_ext; [reflexivity|].
  intros pvc. apply hasPrefix_slice.
Qed.

(** X4: a tier's claims are selected by namespace and name prefix
    [<claim>-<app>-] alone. When the listing succeeds the reconciler gets
    exactly the stored claims of the namespace whose name starts with the
    prefix, so the claims of any other workload named [<app>-<suffix>] are
    selected along with the workload's own. *)
Theorem listPVCsByPrefix_selects (claimName appName namespace : string) (w : World) :
  faults w VList KPVC "" = None ->
  exists claims,
    reconciler.listPVCsByPrefix claimName appName namespace w = (Ok (inl claims), w) /\
    (forall pvc,
       List.In pvc claims <->
       (exists key, pvcs w !! key = Some pvc) /\
       Namespace (pvc_Meta pvc) = namespace /\
       exists rest, Name (pvc_Meta pvc) = claimName +:+ "-" +:+ appName +:+ "-" +:+ rest) /\
    (forall suffix other,
       reconciler.listPVCsByPrefix claimName (appName +:+ "-" +:+ suffix) namespace w
         = (Ok (inl other), w) ->
       forall pvc, List.In pvc other -> List.In pvc claims).
Proof.
  intros Hf.
  destruct (reconciler_listPVCsByPrefix_run claimName appName namespace w) as [Hrun _].
  exists (tierClaims claimName appName namespace w). split; [exact (Hrun Hf)|].
  assert (Hin : forall app pvc,
    List.In pvc (tierClaims claimName app namespace w) <->
    (exists key, pvcs w !! key = Some pvc) /\
    Namespace (pvc_Meta pvc) = namespace /\
    String.prefix (reconciler.claimPrefix claimName app) (Name (pvc_Meta pvc)) = true).
  { intros app pvc. unfold tierClaims. rewrite List.filter_In.
    rewrite <- list_elem_of_In, list_elem_of_filter, list_elem_of_fmap.
    split.
    - intros [[Hns ([key p] & -> & Hkey)] Hp]. apply elem_of_map_to_list in Hkey.
      split; [now exists key|]. split; assumption.
    - intros ([key Hkey] & Hns & Hp). split; [|exact Hp]. split; [exact Hns|].
      exists (key, pvc). split; [reflexivity|]. now apply elem_of_map_to_list. }
  split.
  - intros pvc. rewrite Hin. unfold reconciler.claimPrefix.
    split; intros (Hkey & Hns & Hp); (split; [exact Hkey|]); (split; [exact Hns|]).
    + destruct (prefix_split _ _ Hp) as [rest Hrest]. exists rest.
      rewrite Hrest, !append_assoc. reflexivity.
    + destruct Hp as [rest ->].
      rewrite <- !append_assoc. apply prefix_append.
  - intros suffix other Hother pvc Hpvc.
    destruct (reconciler_listPVCsByPrefix_run claimName (appName +:+ "-" +:+ suffix)
                namespace w) as [Hrun' _].
    rewrite (Hrun' Hf) in Hother. injection Hother as <-.
    apply Hin in Hpvc. apply Hin. destruct Hpvc as (Hkey & Hns & Hp).
    split; [exact Hkey|]. split; [exact Hns|].
    unfold reconciler.claimPrefix in *.
    apply (prefix_app _ (suffix +:+ "-")).
    rewrite !append_assoc in Hp. rewrite !append_assoc. exact Hp.
Qed.

(** * Conditions, once more *)

Lemma withLastTransitionTime_own (c : Condition) :
  withLastTransitionTime c (c_LastTransitionTime c) = c.
Proof. now destruct c. Qed.

Lemma replaceExisting_again (t1 t2 : Time) (conds conds' : list Condition) (c : Condition)
    (x : Time) :
  status.replaceExisting t1 conds c = Some conds' ->
  status.replaceExisting t2 conds' (withLastTransitionTime c x) = Some conds'.
Proof.
  revert conds'. induction conds as [|c0 rest IH]; intros conds' Hr; [discriminate|].
  cbn [status.replaceExisting] in Hr.
  destruct (String.eqb (c_Type c0) (c_Type c)) eqn:E.
  - injection Hr as <-. cbn [status.replaceExisting].
    match goal with |- context [String.eqb (c_Type ?n) _] =>
      replace (String.eqb (c_Type n) (c_Type (withLastTransitionTime c x))) with true
        by (destruct (negb _); symmetry; apply String.eqb_refl) end.
    f_equal. f_equal.
    destruct (negb (bool_decide (c_Status c0 = c_Status c)));
      cbn [withLastTransitionTime c_Status c_LastTransitionTime negb];
      rewrite bool_decide_eq_true_2 by reflexivity; reflexivity.
  - destruct (status.replaceExisting t1 rest c) as [rest'|]; [|discriminate].
    injection Hr as <-. cbn [status.replaceExisting].
    change (c_Type (withLastTransitionTime c x)) with (c_Type c). rewrite E.
    now rewrite (IH _ eq_refl).
Qed.

Lemma replaceExisting_last (t : Time) (conds : list Condition) (c c1 : Condition) :
  status.replaceExisting t conds c = None ->
  c_Type c1 = c_Type c -> c_Status c1 = c_Status c ->
  status.replaceExisting t (conds ++ [c1]) c =
    Some (conds ++ [withLastTransitionTime c (c_LastTransitionTime c1)])%list.
Proof.
  intros Hr Hty Hst. induction conds as [|c0 rest IH]; cbn [status.replaceExisting app].
  - rewrite Hty, String.eqb_refl, Hst.
    now rewrite bool_decide_eq_true_2 by reflexivity.
  - cbn [status.replaceExisting] in Hr.
    destruct (String.eqb (c_Type c0) (c_Type c)); [discriminate|].
    destruct (status.replaceExisting t rest c); [discriminate|].
    now rewrite IH.
Qed.

Lemma replaceExisting_time (t : Time) (conds : list Condition) (c : Condition) (x : Time) :
  status.replaceExisting t conds (withLastTransitionTime c x) = status.replaceExisting t conds c.
Proof.
  induction conds as [|c0 rest IH]; [reflexivity|]. cbn [status.replaceExisting].
  change (c_Type (withLastTransitionTime c x)) with (c_Type c).
  change (c_Status (withLastTransitionTime c x)) with (c_Status c).
  destruct (String.eqb (c_Type c0) (c_Type c)); [|now rewrite IH].
  now destruct (negb _).
Qed.

Lemma applyCondition_again (t1 t2 : Time) (conds : list Condition) (c : Condition) :
  status.applyCondition t2 (status.applyCondition t1 conds c) c =
  status.applyCondition t1 conds c.
Proof.
  unfold status.applyCondition.
  set (c1 := if IsZero (c_LastTransitionTime c) then withLastTransitionTime c t1 else c).
  set (c2 := if IsZero (c_LastTransitionTime c) then withLastTransitionTime c t2 else c).
  assert (H1 : status.replaceExisting t1 conds c1 = status.replaceExisting t1 conds c)
    by (unfold c1; destruct (IsZero _); [apply replaceExisting_time|reflexivity]).
  assert (H2 : forall l, status.replaceExisting t2 l c2 = status.replaceExisting t2 l c)
    by (intros l; unfold c2; destruct (IsZero _); [apply replaceExisting_time|reflexivity]).
  rewrite H1, H2.
  destruct (status.replaceExisting t1 conds c) as [conds'|] eqn:Hr.
  - pose proof (replaceExisting_again t1 t2 conds conds' c (c_LastTransitionTime c) Hr) as Ha.
    rewrite withLastTransitionTime_own in Ha. now rewrite Ha.
  - assert (Hn : status.replaceExisting t2 conds c = None).
    { apply replaceExisting_None. now apply (replaceExisting_None t1). }
    rewrite (replaceExisting_last t2 conds c c1 Hn)
      by (unfold c1; destruct (IsZero _); reflexivity).
    f_equal. f_equal. unfold c1. destruct (IsZero _); [reflexivity|].
    apply withLastTransitionTime_own.
Qed.

(** X5: [setCondition] is idempotent: setting the condition that was just
    set, at whatever later time, leaves the condition list as it is, the
    transition time included. *)
Theorem setCondition_idempotent (conds : list Condition) (c : Condition) (w : World) :
  exists conds1 w1,
    status.setCondition conds c w = (Ok conds1, w1) /\
    forall w2, exists w3, status.setCondition conds1 c w2 = (Ok conds1, w3).
Proof.
  eexists _, _. split; [apply setCondition_run|].
  intros w2. eexists. rewrite setCondition_run. now rewrite applyCondition_again.
Qed.

(** * The generated password *)

Lemma hexDigit_isHexDigit (n : N) : isHexDigit (hexDigit n) = true.
Proof.
  unfold hexDigit. destruct n as [|p]; [reflexivity|].
  do 4 (destruct p as [p|p|]; try reflexivity).
Qed.

Lemma hexDigit_inj (a b : N) : (a < 16)%N -> (b < 16)%N -> hexDigit a = hexDigit b -> a = b.
Proof.
  intros Ha Hb.
  assert (Hcases : forall n, (n < 16)%N ->
            List.In n [0; 1; 2; 3; 4; 5; 6; 7; 8; 9; 10; 11; 12; 13; 14; 15]%N).
  { intros n Hn. destruct n as [|p]; [now left|].
    do 4 (destruct p as [p|p|]; try (cbn; tauto)); exfalso; lia. }
  apply Hcases in Ha, Hb. cbn in Ha, Hb.
  repeat (destruct Ha as [<-|Ha]; [repeat (destruct Hb as [<-|Hb]; [cbn; try discriminate; reflexivity|]); contradiction|]).
  contradiction.
Qed.

Lemma EncodeToString_hex (buf : list N) :
  forallb isHexDigit (list_ascii_of_string (EncodeToString buf)) = true.
Proof.
  induction buf as [|b rest IH]; [reflexivity|].
  cbn [EncodeToString list_ascii_of_string forallb].
  now rewrite !hexDigit_isHexDigit, IH.
Qed.

Lemma EncodeToString_inj (a b : list N) :
  EncodeToString a = EncodeToString b ->
  map (fun x => x mod 256)%N a = map (fun x => x mod 256)%N b.
Proof.
  revert b. induction a as [|x a IH]; intros [|y b]; cbn [EncodeToString map];
    try discriminate; [reflexivity|].
  intros Heq. injection Heq as Hhi Hlo Hrest.
  apply hexDigit_inj in Hhi, Hlo;
    try (apply N.mod_upper_bound; discriminate);
    try (apply N.Div0.div_lt_upper_bound; apply N.mod_upper_bound; discriminate).
  rewrite (IH _ Hrest). f_equal.
  rewrite (N.div_mod' (x mod 256) 16), (N.div_mod' (y mod 256) 16).
  rewrite Hhi. f_equal.
  replace ((x mod 256) mod 16)%N with (x mod 16)%N; [|].
  2: { change 256%N with (16 * 16)%N. rewrite N.Div0.mod_mul_r.
       rewrite N.mul_comm, N.Div0.mod_add. now rewrite N.Div0.mod_mod. }
  replace ((y mod 256) mod 16)%N with (y mod 16)%N; [exact Hlo|].
  change 256%N with (16 * 16)%N. rewrite N.Div0.mod_mul_r.
  rewrite N.mul_comm, N.Div0.mod_add. now rewrite N.Div0.mod_mod.
Qed.

(** X6: with a working entropy source [generatePassword n] reads [n] bytes
    and returns their lowercase hexadecimal encoding: [2n] characters, each
    one of 0-9 and a-f (no quote, blank or shell character), and two reads
    give the same password only when they read the same bytes. With a failing
    source it returns the error and reads nothing. *)
Theorem generatePassword_hex (n : nat) (w : World) :
  if entropyFails w then
    exists err, reconciler.generatePassword n w = (Ok (inr err), w)
  else
    exists password,
      reconciler.generatePassword n w =
        (Ok (inl password), withEntropyPos (entropyPos w + n) w) /\
      String.length password = (2 * n)%nat /\
      forallb isHexDigit (list_ascii_of_string password) = true /\
      forall w2 rest,
        reconciler.generatePassword n w2 = (Ok (inl password), rest) ->
        randomBytes n w2 = randomBytes n w.
Proof.
  unfold reconciler.generatePassword, m_bind, randRead.
  destruct (entropyFails w) eqn:Hent; [eexists; reflexivity|].
  eexists. split; [reflexivity|].
  split; [now rewrite EncodeToString_length, List.length_map, List.length_seq|].
  split; [apply EncodeToString_hex|].
  intros w2 rest. destruct (entropyFails w2); cbn [m_ret]; [discriminate|].
  intros Heq. injection Heq as Heq _. apply EncodeToString_inj in Heq.
  unfold randomBytes. rewrite !List.map_map in Heq. exact Heq.
Qed.

(** * What the builders give *)

Lemma append_inj_l (a b c : string) : a +:+ b = a +:+ c -> b = c.
Proof.
  induction a as [|x a IH]; [trivial|].
  change (String x (a +:+ b) = String x (a +:+ c) -> b = c).
  intros Heq. injection Heq as Heq. now apply IH.
Qed.

Lemma append_nil_r (a : string) : a +:+ "" = a.
Proof.
  induction a as [|x a IH]; [reflexivity|].
  change (String x (a +:+ "") = String x a). now rewrite IH.
Qed.

Section Wiring.
Context `{QuantityParser} {L : Layout}.
Variables (ms : MusicService) (app master replica : StatefulSet).
Hypothesis Happ : builder.BuildAppStatefulSet ms = Ok app.
Hypothesis Hmaster : builder.BuildDatabaseMasterStatefulSet ms = Ok master.
Hypothesis Hreplica : builder.BuildDatabaseReplicaStatefulSet ms = Ok replica.

Lemma app_wiring :
  svc_Selector (builder.BuildAppService ms) = pt_Labels (ss_Template (sts_Spec app)) /\
  ss_Selector (sts_Spec app) = pt_Labels (ss_Template (sts_Spec app)) /\
  ss_ServiceName (sts_Spec app) = Name (svc_Meta (builder.BuildAppService ms)) /\
  map forwardsTo (svc_Ports (builder.BuildAppService ms)) = containerPorts app.
Proof.
  unfold builder.BuildAppStatefulSet in Happ.
  destruct (MustParse (st_Size (spec_Storage (Spec ms)))); [|discriminate].
  cbn [res_bind] in Happ. injection Happ as <-. repeat split.
Qed.

Lemma master_wiring :
  svc_Selector (builder.BuildDatabaseMasterService ms)
    = pt_Labels (ss_Template (sts_Spec master)) /\
  ss_Selector (sts_Spec master) = pt_Labels (ss_Template (sts_Spec master)) /\
  ss_ServiceName (sts_Spec master) = Name (svc_Meta (builder.BuildDatabaseMasterService ms)) /\
  svc_ClusterIP (builder.BuildDatabaseMasterService ms) = "None" /\
  map forwardsTo (svc_Ports (builder.BuildDatabaseMasterService ms)) = containerPorts master.
Proof.
  unfold builder.BuildDatabaseMasterStatefulSet in Hmaster.
  destruct (builder.buildDatabaseConfig ms); [|discriminate].
  cbn [res_bind] in Hmaster. injection Hmaster as <-. repeat split.
Qed.

Lemma replica_wiring :
  svc_Selector (builder.BuildDatabaseReadService ms)
    = pt_Labels (ss_Template (sts_Spec replica)) /\
  ss_Selector (sts_Spec replica) = pt_Labels (ss_Template (sts_Spec replica)) /\
  map forwardsTo (svc_Ports (builder.BuildDatabaseReadService ms)) = containerPorts replica /\
  ss_ServiceName (sts_Spec replica) = Name (Meta ms) +:+ "-db-replica".
Proof.
  unfold builder.BuildDatabaseReplicaStatefulSet in Hreplica.
  destruct (builder.buildDatabaseConfig ms) as [config|]; [|discriminate].
  cbn [res_bind] in Hreplica. injection Hreplica as <-.
  split; [reflexivity|]. split; [reflexivity|]. split; [|reflexivity].
  unfold containerPorts, builder.buildReplicaSetupContainer.
  cbn [ps_Containers pt_Spec ss_Template sts_Spec].
  destruct (negb (builder.replicationEnabled config)); reflexivity.
Qed.
End Wiring.

(** X7: how the builders wire services to pods. In each tier the Service
    selects exactly the labels of the tier's pod template, which are also the
    StatefulSet's selector, and forwards to the ports the pod's containers
    declare (the application Service always to port 80, whatever [Spec.Port]
    is). The application and master StatefulSets name the Service built for
    them as their governing service, and the master Service is headless. The
    replica StatefulSet names [<name>-db-replica], which none of the three
    service builders gives. *)
Theorem services_select_pods `{QuantityParser}
    (ms : MusicService) (app master replica : StatefulSet) :
  builder.BuildAppStatefulSet ms = Ok app ->
  builder.BuildDatabaseMasterStatefulSet ms = Ok master ->
  builder.BuildDatabaseReplicaStatefulSet ms = Ok replica ->
  let appSvc := builder.BuildAppService ms in
  let masterSvc := builder.BuildDatabaseMasterService ms in
  let readSvc := builder.BuildDatabaseReadService ms in
  (svc_Selector appSvc = pt_Labels (ss_Template (sts_Spec app)) /\
   ss_Selector (sts_Spec app) = pt_Labels (ss_Template (sts_Spec app)) /\
   ss_ServiceName (sts_Spec app) = Name (svc_Meta appSvc) /\
   map forwardsTo (svc_Ports appSvc) = containerPorts app /\
   containerPorts app = [80]) /\
  (svc_Selector masterSvc = pt_Labels (ss_Template (sts_Spec master)) /\
   ss_Selector (sts_Spec master) = pt_Labels (ss_Template (sts_Spec master)) /\
   ss_ServiceName (sts_Spec master) = Name (svc_Meta masterSvc) /\
   svc_ClusterIP masterSvc = "None" /\
   map forwardsTo (svc_Ports masterSvc) = containerPorts master) /\
  (svc_Selector readSvc = pt_Labels (ss_Template (sts_Spec replica)) /\
   ss_Selector (sts_Spec replica) = pt_Labels (ss_Template (sts_Spec replica)) /\
   map forwardsTo (svc_Ports readSvc) = containerPorts replica /\
   ~ List.In (ss_ServiceName (sts_Spec replica))
       (map (fun svc => Name (svc_Meta svc)) [appSvc; masterSvc; readSvc])).
Proof.
  intros Happ Hmaster Hreplica appSvc masterSvc readSvc.
  destruct (app_wiring ms app Happ) as (Ha1 & Ha2 & Ha3 & Ha4).
  destruct (master_wiring ms master Hmaster) as (Hm1 & Hm2 & Hm3 & Hm4 & Hm5).
  destruct (replica_wiring ms replica Hreplica) as (Hr1 & Hr2 & Hr3 & Hr4).
  split; [|split].
  - repeat split; try assumption. rewrite <- Ha4. reflexivity.
  - repeat split; assumption.
  - repeat split; try assumption. rewrite Hr4.
    cbn [map svc_Meta Name objectMeta appSvc masterSvc readSvc builder.BuildAppService
         builder.BuildDatabaseMasterService builder.BuildDatabaseReadService List.In].
    intros [Heq|[Heq|[Heq|[]]]].
    + rewrite <- (append_nil_r (Name (Meta ms))) in Heq at 1.
      apply append_inj_l in Heq. discriminate.
    + apply append_inj_l in Heq. discriminate.
    + apply append_inj_l in Heq. discriminate.
Qed.

(** X8: every object the builders give belongs to the parent: it is in the
    parent's namespace, carries the labels [app = <parent name>] and
    [app.kubernetes.io/managed-by = music-operator], and has one owner
    reference, the controller reference to the parent (kind MusicService, the
    parent's name and UID). *)
Theorem built_objects_owned `{QuantityParser} (ms : MusicService) :
  ownedBy ms (svc_Meta (builder.BuildAppService ms)) /\
  ownedBy ms (svc_Meta (builder.BuildDatabaseMasterService ms)) /\
  ownedBy ms (svc_Meta (builder.BuildDatabaseReadService ms)) /\
  (forall sts,
     builder.BuildAppStatefulSet ms = Ok sts \/
     builder.BuildDatabaseMasterStatefulSet ms = Ok sts \/
     builder.BuildDatabaseReplicaStatefulSet ms = Ok sts ->
     ownedBy ms (sts_Meta sts)) /\
  (forall hpa,
     builder.BuildAutoscaler ms = Ok hpa \/
     builder.BuildDatabaseReplicaAutoscaler ms = Ok hpa ->
     ownedBy ms (hpa_Meta hpa)).
Proof.
  assert (Howned : forall name component,
    ownedBy ms (objectMeta name (Namespace (Meta ms)) (builder.getLabels ms component)
                  [builder.NewControllerRef ms])).
  { intros name component. split; [reflexivity|]. split; [reflexivity|].
    split; [reflexivity|]. eexists. repeat split. }
  split; [apply Howned|]. split; [apply Howned|]. split; [apply Howned|]. split.
  - intros sts [Hb|[Hb|Hb]].
    + unfold builder.BuildAppStatefulSet in Hb.
      destruct (MustParse _); [|discriminate]. injection Hb as <-. apply Howned.
    + unfold builder.BuildDatabaseMasterStatefulSet in Hb.
      destruct (builder.buildDatabaseConfig ms); [|discriminate]. injection Hb as <-.
      apply Howned.
    + unfold builder.BuildDatabaseReplicaStatefulSet in Hb.
      destruct (builder.buildDatabaseConfig ms); [|discriminate]. injection Hb as <-.
      apply Howned.
  - intros hpa [Hb|Hb].
    + unfold builder.BuildAutoscaler in Hb.
      destruct (spec_Autoscaling (Spec ms)); [|discriminate]. injection Hb as <-. apply Howned.
    + unfold builder.BuildDatabaseReplicaAutoscaler in Hb.
      destruct (spec_Database (Spec ms)) as [db|]; [|discriminate].
      destruct (db_Autoscaling db); [|discriminate]. injection Hb as <-. apply Howned.
Qed.

Lemma buildDatabaseConfig_disabled `{QuantityParser}
    (ms : MusicService) (db : DatabaseSpec) (r : DatabaseReplicationSpec)
    (config : builder.databaseConfig) :
  spec_Database (Spec ms) = Some db ->
  db_Replication db = Some r ->
  rep_Enabled r = Some false ->
  builder.buildDatabaseConfig ms = Ok config ->
  builder.replicationEnabled config = false /\ builder.replicas config = db_Replicas db.
Proof.
  intros Hdb Hr He. unfold builder.buildDatabaseConfig. rewrite Hdb, Hr, He.
  destruct (MustParse "10Gi"); cbn [res_bind]; [|discriminate].
  destruct (db_Storage db) as [st|]; cbn [res_bind];
    [destruct (MustParse (st_Size st)); cbn [res_bind]; [|discriminate]|];
    intros Hc; injection Hc as <-; split; reflexivity.
Qed.

(** X9: with [Replication.Enabled] set to false the reconciler asks for no
    replication secret (no request at all, whatever the cluster holds), and
    the replica StatefulSet the builder gives has the database container
    only: no replication-setup container and no environment variable that
    reads a secret. The replica count is still the declared one. *)
Theorem replication_disabled `{QuantityParser}
    (ms : MusicService) (db : DatabaseSpec) (r : DatabaseReplicationSpec) :
  spec_Database (Spec ms) = Some db ->
  db_Replication db = Some r ->
  rep_Enabled r = Some false ->
  reconciler.replicationEnabled ms = false /\
  (forall w, reconciler.ensureReplicationSecret ms w = (Ok (None, None), w)) /\
  (forall sts,
     builder.BuildDatabaseReplicaStatefulSet ms = Ok sts ->
     map ct_Name (ps_Containers (pt_Spec (ss_Template (sts_Spec sts)))) = ["mariadb"] /\
     secretReferences sts = [] /\
     ss_Replicas (sts_Spec sts) = Some (db_Replicas db)).
Proof.
  intros Hdb Hr He.
  assert (Hoff : reconciler.replicationEnabled ms = false)
    by (unfold reconciler.replicationEnabled; now rewrite Hdb, Hr, He).
  split; [exact Hoff|]. split.
  - intros w. unfold reconciler.ensureReplicationSecret. now rewrite Hoff.
  - intros sts. unfold builder.BuildDatabaseReplicaStatefulSet.
    destruct (builder.buildDatabaseConfig ms) as [config|] eqn:Hc; [|discriminate].
    destruct (buildDatabaseConfig_disabled ms db r config Hdb Hr He Hc) as [Hrep Hn].
    cbn [res_bind]. intros Hs. injection Hs as <-.
    unfold secretReferences, builder.buildReplicaSetupContainer. rewrite Hrep, Hn.
    repeat split.
Qed.

(** * The database providers *)

(** X10: [RegisterProvider] followed by [GetProvider]. The type just
    registered answers with the provider registered; another type that has
    an entry answers as before; a type without an entry falls back to the
    entry of [mariadb], so registering under [mariadb] changes the answer for
    every unregistered type and registering under any other name changes
    none of them. *)
Theorem GetProvider_after_register (name dbType : string)
    (provider : option database.Provider) (registry : gmap string (option database.Provider)) :
  let registry' := database.RegisterProvider name provider registry in
  database.GetProvider registry' name = provider /\
  (dbType <> name -> is_Some (registry !! dbType) ->
   database.GetProvider registry' dbType = database.GetProvider registry dbType) /\
  (dbType <> name -> registry !! dbType = None ->
   database.GetProvider registry' dbType =
     if bool_decide (name = "mariadb") then provider
     else database.GetProvider registry dbType).
Proof.
  unfold database.GetProvider, database.RegisterProvider. cbv zeta.
  split; [now rewrite lookup_insert_eq|].
  split.
  - intros Hne [p Hp]. rewrite lookup_insert_ne by congruence. now rewrite Hp.
  - intros Hne Hnone. rewrite lookup_insert_ne by congruence. rewrite Hnone.
    case_bool_decide as Hm.
    + subst name. now rewrite lookup_insert_eq.
    + rewrite lookup_insert_ne by congruence. reflexivity.
Qed.

Lemma registered_mariadb (calls : list (string * option database.Provider)) :
  Forall (fun call => is_Some (snd call)) calls ->
  forall dbType p, registered calls !! dbType = Some p -> is_Some p.
Proof.
  unfold registered. induction calls as [|[name provider] calls IH] using rev_ind.
  - intros _ dbType p. cbn [foldl]. unfold database.providers. intros Hp.
    repeat (apply lookup_insert_Some in Hp as [[_ <-]|[_ Hp]]; [eexists; reflexivity|]).
    apply lookup_singleton_Some in Hp as [_ <-]. eexists; reflexivity.
  - intros Hall dbType p. apply Forall_app in Hall as [Hall Hlast].
    rewrite foldl_app. cbn [foldl fst snd]. unfold database.RegisterProvider.
    intros Hp. apply lookup_insert_Some in Hp as [[_ <-]|[_ Hp]].
    + now inversion Hlast.
    + exact (IH Hall dbType p Hp).
Qed.

Lemma registered_has_mariadb (calls : list (string * option database.Provider)) :
  is_Some (registered calls !! "mariadb").
Proof.
  unfold registered. induction calls as [|[name provider] calls IH] using rev_ind.
  - eexists. reflexivity.
  - rewrite foldl_app. cbn [foldl fst snd]. unfold database.RegisterProvider.
    apply lookup_insert_is_Some'. now right.
Qed.

(** X11: whatever is registered, as long as no nil provider is, [GetProvider]
    never returns nil: entries are only added or replaced, so the [mariadb]
    entry the fallback reads is always there. *)
Theorem GetProvider_never_nil (calls : list (string * option database.Provider))
    (dbType : string) :
  Forall (fun call => is_Some (snd call)) calls ->
  is_Some (database.GetProvider (registered calls) dbType).
Proof.
  intros Hall. unfold database.GetProvider.
  destruct (registered calls !! dbType) as [p|] eqn:Hp.
  - exact (registered_mariadb calls Hall dbType p Hp).
  - destruct (registered_has_mariadb calls) as [p Hm]. rewrite Hm.
    exact (registered_mariadb calls Hall "mariadb" p Hm).
Qed.

(** * Requests that go through *)

Lemma Get_lookup {A} (R : Resource A) (ns name : string) (w : World) :
  faults w VGet (kind R) name = None ->
  client.Get R ns name w =
    (Ok match select R w !! (ns, name) with
        | Some o => inl o
        | None => inr (notFound (kind R) name)
        end, w).
Proof.
  intros Hf. unfold client.Get. rewrite Hf. now destruct (select R w !! (ns, name)).
Qed.

Lemma traceFree_Services : traceFree Services.
Proof. intros t w. reflexivity. Qed.
Lemma traceFree_StatefulSets : traceFree StatefulSets.
Proof. intros t w. reflexivity. Qed.
Lemma traceFree_HPAs : traceFree HPAs.
Proof. intros t w. reflexivity. Qed.
Lemma traceFree_PVCs : traceFree PVCs.
Proof. intros t w. reflexivity. Qed.
Lemma traceFree_Secrets : traceFree Secrets.
Proof. intros t w. reflexivity. Qed.
Lemma traceFree_MusicServices : traceFree MusicServices.
Proof. intros t w. reflexivity. Qed.
Lemma tidy_MusicServices : tidy MusicServices.
Proof. intros m w. repeat split. Qed.

#[local] Hint Resolve traceFree_Services traceFree_StatefulSets traceFree_HPAs traceFree_PVCs
  traceFree_Secrets traceFree_MusicServices tidy_MusicServices : cluster.

Section Requests.
Context {A : Type} (R : Resource A).
Hypothesis Htidy : tidy R.
Hypothesis Hfree : traceFree R.

Lemma Create_fresh (o : A) (w : World) :
  faults w VCreate (kind R) (Name (meta R o)) = None ->
  select R w !! keyOf R o = None ->
  exists w',
    client.Create R o w = (Ok None, w') /\
    trace w' = (trace w ++ [EvCreate (inject R o)])%list /\
    faults w' = faults w /\
    select R w' = <[keyOf R o := o]> (select R w).
Proof.
  intros Hf Habsent. unfold client.Create, client.store, m_bind, emit.
  cbn [faults withTrace]. rewrite Hf, Hfree, Habsent.
  eexists. split; [reflexivity|].
  destruct (Htidy (<[keyOf R o := o]> (select R w))
              (withTrace (trace w ++ [EvCreate (inject R o)]) w)) as (Ht & Hfa & Hs).
  rewrite Ht, Hfa, Hs. repeat split.
Qed.

Lemma Update_stored (o : A) (w : World) :
  faults w VUpdate (kind R) (Name (meta R o)) = None ->
  is_Some (select R w !! keyOf R o) ->
  exists w',
    client.Update R o w = (Ok None, w') /\
    trace w' = (trace w ++ [EvUpdate (inject R o)])%list /\
    faults w' = faults w /\
    select R w' = <[keyOf R o := o]> (select R w).
Proof.
  intros Hf [old Hold]. unfold client.Update, client.store, m_bind, emit.
  cbn [faults withTrace]. rewrite Hf, Hfree, Hold.
  eexists. split; [reflexivity|].
  destruct (Htidy (<[keyOf R o := o]> (select R w))
              (withTrace (trace w ++ [EvUpdate (inject R o)]) w)) as (Ht & Hfa & Hs).
  rewrite Ht, Hfa, Hs. repeat split.
Qed.

Lemma Delete_stored (o : A) (w : World) :
  faults w VDelete (kind R) (Name (meta R o)) = None ->
  is_Some (select R w !! keyOf R o) ->
  exists w',
    client.Delete R o w = (Ok None, w') /\
    trace w' =
      (trace w ++ [EvDelete (kind R) (Namespace (meta R o)) (Name (meta R o))])%list /\
    faults w' = faults w /\
    select R w' = delete (keyOf R o) (select R w).
Proof.
  intros Hf [old Hold]. unfold client.Delete, m_bind, emit.
  cbn [faults withTrace]. rewrite Hf, Hfree, Hold.
  eexists. split; [reflexivity|].
  destruct (Htidy (delete (keyOf R o) (select R w))
              (withTrace (trace w ++ [EvDelete (kind R) (Namespace (meta R o))
                                        (Name (meta R o))]) w)) as (Ht & Hfa & Hs).
  rewrite Ht, Hfa, Hs. repeat split.
Qed.
End Requests.

(** * The application reconcilers, pass after pass *)

(** X12: [ReconcileService] only ever creates. A Service found under the
    parent's name is left as it is, whatever its ports and selector (a changed
    [Spec.Port] is never applied to it); when none is found the Service the
    builder gives is created, and once it is stored the next pass does
    nothing. *)
Theorem ReconcileService_creates_only (ms : MusicService) (w : World) :
  faults w VGet KService (Name (Meta ms)) = None ->
  match services w !! (Namespace (Meta ms), Name (Meta ms)) with
  | Some _ => reconciler.ReconcileService ms w = (Ok None, w)
  | None =>
      exists e w',
        reconciler.ReconcileService ms w = (Ok e, w') /\
        trace w' = (trace w ++ [EvCreate (OService (builder.BuildAppService ms))])%list /\
        (faults w VCreate KService (Name (Meta ms)) = None ->
         e = None /\
         services w' !! (Namespace (Meta ms), Name (Meta ms))
           = Some (builder.BuildAppService ms) /\
         reconciler.ReconcileService ms w' = (Ok None, w'))
  end.
Proof.
  intros Hget. unfold reconciler.ReconcileService.
  rewrite (m_bind_ok _ _ _ _ _ (Get_lookup Services _ _ w Hget)). cbn [select Services].
  destruct (services w !! (Namespace (Meta ms), Name (Meta ms))) as [svc|] eqn:Hsvc;
    [reflexivity|].
  cbn [IsNotFound notFound].
  destruct (faults w VCreate KService (Name (Meta ms))) as [err|] eqn:Hcreate.
  - destruct (Create_run Services (builder.BuildAppService ms) w tidy_Services)
      as (e & w' & Hrun & Htrace & _).
    exists e, w'. split; [exact Hrun|]. split; [exact Htrace|]. discriminate.
  - destruct (Create_fresh Services tidy_Services traceFree_Services
                (builder.BuildAppService ms) w Hcreate Hsvc)
      as (w' & Hrun & Htrace & Hfaults & Hstored).
    exists None, w'. split; [exact Hrun|]. split; [exact Htrace|]. intros _.
    split; [reflexivity|].
    assert (Hnow : services w' !! (Namespace (Meta ms), Name (Meta ms))
                   = Some (builder.BuildAppService ms)).
    { change (services w') with (select Services w'). rewrite Hstored.
      apply lookup_insert_eq. }
    split; [exact Hnow|].
    assert (Hget' : faults w' VGet (kind Services) (Name (Meta ms)) = None)
      by (rewrite Hfaults; exact Hget).
    rewrite (m_bind_ok _ _ _ _ _ (Get_lookup Services _ _ w' Hget')).
    cbn [select Services]. now rewrite Hnow.
Qed.

Lemma autoscalerNeedsUpdate_written (ms : MusicService)
    (current desired : HorizontalPodAutoscaler) :
  builder.BuildAutoscaler ms = Ok desired ->
  hpa_Spec current = hpa_Spec desired ->
  reconciler.autoscalerNeedsUpdate current desired = false.
Proof.
  unfold builder.BuildAutoscaler. destruct (spec_Autoscaling (Spec ms)) as [a|]; [|discriminate].
  intros Hd Hspec. injection Hd as <-. unfold reconciler.autoscalerNeedsUpdate.
  rewrite Hspec. cbn [hpa_Spec hs_MaxReplicas hs_MinReplicas hs_Metrics].
  rewrite !Z.eqb_refl, Nat.eqb_refl. cbn [negb].
  now apply metricsDiffer_false; [|apply autoscalerMetrics_resource|].
Qed.

(** X13: the application autoscaler follows the spec and then stays put. On
    a cluster that refuses no autoscaler request, one pass of
    [ReconcileAutoscaler] issues at most one write and leaves no autoscaler
    under [<name>-autoscaler] when [Spec.Autoscaling] is unset (an existing one
    is deleted), and one that needs no update when it is set (a missing one is
    created, a differing one updated); a second pass right after issues no
    write at all. *)
Theorem ReconcileAutoscaler_converges (ms : MusicService) (w : World) :
  faultFree KHPA w ->
  wellKeyed HPAs w ->
  let key := (Namespace (Meta ms), Name (Meta ms) +:+ "-autoscaler") in
  exists w',
    reconciler.ReconcileAutoscaler ms w = (Ok None, w') /\
    (trace w' = trace w \/ exists write, trace w' = (trace w ++ [write])%list) /\
    match spec_Autoscaling (Spec ms) with
    | None => hpas w' !! key = None
    | Some _ =>
        exists hpa desired,
          hpas w' !! key = Some hpa /\
          builder.BuildAutoscaler ms = Ok desired /\
          reconciler.autoscalerNeedsUpdate hpa desired = false
    end /\
    reconciler.ReconcileAutoscaler ms w' = (Ok None, w').
Proof.
  intros Hfaults Hkeyed key.
  assert (Hget : forall w0, faults w0 = faults w ->
            client.Get HPAs (Namespace (Meta ms)) (Name (Meta ms) +:+ "-autoscaler") w0 =
              (Ok match hpas w0 !! key with
                  | Some o => inl o
                  | None => inr (notFound KHPA (Name (Meta ms) +:+ "-autoscaler"))
                  end, w0)).
  { intros w0 Hsame. apply (Get_lookup HPAs). rewrite Hsame. apply Hfaults. }
  unfold reconciler.ReconcileAutoscaler.
  destruct (spec_Autoscaling (Spec ms)) as [a|] eqn:Hspec.
  - assert (Hbuilt : exists desired, builder.BuildAutoscaler ms = Ok desired /\
                       keyOf HPAs desired = key).
    { unfold builder.BuildAutoscaler. rewrite Hspec. eexists. split; reflexivity. }
    destruct Hbuilt as (desired & Hbuilt & Hdkey). rewrite Hbuilt.
    rewrite (m_bind_ok _ _ _ _ _ (Hget w eq_refl)).
    destruct (hpas w !! key) as [hpa|] eqn:Hstored.
    + rewrite m_bind_liftRes_ok.
      destruct (reconciler.autoscalerNeedsUpdate hpa desired) eqn:Hneeds.
      * assert (Hkey : keyOf HPAs (withHPASpec hpa (hpa_Spec desired)) = key)
          by exact (Hkeyed key hpa Hstored).
        destruct (Update_stored HPAs tidy_HPAs traceFree_HPAs
                    (withHPASpec hpa (hpa_Spec desired)) w (Hfaults _ _))
          as (w' & Hrun & Htrace & Hsame & Hsel).
        { rewrite Hkey. cbn [select HPAs]. rewrite Hstored. eauto. }
        assert (Hnow : hpas w' !! key = Some (withHPASpec hpa (hpa_Spec desired))).
        { change (hpas w') with (select HPAs w'). rewrite Hsel, Hkey.
          apply lookup_insert_eq. }
        assert (Hdone : reconciler.autoscalerNeedsUpdate
                          (withHPASpec hpa (hpa_Spec desired)) desired = false)
          by now apply (autoscalerNeedsUpdate_written ms).
        exists w'. split; [exact Hrun|]. split; [right; eauto|].
        split; [eauto|].
        rewrite (m_bind_ok _ _ _ _ _ (Hget w' Hsame)), Hnow, m_bind_liftRes_ok.
        now rewrite Hdone.
      * exists w. split; [reflexivity|]. split; [now left|]. split; [eauto|].
        rewrite (m_bind_ok _ _ _ _ _ (Hget w eq_refl)), Hstored, m_bind_liftRes_ok.
        now rewrite Hneeds.
    + cbn [IsNotFound notFound]. rewrite m_bind_liftRes_ok.
      destruct (Create_fresh HPAs tidy_HPAs traceFree_HPAs desired w (Hfaults _ _))
        as (w' & Hrun & Htrace & Hsame & Hsel).
      { rewrite Hdkey. exact Hstored. }
      assert (Hnow : hpas w' !! key = Some desired).
      { change (hpas w') with (select HPAs w'). rewrite Hsel, Hdkey.
        apply lookup_insert_eq. }
      assert (Hdone : reconciler.autoscalerNeedsUpdate desired desired = false)
        by now apply (autoscalerNeedsUpdate_written ms).
      exists w'. split; [exact Hrun|]. split; [right; eauto|]. split; [eauto|].
      rewrite (m_bind_ok _ _ _ _ _ (Hget w' Hsame)), Hnow, m_bind_liftRes_ok.
      now rewrite Hdone.
  - unfold reconciler.deleteAutoscalerIfExists.
    rewrite (m_bind_ok _ _ _ _ _ (Hget w eq_refl)).
    destruct (hpas w !! key) as [hpa|] eqn:Hstored.
    + assert (Hkey : keyOf HPAs hpa = key) by exact (Hkeyed key hpa Hstored).
      destruct (Delete_stored HPAs tidy_HPAs traceFree_HPAs hpa w (Hfaults _ _))
        as (w' & Hrun & Htrace & Hsame & Hsel).
      { rewrite Hkey. cbn [select HPAs]. rewrite Hstored. eauto. }
      assert (Hnow : hpas w' !! key = None).
      { change (hpas w') with (select HPAs w'). rewrite Hsel, Hkey.
        apply lookup_delete_eq. }
      exists w'. split; [exact Hrun|]. split; [right; eauto|]. split; [exact Hnow|].
      rewrite (m_bind_ok _ _ _ _ _ (Hget w' Hsame)), Hnow. reflexivity.
    + exists w. split; [reflexivity|]. split; [now left|]. split; [exact Hstored|].
      rewrite (m_bind_ok _ _ _ _ _ (Hget w eq_refl)), Hstored. reflexivity.
Qed.

Lemma Cmp_refl (a : Z) : Cmp a a = 0.
Proof. unfold Cmp. now rewrite Z.compare_refl. Qed.

Lemma storageSizeChanged_same (current desired : StatefulSet) :
  sts_Spec current = sts_Spec desired ->
  reconciler.storageSizeChanged current desired = false.
Proof.
  intros Hspec. unfold reconciler.storageSizeChanged, reconciler.storageRequestFromStatefulSet.
  rewrite Hspec. destruct (ss_VolumeClaimTemplates (sts_Spec desired)) as [|t ts]; [reflexivity|].
  destruct (pvc_Requests t !! ResourceStorage); [|reflexivity].
  now rewrite Cmp_refl.
Qed.

Lemma statefulSetNeedsUpdate_same {L : Layout} (current desired : StatefulSet) :
  (forall A (a : A), sameLayout a a = true) ->
  sts_Spec current = sts_Spec desired ->
  is_Some (ss_Replicas (sts_Spec desired)) ->
  reconciler.statefulSetNeedsUpdate current desired = Ok false.
Proof.
  intros Halike Hspec [n Hn]. unfold reconciler.statefulSetNeedsUpdate.
  rewrite Hspec, Hn. cbn [deref res_bind]. rewrite Z.eqb_refl. cbn [negb].
  rewrite !DeepEqual_alike by apply Halike. cbn [negb].
  rewrite Nat.eqb_refl. cbn [negb]. f_equal.
  now apply containersDiffer_alike.
Qed.

Section StatefulSetPass.
Context {L : Layout}.
Variables (namespace name claimName : string) (storage : StorageSpec)
  (desired : StatefulSet).

Abbreviation pass := (statefulSetPass namespace name claimName storage desired).

Hypothesis Hkey : keyOf StatefulSets desired = (namespace, name).
Hypothesis Hreplicas : is_Some (ss_Replicas (sts_Spec desired)).
Hypothesis Halike : forall A (a : A), sameLayout a a = true.

Lemma pass_settled (w : World) (sts : StatefulSet) :
  faultFree KStatefulSet w ->
  statefulsets w !! (namespace, name) = Some sts ->
  reconciler.storageSizeChanged sts desired = false ->
  reconciler.statefulSetNeedsUpdate sts desired = Ok false ->
  pass w = (Ok None, w).
Proof.
  intros Hfaults Hstored Hsize Hneeds. unfold statefulSetPass.
  rewrite (m_bind_ok _ _ _ _ _ (Get_lookup StatefulSets _ _ w (Hfaults _ _))).
  cbn [select StatefulSets]. rewrite Hstored, m_bind_liftRes_ok.
  unfold reconciler.applyStatefulSet. rewrite Hsize, Hneeds.
  now rewrite m_bind_liftRes_ok.
Qed.

Lemma pass_converges (w : World) :
  faultFree KStatefulSet w ->
  wellKeyed StatefulSets w ->
  (forall sts, statefulsets w !! (namespace, name) = Some sts ->
     reconciler.storageSizeChanged sts desired = false /\
     is_Some (ss_Replicas (sts_Spec sts))) ->
  exists w' sts',
    pass w = (Ok None, w') /\
    (trace w' = trace w \/ exists write, trace w' = (trace w ++ [write])%list) /\
    statefulsets w' !! (namespace, name) = Some sts' /\
    reconciler.statefulSetNeedsUpdate sts' desired = Ok false /\
    pass w' = (Ok None, w').
Proof.
  intros Hfaults Hkeyed Hlive.
  destruct (statefulsets w !! (namespace, name)) as [sts|] eqn:Hstored.
  - destruct (Hlive sts eq_refl) as [Hsize [n Hn]]. clear Hlive.
    destruct Hreplicas as [m Hm].
    destruct (reconciler.statefulSetNeedsUpdate sts desired) as [[|]|msg] eqn:Hneeds.
    + assert (Hk : keyOf StatefulSets (withSpec sts (sts_Spec desired)) = (namespace, name))
        by exact (Hkeyed _ sts Hstored).
      destruct (Update_stored StatefulSets tidy_StatefulSets traceFree_StatefulSets
                  (withSpec sts (sts_Spec desired)) w (Hfaults _ _))
        as (w' & Hrun & Htrace & Hsame & Hsel).
      { rewrite Hk. cbn [select StatefulSets]. rewrite Hstored. eauto. }
      assert (Hnow : statefulsets w' !! (namespace, name)
                     = Some (withSpec sts (sts_Spec desired))).
      { change (statefulsets w') with (select StatefulSets w'). rewrite Hsel, Hk.
        apply lookup_insert_eq. }
      exists w', (withSpec sts (sts_Spec desired)).
      split.
      { unfold statefulSetPass.
        rewrite (m_bind_ok _ _ _ _ _ (Get_lookup StatefulSets _ _ w (Hfaults _ _))).
        cbn [select StatefulSets]. rewrite Hstored, m_bind_liftRes_ok.
        unfold reconciler.applyStatefulSet. rewrite Hsize, Hneeds.
        rewrite m_bind_liftRes_ok. exact Hrun. }
      split; [right; eauto|]. split; [exact Hnow|].
      split; [apply statefulSetNeedsUpdate_same; [exact Halike|reflexivity|eauto]|].
      apply (pass_settled w' (withSpec sts (sts_Spec desired))).
      * intros verb nm. rewrite Hsame. apply Hfaults.
      * exact Hnow.
      * now apply storageSizeChanged_same.
      * apply statefulSetNeedsUpdate_same; [exact Halike|reflexivity|eauto].
    + exists w, sts. split; [now apply (pass_settled w sts)|].
      split; [now left|]. split; [exact Hstored|]. split; [exact Hneeds|].
      now apply (pass_settled w sts).
    + exfalso. unfold reconciler.statefulSetNeedsUpdate in Hneeds.
      rewrite Hn, Hm in Hneeds. cbn [deref res_bind] in Hneeds.
      repeat (destruct (negb _) in Hneeds; [discriminate|]). discriminate.
  - destruct (Create_fresh StatefulSets tidy_StatefulSets traceFree_StatefulSets
                desired w (Hfaults _ _)) as (w' & Hrun & Htrace & Hsame & Hsel).
    { rewrite Hkey. exact Hstored. }
    assert (Hnow : statefulsets w' !! (namespace, name) = Some desired).
    { change (statefulsets w') with (select StatefulSets w'). rewrite Hsel, Hkey.
      apply lookup_insert_eq. }
    exists w', desired. split.
    { unfold statefulSetPass.
      rewrite (m_bind_ok _ _ _ _ _ (Get_lookup StatefulSets _ _ w (Hfaults _ _))).
      cbn [select StatefulSets]. rewrite Hstored. cbn [IsNotFound notFound].
      rewrite m_bind_liftRes_ok. exact Hrun. }
    split; [right; eauto|]. split; [exact Hnow|].
    split; [now apply statefulSetNeedsUpdate_same|].
    apply (pass_settled w' desired).
    + intros verb nm. rewrite Hsame. apply Hfaults.
    + exact Hnow.
    + now apply storageSizeChanged_same.
    + now apply statefulSetNeedsUpdate_same.
Qed.
(** A stored StatefulSet that has the built spec and still needs an update
    is written back as it is: the next pass finds the cluster as this one
    did. *)
Lemma pass_rewrites (w : World) (sts : StatefulSet) :
  faultFree KStatefulSet w ->
  wellKeyed StatefulSets w ->
  statefulsets w !! (namespace, name) = Some sts ->
  sts_Spec sts = sts_Spec desired ->
  reconciler.statefulSetNeedsUpdate sts desired = Ok true ->
  exists w',
    pass w = (Ok None, w') /\
    trace w' = (trace w ++ [EvUpdate (OStatefulSet sts)])%list /\
    statefulsets w' = statefulsets w /\
    faults w' = faults w.
Proof.
  intros Hfaults Hkeyed Hstored Hspec Hneeds.
  assert (Hback : withSpec sts (sts_Spec desired) = sts)
    by (destruct sts; cbn in *; now subst).
  assert (Hk : keyOf StatefulSets sts = (namespace, name)) by exact (Hkeyed _ sts Hstored).
  destruct (Update_stored StatefulSets tidy_StatefulSets traceFree_StatefulSets sts w
              (Hfaults _ _)) as (w' & Hrun & Htrace & Hsame & Hsel).
  { rewrite Hk. cbn [select StatefulSets]. rewrite Hstored. eauto. }
  exists w'. split.
  - unfold statefulSetPass.
    rewrite (m_bind_ok _ _ _ _ _ (Get_lookup StatefulSets _ _ w (Hfaults _ _))).
    cbn [select StatefulSets]. rewrite Hstored, m_bind_liftRes_ok.
    unfold reconciler.applyStatefulSet.
    rewrite (storageSizeChanged_same sts desired Hspec), Hneeds, m_bind_liftRes_ok, Hback.
    exact Hrun.
  - split; [exact Htrace|]. split; [|exact Hsame].
    change (statefulsets w') with (select StatefulSets w'). rewrite Hsel, Hk.
    cbn [select StatefulSets]. now apply insert_id.
Qed.
End StatefulSetPass.


(** * The Recreate policy *)

Lemma Delete_claim (pvc : PersistentVolumeClaim) (w : World) :
  exists e w1,
    client.Delete PVCs pvc w = (Ok e, w1) /\
    trace w1 = (trace w ++ [deleteEvent pvc])%list /\
    faults w1 = faults w /\
    statefulsets w1 = statefulsets w /\
    (forall key, pvcs w1 !! key = None \/ pvcs w1 !! key = pvcs w !! key) /\
    (forall key, key <> keyOf PVCs pvc -> pvcs w1 !! key = pvcs w !! key) /\
    (e = None -> pvcs w1 !! keyOf PVCs pvc = None) /\
    (faults w VDelete KPVC (Name (pvc_Meta pvc)) = None ->
     is_Some (pvcs w !! keyOf PVCs pvc) -> e = None).
Proof.
  unfold client.Delete, m_bind, emit. cbn [faults withTrace kind PVCs meta select pvcs].
  destruct (faults w VDelete KPVC (Name (pvc_Meta pvc))) as [err|].
  - eexists _, _. split; [reflexivity|]. repeat split; auto; discriminate.
  - destruct (pvcs w !! keyOf PVCs pvc) eqn:Hs.
    + eexists _, _. split; [reflexivity|]. cbn [replace PVCs pvcs trace faults statefulsets].
      repeat split; auto.
      * intros key. destruct (decide (key = keyOf PVCs pvc)) as [->|Hne].
        -- left. apply lookup_delete_eq.
        -- right. now apply lookup_delete_ne.
      * intros key Hne. now apply lookup_delete_ne.
      * intros _. apply lookup_delete_eq.
    + eexists _, _. split; [reflexivity|]. repeat split; auto; try discriminate.
      intros _ [x Hx]. discriminate.
Qed.

Lemma deleteEach_deletes (claims : list PersistentVolumeClaim) (w : World) :
  exists e w' deleted rest,
    reconciler.deleteEach claims w = (Ok e, w') /\
    claims = (deleted ++ rest)%list /\
    trace w' = (trace w ++ map deleteEvent deleted)%list /\
    statefulsets w' = statefulsets w /\
    (forall key, pvcs w' !! key = None \/ pvcs w' !! key = pvcs w !! key) /\
    (faultFree KPVC w ->
     List.NoDup (map (keyOf PVCs) claims) ->
     (forall pvc, List.In pvc claims -> is_Some (pvcs w !! keyOf PVCs pvc)) ->
     e = None /\ deleted = claims /\
     forall pvc, List.In pvc claims -> pvcs w' !! keyOf PVCs pvc = None).
Proof.
  revert w. induction claims as [|pvc claims IH]; intros w; cbn [reconciler.deleteEach].
  - exists None, w, [], []. cbn. rewrite List.app_nil_r. repeat split; auto. contradiction.
  - destruct (Delete_claim pvc w) as (e1 & w1 & Hdel & Ht1 & Hf1 & Hs1 & Hless1 & Hframe1 & Hgone1 & Hok1).
    rewrite (m_bind_ok _ _ _ _ _ Hdel).
    destruct e1 as [err|].
    + exists (Some err), w1, [pvc], claims. split; [reflexivity|]. split; [reflexivity|].
      split; [exact Ht1|]. split; [exact Hs1|]. split; [exact Hless1|].
      intros Hfree _ Hpresent.
      discriminate (Hok1 (Hfree _ _) (Hpresent pvc (or_introl eq_refl))).
    + destruct (IH w1) as (e & w' & deleted & rest & Hrun & Hsplit & Htrace & Hsts & Hless & Hall).
      exists e, w', (pvc :: deleted), rest. split; [exact Hrun|].
      split; [cbn; now rewrite Hsplit|].
      split; [rewrite Htrace, Ht1; cbn [map]; now rewrite <- List.app_assoc|].
      split; [congruence|].
      assert (Hless' : forall key, pvcs w' !! key = None \/ pvcs w' !! key = pvcs w !! key).
      { intros key. destruct (Hless key) as [Hn|Heq]; [now left|].
        destruct (Hless1 key) as [Hn|Heq1]; [left|right]; congruence. }
      split; [exact Hless'|].
      intros Hfree Hnd Hpresent. cbn [map] in Hnd. apply List.NoDup_cons_iff in Hnd as [Hnotin Hnd'].
      destruct Hall as (-> & -> & Hgone).
      * intros verb name. rewrite Hf1. apply Hfree.
      * exact Hnd'.
      * intros p Hp. rewrite Hframe1; [apply Hpresent; now right|].
        intros Heq. apply Hnotin. rewrite <- Heq. now apply List.in_map.
      * split; [reflexivity|]. split; [reflexivity|].
        intros p [Heq|Hp]; [subst p|now apply Hgone].
        destruct (Hless (keyOf PVCs pvc)) as [Hn|Heq]; [exact Hn|].
        rewrite Heq. now apply Hgone1.
Qed.

Lemma filter_sublist {A} (f : A -> bool) (l : list A) : List.filter f l `sublist_of` l.
Proof.
  induction l as [|x l IH]; cbn; [constructor|].
  destruct (f x); now constructor.
Qed.

Lemma tierClaims_NoDup (claimName appName namespace : string) (w : World) :
  claimsWellKeyed w ->
  List.NoDup (map (keyOf PVCs) (tierClaims claimName appName namespace w)).
Proof.
  intros Hkeyed. unfold tierClaims. apply NoDup_ListNoDup.
  apply (sublist_NoDup _ (keyOf PVCs <$> (snd <$> map_to_list (pvcs w)))).
  - rewrite <- list_fmap_compose.
    rewrite (list_fmap_ext _ fst (map_to_list (pvcs w)));
      [apply NoDup_fst_map_to_list|].
    intros i [key pvc] Hi. cbn.
    apply list_elem_of_lookup_2, elem_of_map_to_list in Hi. now apply Hkeyed.
  - apply fmap_sublist. etransitivity; [apply filter_sublist|apply sublist_filter].
Qed.

Lemma Delete_statefulSet (sts : StatefulSet) (w : World) :
  exists e w1,
    client.Delete StatefulSets sts w = (Ok e, w1) /\
    trace w1 =
      (trace w ++ [EvDelete KStatefulSet (Namespace (sts_Meta sts)) (Name (sts_Meta sts))])%list /\
    faults w1 = faults w /\
    pvcs w1 = pvcs w /\
    (faults w VDelete KStatefulSet (Name (sts_Meta sts)) = None ->
     is_Some (statefulsets w !! keyOf StatefulSets sts) ->
     e = None /\ statefulsets w1 = delete (keyOf StatefulSets sts) (statefulsets w)).
Proof.
  unfold client.Delete, m_bind, emit.
  cbn [faults withTrace kind StatefulSets meta select statefulsets].
  destruct (faults w VDelete KStatefulSet (Name (sts_Meta sts))) as [err|].
  - eexists _, _. split; [reflexivity|]. do 3 (split; [reflexivity|]). discriminate.
  - destruct (statefulsets w !! keyOf StatefulSets sts) eqn:Hs.
    + eexists _, _. split; [reflexivity|]. do 3 (split; [reflexivity|]).
      intros _ _. split; reflexivity.
    + eexists _, _. split; [reflexivity|]. do 3 (split; [reflexivity|]).
      intros _ [x Hx]. discriminate.
Qed.

(** X15: the Recreate policy. When the declared size differs from the one in
    the application StatefulSet's claim template and the policy is Recreate,
    the pass of [ReconcileStatefulSet] only deletes: first the StatefulSet,
    then, one by one in the order listed, the claims of the namespace named
    [music-data-<name>-...], stopping at the first refusal. Nothing is created
    or updated in that pass. When no request is refused the StatefulSet and
    every one of these claims are gone from the cluster. *)
Theorem recreate_deletes_tier `{QuantityParser} {L : Layout}
    (ms : MusicService) (sts desired : StatefulSet) (w : World) :
  faults w VGet KStatefulSet (Name (Meta ms)) = None ->
  statefulsets w !! (Namespace (Meta ms), Name (Meta ms)) = Some sts ->
  builder.BuildAppStatefulSet ms = Ok desired ->
  reconciler.storageSizeChanged sts desired = true ->
  reconciler.storageUpdatePolicy (spec_Storage (Spec ms)) = StorageUpdatePolicyRecreate ->
  let claims := tierClaims "music-data" (Name (Meta ms)) (Namespace (sts_Meta sts)) w in
  exists e w' deleted rest,
    reconciler.ReconcileStatefulSet ms w = (Ok e, w') /\
    claims = (deleted ++ rest)%list /\
    trace w' =
      (trace w ++ EvDelete KStatefulSet (Namespace (sts_Meta sts)) (Name (sts_Meta sts))
         :: map deleteEvent deleted)%list /\
    (faultFree KStatefulSet w -> faultFree KPVC w ->
     wellKeyed StatefulSets w -> claimsWellKeyed w ->
     e = None /\ deleted = claims /\
     statefulsets w' !! (Namespace (Meta ms), Name (Meta ms)) = None /\
     forall pvc, List.In pvc claims -> pvcs w' !! keyOf PVCs pvc = None).
Proof.
  intros Hget Hstored Hbuilt Hchanged Hpolicy claims.
  rewrite (ReconcileStatefulSet_found ms sts desired w Hget Hstored Hbuilt).
  unfold reconciler.applyStatefulSet. rewrite Hchanged, Hpolicy, String.eqb_refl.
  unfold reconciler.recreateStatefulSetStorage.
  destruct (Delete_statefulSet sts w) as (e1 & w1 & Hdel & Ht1 & Hf1 & Hp1 & Hok1).
  rewrite (m_bind_ok _ _ _ _ _ Hdel).
  assert (Hclaims : tierClaims "music-data" (Name (Meta ms)) (Namespace (sts_Meta sts)) w1
                    = claims) by (unfold claims, tierClaims; now rewrite Hp1).
  destruct e1 as [err|].
  - exists (Some err), w1, [], claims. split; [reflexivity|]. split; [reflexivity|].
    split; [exact Ht1|].
    intros Hfree _ Hkeyed _. destruct Hok1 as [Hnone _]; [apply Hfree| |discriminate].
    rewrite (Hkeyed _ sts Hstored), Hstored. eauto.
  - unfold reconciler.deletePVCsByPrefix.
    destruct (reconciler_listPVCsByPrefix_run "music-data" (Name (Meta ms))
                (Namespace (sts_Meta sts)) w1) as [Hlist Hlisterr].
    destruct (faults w1 VList KPVC "") as [err|] eqn:Hfault.
    + rewrite (m_bind_ok _ _ _ _ _ (Hlisterr err eq_refl)).
      exists (Some err), w1, [], claims. split; [reflexivity|]. split; [reflexivity|].
      split; [exact Ht1|].
      intros _ Hfree _ _. rewrite Hf1, Hfree in Hfault. discriminate.
    + rewrite (m_bind_ok _ _ _ _ _ (Hlist eq_refl)), Hclaims.
      destruct (deleteEach_deletes claims w1)
        as (e & w' & deleted & rest & Hrun & Hsplit & Htrace & Hsts & _ & Hall).
      exists e, w', deleted, rest. split; [exact Hrun|]. split; [exact Hsplit|].
      split; [rewrite Htrace, Ht1, <- List.app_assoc; reflexivity|].
      intros Hfree Hfree' Hkeyed Hkeyed'.
      destruct Hok1 as [_ Hgone]; [apply Hfree| |].
      { rewrite (Hkeyed _ sts Hstored), Hstored. eauto. }
      destruct Hall as (-> & -> & Hclaimsgone).
      * intros verb name. rewrite Hf1. apply Hfree'.
      * now apply tierClaims_NoDup.
      * intros pvc Hin. rewrite Hp1. now apply (tierClaims_stored _ _ _ _ _ Hkeyed' Hin).
      * split; [reflexivity|]. split; [reflexivity|]. split; [|exact Hclaimsgone].
        rewrite Hsts, Hgone, (Hkeyed _ sts Hstored). apply lookup_delete_eq.
Qed.

(** * The database services and autoscaler *)

(** X16: the read Service of the database. With the master Service in place,
    [ReconcileServices] creates [<name>-db-read] only when replicas are
    declared and the lookup answers NotFound. Any other failure of that
    lookup is dropped: the function returns no error and writes nothing. An
    existing read Service is left as it is. *)
Theorem ReconcileServices_read_service (ms : MusicService) (db : DatabaseSpec) (w : World) :
  spec_Database (Spec ms) = Some db ->
  faults w VGet KService (Name (Meta ms) +:+ "-db-master") = None ->
  is_Some (services w !! (Namespace (Meta ms), Name (Meta ms) +:+ "-db-master")) ->
  let read := Name (Meta ms) +:+ "-db-read" in
  if db_Replicas db >? 0 then
    match faults w VGet KService read with
    | Some err =>
        if IsNotFound err then
          exists e w',
            reconciler.ReconcileServices ms w = (Ok e, w') /\
            trace w' =
              (trace w ++ [EvCreate (OService (builder.BuildDatabaseReadService ms))])%list
        else reconciler.ReconcileServices ms w = (Ok None, w)
    | None =>
        match services w !! (Namespace (Meta ms), read) with
        | Some _ => reconciler.ReconcileServices ms w = (Ok None, w)
        | None =>
            exists e w',
              reconciler.ReconcileServices ms w = (Ok e, w') /\
              trace w' =
                (trace w ++ [EvCreate (OService (builder.BuildDatabaseReadService ms))])%list
        end
    end
  else reconciler.ReconcileServices ms w = (Ok None, w).
Proof.
  intros Hdb Hget [master Hmaster] read. unfold reconciler.ReconcileServices.
  rewrite (m_bind_ok _ _ _ _ _ (Get_lookup Services _ _ w Hget)). cbn [select Services].
  rewrite Hmaster, Hdb. cbn [deref]. rewrite m_bind_liftRes_ok.
  destruct (db_Replicas db >? 0); [|reflexivity].
  destruct (faults w VGet KService read) as [err|] eqn:Hread.
  - assert (Hr : client.Get Services (Namespace (Meta ms)) read w = (Ok (inr err), w))
      by (unfold client.Get; cbn [kind Services]; now rewrite Hread).
    rewrite (m_bind_ok _ _ _ _ _ Hr).
    destruct (IsNotFound err); [|reflexivity].
    destruct (Create_run Services (builder.BuildDatabaseReadService ms) w tidy_Services)
      as (e & w' & Hrun & Htrace & _). eauto.
  - rewrite (m_bind_ok _ _ _ _ _ (Get_lookup Services _ _ w Hread)). cbn [select Services].
    destruct (services w !! (Namespace (Meta ms), read)); [reflexivity|].
    cbn [IsNotFound notFound].
    destruct (Create_run Services (builder.BuildDatabaseReadService ms) w tidy_Services)
      as (e & w' & Hrun & Htrace & _). eauto.
Qed.

(** X17: the database autoscaler is only ever created or updated. Whatever
    the cluster holds, [DatabaseReconciler.ReconcileAutoscaler] issues at most
    one request, a create or an update of an autoscaler, and never a delete;
    when the autoscaling section is removed or the replicas are set to zero it
    issues none, so an autoscaler created earlier stays. *)
Theorem ReconcileDatabaseAutoscaler_never_deletes {L : Layout}
    (ms : MusicService) (db : DatabaseSpec) (w : World) :
  spec_Database (Spec ms) = Some db ->
  (db_Autoscaling db = None \/ db_Replicas db = 0 ->
   reconciler.ReconcileDatabaseAutoscaler ms w = (Ok None, w)) /\
  exists e w',
    reconciler.ReconcileDatabaseAutoscaler ms w = (Ok e, w') /\
    (trace w' = trace w \/
     exists hpa,
       trace w' = (trace w ++ [EvCreate (OHPA hpa)])%list \/
       trace w' = (trace w ++ [EvUpdate (OHPA hpa)])%list).
Proof.
  intros Hdb. unfold reconciler.ReconcileDatabaseAutoscaler. rewrite Hdb. cbn [deref].
  rewrite m_bind_liftRes_ok. split.
  - intros [Ha|Hr].
    + now rewrite Ha.
    + rewrite Hr, Z.eqb_refl, orb_true_r. reflexivity.
  - destruct (db_Autoscaling db) as [a|] eqn:Ha; [|eexists _, _; split; [reflexivity|now left]].
    rewrite bool_decide_eq_false_2 by discriminate. cbn [orb].
    destruct (db_Replicas db =? 0); [eexists _, _; split; [reflexivity|now left]|].
    assert (Hbuilt : exists desired, builder.BuildDatabaseReplicaAutoscaler ms = Ok desired).
    { unfold builder.BuildDatabaseReplicaAutoscaler. rewrite Hdb, Ha. eexists. reflexivity. }
    destruct Hbuilt as (desired & Hbuilt). rewrite Hbuilt.
    destruct (Get_sameCluster HPAs (Namespace (Meta ms))
                (Name (Meta ms) +:+ "-db-replica-autoscaler") w) as [r Hr].
    rewrite (m_bind_ok _ _ _ _ _ Hr).
    destruct r as [hpa|err].
    + rewrite m_bind_liftRes_ok.
      destruct (negb (DeepEqual (hpa_Spec hpa) (hpa_Spec desired)));
        [|eexists _, _; split; [reflexivity|now left]].
      destruct (Update_run HPAs (withHPASpec hpa (hpa_Spec desired)) w tidy_HPAs)
        as (e & w' & Hrun & Htrace & _).
      exists e, w'. split; [exact Hrun|]. right.
      exists (withHPASpec hpa (hpa_Spec desired)). now right.
    + destruct (IsNotFound err); [|eexists _, _; split; [reflexivity|now left]].
      rewrite m_bind_liftRes_ok.
      destruct (Create_run HPAs desired w tidy_HPAs) as (e & w' & Hrun & Htrace & _).
      exists e, w'. split; [exact Hrun|]. right. exists desired. now left.
Qed.

(** * The status pass *)

(** X18: the phase for any replica count. [UpdateFromAppStatefulSet] copies
    the ready and desired counts and the generation into the status and sets
    the phase and the Available condition from the two counts alone: no ready
    replica is Pending (also when none is desired), fewer than desired is
    Progressing, anything else is Available; the status with these values is
    the one written. A StatefulSet without a replica count makes it panic
    before anything is written. *)
Theorem UpdateFromAppStatefulSet_phase `{QuantityParser}
    (ms : MusicService) (sts : StatefulSet) (w : World) :
  match ss_Replicas (sts_Spec sts) with
  | None => status.UpdateFromAppStatefulSet ms sts w = (Panicked builder.nilDereference, w)
  | Some desired =>
      let ready := sts_ReadyReplicas sts in
      exists ms' e w' available,
        status.UpdateFromAppStatefulSet ms sts w = (Ok (ms', e), w') /\
        trace w' = (trace w ++ [EvStatusUpdate ms'])%list /\
        (ReadyReplicas (Status ms'), DesiredReplicas (Status ms')) = (ready, desired) /\
        findCondition "Available" (Conditions (Status ms')) = Some available /\
        (Phase (Status ms'), c_Status available, c_Reason available) =
          if ready =? 0 then ("Pending", ConditionFalse, "PodsNotReady")
          else if ready <? desired then ("Progressing", ConditionFalse, "PodsProgressing")
          else ("Available", ConditionTrue, "PodsReady")
  end.
Proof.
  unfold status.UpdateFromAppStatefulSet.
  destruct (ss_Replicas (sts_Spec sts)) as [desired|]; [|reflexivity].
  cbv zeta. unfold liftRes at 1. unfold m_bind at 1. cbn [deref].
  destruct (sts_ReadyReplicas sts =? 0) eqn:E0;
    [|destruct (sts_ReadyReplicas sts <? desired) eqn:E3];
    rewrite (m_bind_ok _ _ _ _ _ (setStatusCondition_run _ _ _));
    match goal with |- context [m_bind (status.updateStorageWarnings ?m _ _ _ _ _) _ ?w0] =>
      destruct (UpdateFromAppStatefulSet_tail m sts w0)
        as (ms' & e & w' & Hrun & Htrace & Hphase & Hd & Hr & Hav) end;
    exists ms', e, w'; eexists; (split; [exact Hrun|]);
    rewrite Hav, Hphase, Hd, Hr; cbn [Status withStatus Conditions setConditions];
    rewrite applyCondition_find_type by reflexivity;
    (split; [exact Htrace|]); (split; [reflexivity|]); split; reflexivity.
Qed.

Lemma status_listPVCsByPrefix_tier (claimName appName ns : string) (w : World) :
  status.listPVCsByPrefix claimName appName ns w =
    (Ok match faults w VList KPVC "" with
        | Some err => inr err
        | None => inl (tierClaims claimName appName ns w)
        end, w).
Proof.
  unfold status.listPVCsByPrefix, m_bind, client.List. cbn [kind PVCs select].
  destruct (faults w VList KPVC ""); [reflexivity|].
  unfold m_ret, tierClaims, reconciler.claimPrefix.
  erewrite List.filter_ext; [reflexivity|]. intros pvc. apply hasPrefix_slice.
Qed.

(** X19: what [updateStorageWarnings] reports. It sets one condition of the
    given type and touches nothing in the cluster. The reason is
    ShrinkNotSupported when the declared size parses and is below the request
    of the StatefulSet's claim template; otherwise PVCNotBound when the
    claims can be listed and one of the tier's claims is not Bound; otherwise
    StorageHealthy, also when the claims cannot be listed or the declared size
    does not parse. *)
Theorem updateStorageWarnings_reason `{QuantityParser}
    (ms : MusicService) (sts : StatefulSet)
    (claimName appName desiredSize conditionType : string) (w : World) :
  exists ms' c,
    status.updateStorageWarnings ms sts claimName appName desiredSize conditionType w =
      (Ok ms', withClock (clock w + 1) w) /\
    findCondition conditionType (Conditions (Status ms')) = Some c /\
    (forall t, t <> conditionType ->
       findCondition t (Conditions (Status ms')) = findCondition t (Conditions (Status ms))) /\
    (c_Status c, c_Reason c) =
      if status.shrinkRequested sts desiredSize then (ConditionFalse, "ShrinkNotSupported")
      else
        match faults w VList KPVC "" with
        | Some _ => (ConditionTrue, "StorageHealthy")
        | None =>
            if existsb (fun pvc => negb (String.eqb (pvc_Phase pvc) ClaimBound))
                 (tierClaims claimName appName (Namespace (Meta ms)) w)
            then (ConditionFalse, "PVCNotBound")
            else (ConditionTrue, "StorageHealthy")
        end.
Proof.
  unfold status.updateStorageWarnings.
  destruct (status.shrinkRequested sts desiredSize).
  - rewrite setStatusCondition_run. eexists _, _. split; [reflexivity|].
    cbn [Status withStatus Conditions setConditions].
    split; [now apply applyCondition_find_type|].
    split; [intros t Ht; now apply applyCondition_other|reflexivity].
  - rewrite (m_bind_ok _ _ _ _ _ (status_listPVCsByPrefix_tier _ _ _ w)).
    destruct (faults w VList KPVC "") as [err|];
      [|destruct (existsb _ (tierClaims claimName appName (Namespace (Meta ms)) w))];
      rewrite setStatusCondition_run; eexists _, _; (split; [reflexivity|]);
      cbn [Status withStatus Conditions setConditions];
      (split; [now apply applyCondition_find_type|]);
      (split; [intros t Ht; now apply applyCondition_other|reflexivity]).
Qed.

Lemma checkReplicaStatus_keeps_master `{QuantityParser}
    (ms : MusicService) (db : DatabaseSpec) (w : World) :
  spec_Database (Spec ms) = Some db ->
  is_Some (Database (Status ms)) ->
  exists ms' w',
    status.checkReplicaStatus ms w = (Ok ms', w') /\
    trace w' = trace w /\
    is_Some (Database (Status ms')) /\
    dbs_Phase (status.databaseStatus ms') = dbs_Phase (status.databaseStatus ms) /\
    dbs_MasterReady (status.databaseStatus ms') = dbs_MasterReady (status.databaseStatus ms).
Proof.
  intros Hdb Hinit. unfold status.checkReplicaStatus. rewrite Hdb. cbn [deref].
  rewrite m_bind_liftRes_ok.
  destruct (db_Replicas db >? 0); [|eexists _, _; repeat split; assumption].
  destruct (Get_sameCluster StatefulSets (Namespace (Meta ms))
              (Name (Meta ms) +:+ "-db-replica") w) as [r Hr].
  rewrite (m_bind_ok _ _ _ _ _ Hr).
  destruct r as [replicaSts|err].
  - unfold m_bind at 1. unfold Now at 1. rewrite setStatusCondition_run.
    eexists _, _. split; [reflexivity|]. split; [reflexivity|].
    split; [cbn; eauto|]. split; reflexivity.
  - destruct (IsNotFound err); [|eexists _, _; repeat split; assumption].
    destruct (dbs_ReplicaEverCreated (status.databaseStatus ms));
      [|eexists _, _; repeat split; assumption].
    rewrite setStatusCondition_run.
    eexists _, _. split; [reflexivity|]. split; [reflexivity|].
    split; [cbn; eauto|]. split; reflexivity.
Qed.

(** X20: the master fields of the database status. [UpdateDatabase] sets
    [masterReady] and the database phase from the StatefulSet
    [<name>-db-master] alone: ready and Ready when it has a ready replica, not
    ready and Pending when it has none. When that StatefulSet is not found
    (as under high availability, where none of that name is made) both fields
    are written back as they were. *)
Theorem UpdateDatabase_master_fields `{QuantityParser}
    (ms : MusicService) (db : DatabaseSpec) (w : World) :
  spec_Database (Spec ms) = Some db ->
  faults w VGet KStatefulSet (Name (Meta ms) +:+ "-db-master") = None ->
  let before := status.databaseStatus ms in
  exists ms' e w' after,
    status.UpdateDatabase ms w = (Ok (ms', e), w') /\
    trace w' = (trace w ++ [EvStatusUpdate ms'])%list /\
    Database (Status ms') = Some after /\
    (dbs_MasterReady after, dbs_Phase after) =
      match statefulsets w !! (Namespace (Meta ms), Name (Meta ms) +:+ "-db-master") with
      | Some master =>
          if sts_ReadyReplicas master >? 0 then (true, "Ready") else (false, "Pending")
      | None => (dbs_MasterReady before, dbs_Phase before)
      end.
Proof.
  intros Hdb Hget before. unfold status.UpdateDatabase.
  set (ms0 := status.withDatabaseStatus ms (status.databaseStatus ms)).
  assert (Hmaster : exists ms1 w1,
    status.checkMasterStatus ms0 w = (Ok ms1, w1) /\ trace w1 = trace w /\
    spec_Database (Spec ms1) = Some db /\ is_Some (Database (Status ms1)) /\
    (dbs_MasterReady (status.databaseStatus ms1), dbs_Phase (status.databaseStatus ms1)) =
      match statefulsets w !! (Namespace (Meta ms), Name (Meta ms) +:+ "-db-master") with
      | Some master =>
          if sts_ReadyReplicas master >? 0 then (true, "Ready") else (false, "Pending")
      | None => (dbs_MasterReady before, dbs_Phase before)
      end).
  { unfold status.checkMasterStatus.
    rewrite (m_bind_ok _ _ _ _ _ (Get_lookup StatefulSets _ _ w Hget)).
    cbn [select StatefulSets Meta ms0 status.withDatabaseStatus withStatus].
    destruct (statefulsets w !! (Namespace (Meta ms), Name (Meta ms) +:+ "-db-master"))
      as [master|].
    - cbn [Spec withStatus status.withDatabaseStatus ms0]. rewrite Hdb. cbn [deref].
      rewrite m_bind_liftRes_ok.
      destruct (db_Storage db) as [storage|].
      + match goal with |- context [status.updateStorageWarnings ?m ?s ?a ?b ?c ?d ?w0] =>
          destruct (updateStorageWarnings_run m s a b c d w0) as (c0 & Hrun & _) end.
        rewrite Hrun. eexists _, _. split; [reflexivity|]. split; [reflexivity|].
        split; [exact Hdb|]. split; [cbn; eauto|].
        cbn. now destruct (sts_ReadyReplicas master >? 0).
      + eexists _, _. split; [reflexivity|]. split; [reflexivity|].
        split; [exact Hdb|]. split; [cbn; eauto|].
        cbn. now destruct (sts_ReadyReplicas master >? 0).
    - eexists _, _. split; [reflexivity|]. split; [reflexivity|].
      split; [exact Hdb|]. split; [cbn; eauto|]. reflexivity. }
  destruct Hmaster as (ms1 & w1 & Hrun1 & Htr1 & Hdb1 & Hinit1 & Hfields).
  rewrite (m_bind_ok _ _ _ _ _ Hrun1).
  destruct (checkReplicaStatus_keeps_master ms1 db w1 Hdb1 Hinit1)
    as (ms2 & w2 & Hrun2 & Htr2 & Hinit2 & Hphase & Hready).
  rewrite (m_bind_ok _ _ _ _ _ Hrun2).
  destruct (StatusUpdate_run ms2 w2) as (e & w' & Hrun3 & Htrace).
  rewrite (m_bind_ok _ _ _ _ _ Hrun3).
  exists ms2, e, w', (status.databaseStatus ms2).
  split; [reflexivity|]. split; [rewrite Htrace; congruence|].
  split; [now apply databaseStatus_Some|].
  rewrite Hphase, Hready. exact Hfields.
Qed.

(** * The head of [Reconcile] *)

Section ReconcileHead.
Context `{QuantityParser} {L : Layout}.
Variables ReconcileGalera ReconcileGaleraServices : MusicService -> M (option error).

Abbreviation Reconcile := (controller.Reconcile ReconcileGalera ReconcileGaleraServices).
Abbreviation finalizer := controller.musicServiceFinalizerName.

Lemma recordEvent_run {A} (reason message : string) (k : unit -> M A) (w : World) :
  m_bind (controller.recordEvent reason message) k w =
    k tt (withTrace (trace w ++ [EvRecorded "Normal" reason message]) w).
Proof. reflexivity. Qed.

Lemma Update_parent (o : MusicService) (w : World) :
  exists e w',
    client.Update MusicServices o w = (Ok e, w') /\
    trace w' = (trace w ++ [EvUpdate (OMusicService o)])%list /\
    children w' = children w /\
    match faults w VUpdate KMusicService (Name (Meta o)) with
    | Some err => e = Some err /\ w' = withTrace (trace w ++ [EvUpdate (OMusicService o)]) w
    | None =>
        is_Some (musicservices w !! keyOf MusicServices o) ->
        e = None /\ musicservices w' = <[keyOf MusicServices o := o]> (musicservices w)
    end.
Proof.
  unfold client.Update, client.store, m_bind, emit.
  cbn [faults withTrace kind MusicServices meta select musicservices].
  destruct (faults w VUpdate KMusicService (Name (Meta o))).
  - eexists _, _. repeat split.
  - destruct (musicservices w !! keyOf MusicServices o).
    + eexists _, _. repeat split.
    + eexists _, _. split; [reflexivity|]. split; [reflexivity|]. split; [reflexivity|].
      intros [x Hx]. discriminate.
Qed.

Lemma RemoveFinalizer_gone (ms : MusicService) (f : string) :
  controller.ContainsFinalizer (controller.RemoveFinalizer ms f) f = false.
Proof.
  unfold controller.ContainsFinalizer, controller.RemoveFinalizer.
  cbn [Meta controller.withFinalizers withMeta Finalizers].
  induction (Finalizers (Meta ms)) as [|x l IH]; [reflexivity|].
  cbn [List.filter]. destruct (String.eqb_spec x f) as [->|Hne]; cbn [negb]; [exact IH|].
  cbn [existsb]. rewrite IH, orb_false_r. apply String.eqb_neq. congruence.
Qed.

Lemma RemoveFinalizer_others (ms : MusicService) (f g : string) :
  g <> f ->
  controller.ContainsFinalizer (controller.RemoveFinalizer ms f) g =
  controller.ContainsFinalizer ms g.
Proof.
  intros Hne. unfold controller.ContainsFinalizer, controller.RemoveFinalizer.
  cbn [Meta controller.withFinalizers withMeta Finalizers].
  induction (Finalizers (Meta ms)) as [|x l IH]; [reflexivity|].
  cbn [List.filter existsb]. destruct (String.eqb_spec x f) as [->|Hxf]; cbn [negb].
  - rewrite IH. apply String.eqb_neq in Hne. now rewrite Hne.
  - cbn [existsb]. now rewrite IH.
Qed.

(** X21: a parent that is gone or going. When the parent is not found,
    [Reconcile] returns no error and does nothing; another lookup failure
    is returned as it is, with nothing done. For a parent with a deletion
    timestamp the only request is one update of the parent, without the
    operator's finalizer and with every other finalizer kept, and only when
    it carries that finalizer; no StatefulSet, Service, Secret, autoscaler
    or claim is deleted or written, and no status is written. *)
Theorem Reconcile_parent_gone (req : controller.Request) (w : World) :
  match faults w VGet KMusicService (controller.req_Name req) with
  | Some err =>
      Reconcile req w =
        (Ok (controller.mkResult 0, if IsNotFound err then None else Some err), w)
  | None =>
      match musicservices w !! (controller.req_Namespace req, controller.req_Name req) with
      | None => Reconcile req w = (Ok (controller.mkResult 0, None), w)
      | Some ms =>
          is_Some (DeletionTimestamp (Meta ms)) ->
          let kept := controller.RemoveFinalizer ms finalizer in
          exists e w',
            Reconcile req w = (Ok (controller.mkResult 0, e), w') /\
            children w' = children w /\
            trace w' =
              (trace w ++
               if controller.ContainsFinalizer ms finalizer
               then [EvRecorded "Normal" "Reconciling" "Starting reconciliation";
                     EvRecorded "Normal" "Deleting" "Cleaning up resources";
                     EvUpdate (OMusicService kept)]
               else [EvRecorded "Normal" "Reconciling" "Starting reconciliation"])%list /\
            controller.ContainsFinalizer kept finalizer = false /\
            (forall other, other <> finalizer ->
               controller.ContainsFinalizer kept other = controller.ContainsFinalizer ms other)
      end
  end.
Proof.
  unfold controller.Reconcile.
  destruct (faults w VGet KMusicService (controller.req_Name req)) as [err|] eqn:Hf.
  - unfold client.Get, m_bind. cbn [kind MusicServices]. rewrite Hf.
    now destruct (IsNotFound err).
  - rewrite (m_bind_ok _ _ _ _ _ (Get_lookup MusicServices _ _ w Hf)).
    cbn [select MusicServices].
    destruct (musicservices w !! (controller.req_Namespace req, controller.req_Name req))
      as [ms|]; [|reflexivity].
    intros [t Ht]. cbn [IsNotFound notFound].
    unfold m_bind at 1. unfold controller.recordEvent at 1. unfold emit at 1.
    rewrite Ht.
    destruct (controller.ContainsFinalizer ms finalizer) eqn:Hc.
    + unfold m_bind at 1. unfold controller.recordEvent at 1. unfold emit at 1.
      cbn [trace withTrace].
      match goal with |- context [m_bind (client.Update MusicServices ?o) _ ?w0] =>
        assert (Hup : exists e w', client.Update MusicServices o w0 = (Ok e, w') /\
                  trace w' = (trace w0 ++ [EvUpdate (OMusicService o)])%list /\
                  children w' = children w0)
      end.
      { unfold client.Update, client.store, m_bind, emit.
        cbn [faults withTrace kind MusicServices meta select musicservices].
        destruct (faults w VUpdate KMusicService _);
          [eexists _, _; repeat split|].
        destruct (musicservices w !! _); eexists _, _; repeat split. }
      destruct Hup as (e & w' & Hrun & Htrace & Hchildren).
      rewrite (m_bind_ok _ _ _ _ _ Hrun).
      exists e, w'. split; [now destruct e|]. split; [exact Hchildren|].
      split; [rewrite Htrace; cbn [trace withTrace]; now rewrite <- !List.app_assoc|].
      split; [apply RemoveFinalizer_gone|apply RemoveFinalizer_others].
    + eexists _, _. split; [reflexivity|]. split; [reflexivity|]. split; [reflexivity|].
      split; [apply RemoveFinalizer_gone|apply RemoveFinalizer_others].
Qed.

(** X22: the finalizer comes first. For a parent that is not being
    deleted, [Reconcile] goes on to the resources with the parent as read
    when it carries the operator's finalizer. When it does not, the first
    request of the pass is an update of the parent with the finalizer
    appended; if that update is refused the pass ends there, returning the
    refusal, with no resource touched and no status written; if it goes
    through, the parent is stored with the finalizer and the resources are
    reconciled for it. *)
Theorem Reconcile_adds_finalizer (req : controller.Request) (ms : MusicService) (w : World) :
  faults w VGet KMusicService (controller.req_Name req) = None ->
  musicservices w !! (controller.req_Namespace req, controller.req_Name req) = Some ms ->
  DeletionTimestamp (Meta ms) = None ->
  let started :=
    withTrace (trace w ++ [EvRecorded "Normal" "Reconciling" "Starting reconciliation"]) w in
  if controller.ContainsFinalizer ms finalizer then
    Reconcile req w =
      controller.reconcileResources ReconcileGalera ReconcileGaleraServices ms started
  else
    let ms' := controller.AddFinalizer ms finalizer in
    Finalizers (Meta ms') = (Finalizers (Meta ms) ++ [finalizer])%list /\
    match faults w VUpdate KMusicService (Name (Meta ms)) with
    | Some err =>
        Reconcile req w =
          (Ok (controller.mkResult 0, Some err),
           withTrace (trace started ++ [EvUpdate (OMusicService ms')]) started)
    | None =>
        keyOf MusicServices ms = (controller.req_Namespace req, controller.req_Name req) ->
        exists w1,
          Reconcile req w =
            controller.reconcileResources ReconcileGalera ReconcileGaleraServices ms' w1 /\
          trace w1 = (trace started ++ [EvUpdate (OMusicService ms')])%list /\
          musicservices w1 !! (controller.req_Namespace req, controller.req_Name req)
            = Some ms' /\
          children w1 = children w
    end.
Proof.
  intros Hf Hstored Hlive started. unfold controller.Reconcile.
  rewrite (m_bind_ok _ _ _ _ _ (Get_lookup MusicServices _ _ w Hf)).
  cbn [select MusicServices]. rewrite Hstored, recordEvent_run. fold started.
  rewrite Hlive.
  destruct (controller.ContainsFinalizer ms finalizer) eqn:Hc; cbn [negb]; [reflexivity|].
  assert (Hadd : controller.AddFinalizer ms finalizer =
                 controller.withFinalizers ms (Finalizers (Meta ms) ++ [finalizer])%list)
    by (unfold controller.AddFinalizer; now rewrite Hc).
  split; [now rewrite Hadd|].
  destruct (Update_parent (controller.AddFinalizer ms finalizer) started)
    as (e & w1 & Hrun & Htrace & Hchildren & Hcases).
  rewrite (m_bind_ok _ _ _ _ _ Hrun).
  replace (Name (Meta (controller.AddFinalizer ms finalizer))) with (Name (Meta ms))
    in Hcases by now rewrite Hadd.
  change (faults started) with (faults w) in Hcases.
  destruct (faults w VUpdate KMusicService (Name (Meta ms))) as [err|].
  - destruct Hcases as [-> ->]. reflexivity.
  - intros Hkey.
    assert (Hk : keyOf MusicServices (controller.AddFinalizer ms finalizer)
                 = (controller.req_Namespace req, controller.req_Name req))
      by (rewrite <- Hkey, Hadd; reflexivity).
    destruct Hcases as [-> Hsel].
    { rewrite Hk. change (musicservices started) with (musicservices w).
      rewrite Hstored. eauto. }
    exists w1. split; [reflexivity|]. split; [exact Htrace|].
    split; [rewrite Hsel, Hk; apply lookup_insert_eq|exact Hchildren].
Qed.
End ReconcileHead.

(** * What a failed pass returns *)

Section FailedPass.
Context `{QuantityParser} {L : Layout}.
Variables ReconcileGalera ReconcileGaleraServices : MusicService -> M (option error).

Lemma UpdateError_result (ms : MusicService) (reason message : string) (w : World) :
  exists ms' w',
    status.UpdateError ms reason message w =
      (Ok (ms', statusWriteResult (Namespace (Meta ms)) (Name (Meta ms)) w), w').
Proof.
  unfold status.UpdateError. unfold m_bind at 1. unfold Now at 1.
  rewrite (m_bind_ok _ _ _ _ _ (setStatusCondition_run _ _ _)).
  unfold client.StatusUpdate, statusWriteResult. unfold m_bind, emit.
  cbn [faults withTrace withClock musicservices Meta withStatus keyOf meta MusicServices].
  destruct (faults w VStatusUpdate KMusicService (Name (Meta ms))); [eauto|].
  unfold keyOf. cbn [meta MusicServices Meta withStatus].
  destruct (musicservices w !! (Namespace (Meta ms), Name (Meta ms))); eauto.
Qed.

Lemma returnsWriteResult_nil final meta : returnsWriteResult final [] meta.
Proof. intros w reason err w1 Hf. discriminate. Qed.

Lemma returnsWriteResult_guarded ms reason step k steps :
  returnsWriteResult k steps (Meta ms) ->
  returnsWriteResult (controller.guarded ms reason step k) ((reason, step) :: steps) (Meta ms).
Proof.
  intros Hk w reason' err w1. cbn [controller.firstFailure]. unfold controller.guarded.
  destruct (step w) as [[[err0|]|msg] w0] eqn:Hstep.
  - rewrite !(m_bind_ok _ _ _ _ _ Hstep). cbn [m_ret]. intros Hf. injection Hf as <- <- <-.
    destruct (UpdateError_result ms reason (Error err0) w0) as (ms' & w' & Hrun).
    rewrite (m_bind_ok _ _ _ _ _ Hrun). eauto.
  - rewrite !(m_bind_ok _ _ _ _ _ Hstep). apply Hk.
  - rewrite (m_bind_panicked _ _ _ _ _ Hstep). discriminate.
Qed.

(** X23: what a failed pass returns. When a reconciliation step fails,
    [Reconcile] returns an empty result together with the answer of the
    status write, not the step's error: an error only when that write is
    refused or the parent is gone, and nothing at all (no error, no requeue
    delay) when the failure was recorded in the status. *)
Theorem failed_step_returns_write_result (ms : MusicService) (w w1 : World)
    (reason : string) (err : error) :
  controller.firstFailure
    (controller.reconcileSteps ReconcileGalera ReconcileGaleraServices ms) w
    = (Ok (Some (reason, err)), w1) ->
  exists w',
    controller.reconcileResources ReconcileGalera ReconcileGaleraServices ms w =
      (Ok (controller.mkResult 0,
           statusWriteResult (Namespace (Meta ms)) (Name (Meta ms)) w1), w') /\
    (faults w1 VStatusUpdate KMusicService (Name (Meta ms)) = None ->
     is_Some (musicservices w1 !! (Namespace (Meta ms), Name (Meta ms))) ->
     controller.reconcileResources ReconcileGalera ReconcileGaleraServices ms w =
       (Ok (controller.mkResult 0, None), w')).
Proof.
  intros Hfail.
  assert (Hshape : returnsWriteResult
            (controller.reconcileResources ReconcileGalera ReconcileGaleraServices ms)
            (controller.reconcileSteps ReconcileGalera ReconcileGaleraServices ms) (Meta ms)).
  { unfold controller.reconcileResources, controller.reconcileSteps.
    set (ms1 := withStatus (withStatus ms _) _).
    change (Meta ms) with (Meta ms1).
    destruct (controller.databaseEnabled ms1).
    - set (ms2 := match Database (Status ms1) with None => _ | Some _ => ms1 end).
      assert (Hmeta : Meta ms2 = Meta ms1) by (unfold ms2; now destruct (Database _)).
      cbn [app]. do 3 apply returnsWriteResult_guarded. rewrite <- Hmeta.
      destruct (controller.databaseHAEnabled ms2); cbn [app];
        repeat apply returnsWriteResult_guarded; apply returnsWriteResult_nil.
    - cbn [app]. repeat apply returnsWriteResult_guarded. apply returnsWriteResult_nil. }
  destruct (Hshape w reason err w1 Hfail) as (w' & Hrun).
  exists w'. split; [exact Hrun|].
  intros Hf [stored Hstored]. rewrite Hrun. unfold statusWriteResult.
  now rewrite Hf, Hstored.
Qed.
End FailedPass.

(** * When the next pass is due *)

Section Requeue.
Context `{QuantityParser} {L : Layout}.

Lemma keepsCounts_ret (ms' ms : MusicService) :
  Spec ms' = Spec ms -> ReadyReplicas (Status ms') = ReadyReplicas (Status ms) ->
  keepsCounts (m_ret ms') id ms.
Proof. intros Hs Hr w a w' Hrun. injection Hrun as <- _. now split. Qed.

Lemma keepsCounts_condition (ms' ms : MusicService) (c : Condition) :
  Spec ms' = Spec ms -> ReadyReplicas (Status ms') = ReadyReplicas (Status ms) ->
  keepsCounts (status.setStatusCondition ms' c) id ms.
Proof.
  intros Hs Hr w a w' Hrun. rewrite setStatusCondition_run in Hrun.
  injection Hrun as <- _. now split.
Qed.

Lemma keepsCounts_warnings (ms' ms : MusicService) (sts : StatefulSet)
    (claimName appName desiredSize conditionType : string) :
  Spec ms' = Spec ms -> ReadyReplicas (Status ms') = ReadyReplicas (Status ms) ->
  keepsCounts
    (status.updateStorageWarnings ms' sts claimName appName desiredSize conditionType) id ms.
Proof.
  intros Hs Hr w a w' Hrun.
  destruct (updateStorageWarnings_run ms' sts claimName appName desiredSize conditionType w)
    as (c & Hrun' & _).
  rewrite Hrun' in Hrun. injection Hrun as <- _. now split.
Qed.

Lemma keepsCounts_master (ms : MusicService) :
  keepsCounts (status.checkMasterStatus ms) id ms.
Proof.
  intros w a w'. unfold status.checkMasterStatus.
  destruct (Get_sameCluster StatefulSets (Namespace (Meta ms))
              (Name (Meta ms) +:+ "-db-master") w) as [r Hr].
  rewrite (m_bind_ok _ _ _ _ _ Hr).
  destruct r as [master|err]; [|now apply keepsCounts_ret].
  unfold m_bind at 1. unfold liftRes at 1.
  cbn [Spec withStatus status.withDatabaseStatus].
  destruct (spec_Database (Spec ms)) as [db|]; cbn [deref]; [|discriminate].
  destruct (db_Storage db); [now apply keepsCounts_warnings|now apply keepsCounts_ret].
Qed.

Lemma keepsCounts_replica (ms : MusicService) :
  keepsCounts (status.checkReplicaStatus ms) id ms.
Proof.
  intros w a w'. unfold status.checkReplicaStatus.
  unfold m_bind at 1. unfold liftRes at 1.
  destruct (spec_Database (Spec ms)) as [db|]; cbn [deref]; [|discriminate].
  destruct (db_Replicas db >? 0); [|now apply keepsCounts_ret].
  destruct (Get_sameCluster StatefulSets (Namespace (Meta ms))
              (Name (Meta ms) +:+ "-db-replica") w) as [r Hr].
  rewrite (m_bind_ok _ _ _ _ _ Hr).
  destruct r as [replica|err].
  - unfold m_bind at 1. unfold Now at 1. now apply keepsCounts_condition.
  - destruct (IsNotFound err); [|now apply keepsCounts_ret].
    destruct (dbs_ReplicaEverCreated (status.databaseStatus ms));
      [now apply keepsCounts_condition|now apply keepsCounts_ret].
Qed.

Lemma keepsCounts_database (ms : MusicService) :
  keepsCounts (status.UpdateDatabase ms) fst ms.
Proof.
  intros w [ms' e] w'. unfold status.UpdateDatabase.
  unfold m_bind at 1.
  destruct (status.checkMasterStatus _ w) as [[ms1|msg] w1] eqn:Hmaster; [|discriminate].
  destruct (keepsCounts_master _ w ms1 w1 Hmaster) as [Hs1 Hr1].
  unfold m_bind at 1.
  destruct (status.checkReplicaStatus ms1 w1) as [[ms2|msg] w2] eqn:Hreplica; [|discriminate].
  destruct (keepsCounts_replica _ w1 ms2 w2 Hreplica) as [Hs2 Hr2].
  destruct (StatusUpdate_run ms2 w2) as (e' & w3 & Hrun & _).
  rewrite (m_bind_ok _ _ _ _ _ Hrun). intros Heq. injection Heq as <- _ _.
  cbn [fst id] in *. rewrite Hs2, Hs1, Hr2, Hr1. split; reflexivity.
Qed.

Lemma keepsCounts_reconciled (ms : MusicService) :
  keepsCounts (status.UpdateReconciled ms) fst ms.
Proof.
  intros w [ms' e] w'. unfold status.UpdateReconciled.
  rewrite (m_bind_ok _ _ _ _ _ (setStatusCondition_run _ _ _)).
  unfold m_bind at 1. unfold Now at 1.
  match goal with |- context [m_bind (client.StatusUpdate ?m) _ ?w0] =>
    destruct (StatusUpdate_run m w0) as (e' & w3 & Hrun & _) end.
  rewrite (m_bind_ok _ _ _ _ _ Hrun). intros Heq. injection Heq as <- _ _.
  split; reflexivity.
Qed.

Lemma UpdateFromAppStatefulSet_counts (ms : MusicService) (sts : StatefulSet)
    (w : World) (ms' : MusicService) (e : option error) (w' : World) :
  status.UpdateFromAppStatefulSet ms sts w = (Ok (ms', e), w') ->
  Spec ms' = Spec ms /\ ReadyReplicas (Status ms') = sts_ReadyReplicas sts.
Proof.
  unfold status.UpdateFromAppStatefulSet. unfold m_bind at 1. unfold liftRes at 1.
  destruct (ss_Replicas (sts_Spec sts)) as [desired|]; cbn [deref]; [|discriminate].
  match goal with |- context [m_bind ?m0 _ w] =>
    assert (Hstep : exists ms1 w1, m0 w = (Ok ms1, w1) /\ Spec ms1 = Spec ms /\
                      ReadyReplicas (Status ms1) = sts_ReadyReplicas sts)
  end.
  { destruct (sts_ReadyReplicas sts =? 0); [|destruct (sts_ReadyReplicas sts <? desired)];
      rewrite setStatusCondition_run; eexists _, _; repeat split. }
  destruct Hstep as (ms1 & w1 & Hrun1 & Hs1 & Hr1).
  rewrite (m_bind_ok _ _ _ _ _ Hrun1).
  destruct (updateStorageWarnings_run ms1 sts "music-data" (Name (Meta ms1))
              (st_Size (spec_Storage (Spec ms1))) "StorageWarningApp" w1)
    as (c & Hrun2 & _).
  rewrite (m_bind_ok _ _ _ _ _ Hrun2).
  match goal with |- context [m_bind (client.StatusUpdate ?m) _ ?w0] =>
    destruct (StatusUpdate_run m w0) as (e' & w3 & Hrun & _) end.
  rewrite (m_bind_ok _ _ _ _ _ Hrun). intros Heq. injection Heq as <- _ _.
  split; assumption.
Qed.

(** X24: when the next pass is due. A pass that ends without an error asks
    to be run again after 5 seconds while the ready count is below
    [Spec.Replicas] and after 30 seconds otherwise; the ready count is the
    one of the application StatefulSet when the status pass finds it, and
    the one already in the status when it does not. *)
Theorem syncStatus_requeue (ms : MusicService) (w w' : World) (res : controller.Result) :
  controller.syncStatus ms w = (Ok (res, None), w') ->
  controller.RequeueAfter res =
    if observedReady ms w <? spec_Replicas (Spec ms) then 5 else 30.
Proof.
  assert (Hmark : forall m w0 res0 w1,
    (let* u := status.UpdateReconciled m in
     match snd u with
     | Some err => m_ret (controller.mkResult 0, Some err)
     | None =>
         let ms := fst u in
         if ReadyReplicas (Status ms) <? spec_Replicas (Spec ms)
         then m_ret (controller.mkResult 5, None)
         else m_ret (controller.mkResult 30, None)
     end) w0 = (Ok (res0, None), w1) ->
    controller.RequeueAfter res0 =
      if ReadyReplicas (Status m) <? spec_Replicas (Spec m) then 5 else 30).
  { intros m w0 res0 w1. unfold m_bind at 1.
    destruct (status.UpdateReconciled m w0) as [[[m1 e]|msg] w2] eqn:Hrun; [|discriminate].
    destruct (keepsCounts_reconciled m w0 (m1, e) w2 Hrun) as [Hs Hr]. cbn [fst snd] in *.
    destruct e; [discriminate|]. rewrite Hs, Hr.
    destruct (_ <? _); intros Heq; now injection Heq as <- _. }
  assert (Hdb : forall m w0 res0 w1,
    (if controller.databaseEnabled m then
       let* u := status.UpdateDatabase m in
       match snd u with
       | Some err => m_ret (controller.mkResult 0, Some err)
       | None =>
           (let* u := status.UpdateReconciled (fst u) in
            match snd u with
            | Some err => m_ret (controller.mkResult 0, Some err)
            | None =>
                let ms := fst u in
                if ReadyReplicas (Status ms) <? spec_Replicas (Spec ms)
                then m_ret (controller.mkResult 5, None)
                else m_ret (controller.mkResult 30, None)
            end)
       end
     else
       (let* u := status.UpdateReconciled m in
        match snd u with
        | Some err => m_ret (controller.mkResult 0, Some err)
        | None =>
            let ms := fst u in
            if ReadyReplicas (Status ms) <? spec_Replicas (Spec ms)
            then m_ret (controller.mkResult 5, None)
            else m_ret (controller.mkResult 30, None)
        end)) w0 = (Ok (res0, None), w1) ->
    controller.RequeueAfter res0 =
      if ReadyReplicas (Status m) <? spec_Replicas (Spec m) then 5 else 30).
  { intros m w0 res0 w1. destruct (controller.databaseEnabled m); [|apply Hmark].
    unfold m_bind at 1.
    destruct (status.UpdateDatabase m w0) as [[[m1 e]|msg] w2] eqn:Hrun; [|discriminate].
    destruct (keepsCounts_database m w0 (m1, e) w2 Hrun) as [Hs Hr]. cbn [fst snd] in *.
    destruct e; [discriminate|]. intros Hrest. apply Hmark in Hrest.
    now rewrite Hs, Hr in Hrest. }
  unfold controller.syncStatus, observedReady, client.Get. unfold m_bind at 1.
  cbn [kind select StatefulSets].
  destruct (faults w VGet KStatefulSet (Name (Meta ms))); [apply Hdb|].
  destruct (statefulsets w !! (Namespace (Meta ms), Name (Meta ms))) as [sts|]; [|apply Hdb].
  unfold m_bind at 1.
  destruct (status.UpdateFromAppStatefulSet ms sts w) as [[[m1 e]|msg] w2] eqn:Hrun;
    [|discriminate].
  destruct (UpdateFromAppStatefulSet_counts ms sts w m1 e w2 Hrun) as [Hs Hr].
  cbn [fst snd]. destruct e; [discriminate|].
  unfold m_bind at 1. unfold controller.recordEvent, emit.
  intros Hrest. apply Hdb in Hrest. now rewrite Hs, Hr in Hrest.
Qed.
End Requeue.

(** * The properties above on samples *)

(** Evaluate the scrutinee of the match a statement starts with. *)
Ltac eval_head H :=
  cbv zeta in H;
  lazymatch type of H with
  | match ?scrutinee with _ => _ end =>
      let v := eval vm_compute in scrutinee in change scrutinee with v in H
  | if ?scrutinee then _ else _ =>
      let v := eval vm_compute in scrutinee in change scrutinee with v in H
  end;
  cbv iota beta in H.

Lemma wellKeyed_empty {A} (R : Resource A) (w : World) :
  select R w = ∅ -> wellKeyed R w.
Proof. intros Hempty key o Hl. rewrite Hempty, lookup_empty in Hl. discriminate. Qed.

Lemma wellKeyed_singleton {A} (R : Resource A) (w : World) (key : string * string) (o : A) :
  select R w = {[ key := o ]} -> keyOf R o = key -> wellKeyed R w.
Proof.
  intros Hone Hkey key' o' Hl. rewrite Hone in Hl.
  apply lookup_singleton_Some in Hl as [<- <-]. exact Hkey.
Qed.


(** X2, on a sample: the autoscaler built for the autoscaled service needs
    no update against itself. *)
Lemma autoscalerNeedsUpdate_compares_built :
  exists desired,
    builder.BuildAutoscaler autoscaledService = Ok desired /\
    reconciler.autoscalerNeedsUpdate desired desired = false.
Proof.
  destruct (builder.BuildAutoscaler autoscaledService) as [desired|msg] eqn:Hbuilt;
    [|vm_compute in Hbuilt; discriminate].
  exists desired. split; [reflexivity|].
  apply (autoscalerNeedsUpdate_compares autoscaledService desired desired Hbuilt).
  repeat split.
Defined.

(** X4, on a sample: the claims of the replica tier. *)
Lemma listPVCsByPrefix_selects_replica_tier :
  faults shrunkCluster VList KPVC "" = None /\
  exists claims,
    reconciler.listPVCsByPrefix "db-data" "demo-db-replica" "default" shrunkCluster
      = (Ok (inl claims), shrunkCluster) /\
    List.Forall (fun pvc => Namespace (pvc_Meta pvc) = "default") claims.
Proof.
  split; [reflexivity|].
  destruct (listPVCsByPrefix_selects "db-data" "demo-db-replica" "default" shrunkCluster eq_refl)
    as (claims & Hrun & Hselected & _).
  exists claims. split; [exact Hrun|].
  apply List.Forall_forall. intros pvc Hin. apply Hselected in Hin. tauto.
Defined.

(** X7, on a sample: the primary/replica service. *)
Lemma services_select_pods_sample :
  exists app master replica,
    builder.BuildAppStatefulSet (H := binaryQuantity) shrunkService = Ok app /\
    builder.BuildDatabaseMasterStatefulSet (H := binaryQuantity) shrunkService = Ok master /\
    builder.BuildDatabaseReplicaStatefulSet (H := binaryQuantity) shrunkService = Ok replica /\
    svc_Selector (builder.BuildAppService shrunkService) = pt_Labels (ss_Template (sts_Spec app)) /\
    containerPorts app = [80] /\
    ss_ServiceName (sts_Spec master) = "demo-db-master".
Proof.
  destruct (builder.BuildAppStatefulSet (H := binaryQuantity) shrunkService)
    as [app|msg] eqn:Happ; [|vm_compute in Happ; discriminate].
  destruct (builder.BuildDatabaseMasterStatefulSet (H := binaryQuantity) shrunkService)
    as [master|msg] eqn:Hmaster; [|vm_compute in Hmaster; discriminate].
  destruct (builder.BuildDatabaseReplicaStatefulSet (H := binaryQuantity) shrunkService)
    as [replica|msg] eqn:Hreplica; [|vm_compute in Hreplica; discriminate].
  destruct (services_select_pods (H := binaryQuantity) shrunkService app master replica
              Happ Hmaster Hreplica)
    as ((Hselector & _ & _ & _ & Hports) & (_ & _ & Hgoverning & _) & _).
  exists app, master, replica.
  split; [reflexivity|]. split; [reflexivity|]. split; [reflexivity|].
  split; [exact Hselector|]. split; [exact Hports|].
  rewrite Hgoverning. reflexivity.
Defined.

(** X8, on a sample: the StatefulSet of the default service. *)
Lemma built_objects_owned_sample :
  exists sts,
    builder.BuildAppStatefulSet (H := binaryQuantity) (sampleService None None) = Ok sts /\
    Labels (sts_Meta sts) !! "app" = Some "demo" /\
    map or_UID (OwnerReferences (sts_Meta sts)) = ["7d9c"].
Proof.
  destruct (builder.BuildAppStatefulSet (H := binaryQuantity) (sampleService None None))
    as [sts|msg] eqn:Hbuilt; [|vm_compute in Hbuilt; discriminate].
  destruct (built_objects_owned (H := binaryQuantity) (sampleService None None))
    as (_ & _ & _ & Hsts & _).
  destruct (Hsts sts (or_introl Hbuilt)) as (_ & Happ & _ & owner & Howners & Howner & _).
  exists sts. split; [reflexivity|]. split; [exact Happ|].
  rewrite Howners. cbn [map]. now injection Howner as _ _ ->.
Defined.

(** X9, on a sample: replication switched off. *)
Lemma replication_disabled_sample :
  db_Replication unreplicatedDatabase = Some {| rep_Enabled := Some false; rep_GTID := None |} /\
  reconciler.replicationEnabled unreplicatedService = false /\
  reconciler.ensureReplicationSecret unreplicatedService (clusterOf unreplicatedService)
    = (Ok (None, None), clusterOf unreplicatedService).
Proof.
  split; [reflexivity|].
  destruct (replication_disabled (H := binaryQuantity) unreplicatedService unreplicatedDatabase
              {| rep_Enabled := Some false; rep_GTID := None |} eq_refl eq_refl eq_refl)
    as (Hoff & Hsecret & _).
  split; [exact Hoff|apply Hsecret].
Defined.

(** X10, on a sample: PostgreSQL registered under [mariadb] answers for a
    type nobody registered. *)
Lemma GetProvider_after_register_fallback :
  database.providers !! "oracle" = None /\
  database.GetProvider
    (database.RegisterProvider "mariadb" (Some database.PostgreSQLProvider) database.providers)
    "oracle" = Some database.PostgreSQLProvider.
Proof.
  assert (Hnone : database.providers !! "oracle" = None) by (vm_compute; reflexivity).
  split; [exact Hnone|].
  destruct (GetProvider_after_register "mariadb" "oracle" (Some database.PostgreSQLProvider)
              database.providers) as (_ & _ & Hfallback).
  rewrite Hfallback; [reflexivity|discriminate|exact Hnone].
Defined.

(** X11, on a sample: two registrations, and a type without an entry. *)
Lemma GetProvider_never_nil_sample :
  Forall (fun call => is_Some (snd call)) sampleRegistrations /\
  is_Some (database.GetProvider (registered sampleRegistrations) "sqlite").
Proof.
  assert (Hall : Forall (fun call => is_Some (snd call)) sampleRegistrations)
    by (repeat constructor; cbn; eauto).
  split; [exact Hall|].
  exact (GetProvider_never_nil sampleRegistrations "sqlite" Hall).
Defined.

(** X12, on a sample: the first pass creates the Service and the second does
    nothing. *)
Lemma ReconcileService_creates_only_first_pass :
  services sampleCluster !! ("default", "demo") = None /\
  exists w',
    reconciler.ReconcileService (sampleService None None) sampleCluster
      = (Ok None, w') /\
    trace w' = [EvCreate (OService (builder.BuildAppService (sampleService None None)))] /\
    reconciler.ReconcileService (sampleService None None) w'
      = (Ok None, w').
Proof.
  split; [reflexivity|].
  pose proof (ReconcileService_creates_only (sampleService None None)
                sampleCluster eq_refl) as Hpass.
  eval_head Hpass.
  destruct Hpass as (e & w' & Hrun & Htrace & Hstored).
  destruct (Hstored eq_refl) as (-> & _ & Hagain).
  exists w'. split; [exact Hrun|]. split; [exact Htrace|exact Hagain].
Defined.

(** X13, on a sample: the autoscaler of the autoscaled service is created in
    the first pass. *)
Lemma ReconcileAutoscaler_converges_created :
  exists w' hpa,
    reconciler.ReconcileAutoscaler autoscaledService
      (clusterOf autoscaledService) = (Ok None, w') /\
    hpas w' !! ("default", "demo-autoscaler") = Some hpa /\
    reconciler.ReconcileAutoscaler autoscaledService w' = (Ok None, w').
Proof.
  destruct (ReconcileAutoscaler_converges autoscaledService
              (clusterOf autoscaledService))
    as (w' & Hrun & _ & Hstored & Hagain).
  - intros verb name. reflexivity.
  - apply wellKeyed_empty. reflexivity.
  - cbn [spec_Autoscaling Spec autoscaledService sampleService sampleSpec] in Hstored.
    destruct Hstored as (hpa & desired & Hlookup & _).
    exists w', hpa. repeat split; assumption.
Defined.


(** X15, on a sample: 20Gi declared under Recreate over a tier made at
    10Gi. The StatefulSet and its two claims are deleted. *)
Lemma recreate_deletes_tier_sample :
  reconciler.storageUpdatePolicy (spec_Storage (Spec recreateService)) = "Recreate" /\
  exists w',
    reconciler.ReconcileStatefulSet (H := binaryQuantity) (L := asWritten)
        recreateService recreateCluster
      = (Ok None, w') /\
    length (trace w') = 3%nat /\
    statefulsets w' !! ("default", "demo") = None.
Proof.
  split; [reflexivity|].
  destruct (builder.BuildAppStatefulSet (H := binaryQuantity) recreateService)
    as [desired|msg] eqn:Hbuilt; [|vm_compute in Hbuilt; discriminate].
  assert (Hchanged :
    reconciler.storageSizeChanged (withReady 2 sampleAppStatefulSet) desired = true).
  { vm_compute in Hbuilt. injection Hbuilt as <-. vm_compute. reflexivity. }
  destruct (recreate_deletes_tier (H := binaryQuantity) (L := asWritten) recreateService
              (withReady 2 sampleAppStatefulSet) desired recreateCluster
              eq_refl eq_refl Hbuilt Hchanged eq_refl)
    as (e & w' & deleted & rest & Hrun & Hclaims & Htrace & Hfree).
  destruct Hfree as (-> & -> & Hgone & _).
  - intros verb name. reflexivity.
  - intros verb name. reflexivity.
  - apply (wellKeyed_singleton StatefulSets recreateCluster ("default", "demo")
             (withReady 2 sampleAppStatefulSet)); reflexivity.
  - intros key pvc Hl. change (pvcs recreateCluster !! key = Some pvc) in Hl.
    unfold recreateCluster in Hl. cbn [pvcs] in Hl.
    apply lookup_insert_Some in Hl as [[<- <-]|[_ Hl]]; [reflexivity|].
    apply lookup_singleton_Some in Hl as [<- <-]. reflexivity.
  - exists w'. split; [exact Hrun|]. split; [|exact Hgone].
    rewrite Htrace. vm_compute. reflexivity.
Defined.

(** X16, on a sample: the lookup of the read Service times out, and the
    failure is dropped. *)
Lemma ReconcileServices_read_service_timeout :
  faults flakyReadCluster VGet KService "demo-db-read"
    = Some (mkError false "etcd request timed out") /\
  reconciler.ReconcileServices shrunkService flakyReadCluster = (Ok None, flakyReadCluster).
Proof.
  split; [reflexivity|].
  assert (Hmaster : is_Some (services flakyReadCluster !! ("default", "demo-db-master")))
    by (vm_compute; eauto).
  exact (ReconcileServices_read_service shrunkService (sampleDatabase "10Gi" false None)
           flakyReadCluster eq_refl eq_refl Hmaster).
Defined.

(** X17, on a sample: a database without an autoscaling section. *)
Lemma ReconcileDatabaseAutoscaler_never_deletes_unset :
  db_Autoscaling (sampleDatabase "10Gi" false None) = None /\
  reconciler.ReconcileDatabaseAutoscaler (L := asWritten)
      shrunkService shrunkCluster = (Ok None, shrunkCluster).
Proof.
  split; [reflexivity|].
  destruct (ReconcileDatabaseAutoscaler_never_deletes (L := asWritten) shrunkService
              (sampleDatabase "10Gi" false None) shrunkCluster eq_refl) as [Hunset _].
  apply Hunset. left. reflexivity.
Defined.

(** X20, on a sample: the master has one ready replica. *)
Lemma UpdateDatabase_master_fields_ready :
  (sts_ReadyReplicas <$> statefulsets shrunkCluster !! ("default", "demo-db-master")) = Some 1 /\
  exists ms' e w' after,
    status.UpdateDatabase (H := binaryQuantity) shrunkService shrunkCluster = (Ok (ms', e), w') /\
    Database (Status ms') = Some after /\
    (dbs_MasterReady after, dbs_Phase after) = (true, "Ready").
Proof.
  split; [vm_compute; reflexivity|].
  destruct (UpdateDatabase_master_fields (H := binaryQuantity) shrunkService
              (sampleDatabase "10Gi" false None) shrunkCluster eq_refl eq_refl)
    as (ms' & e & w' & after & Hrun & _ & Hafter & Hfields).
  exists ms', e, w', after. split; [exact Hrun|]. split; [exact Hafter|].
  rewrite Hfields. vm_compute. reflexivity.
Defined.

(** X21, on a sample: the deleted service loses the operator's finalizer and
    keeps the other one. *)
Lemma Reconcile_parent_gone_deleted :
  DeletionTimestamp (Meta deletedService) = Some 900 /\
  exists e w' kept,
    controller.Reconcile (H := binaryQuantity) (L := asWritten)
        (galera.ReconcileGalera (H := binaryQuantity))
      galera.ReconcileGaleraServices (controller.mkRequest "default" "demo")
      (clusterOf deletedService) = (Ok (controller.mkResult 0, e), w') /\
    last (trace w') = Some (EvUpdate (OMusicService kept)) /\
    Finalizers (Meta kept) = ["backup.example.org/hold"] /\
    children w' = children (clusterOf deletedService).
Proof.
  split; [reflexivity|].
  pose proof (Reconcile_parent_gone (H := binaryQuantity) (L := asWritten)
                (galera.ReconcileGalera (H := binaryQuantity)) galera.ReconcileGaleraServices
                (controller.mkRequest "default" "demo") (clusterOf deletedService)) as Hpass.
  eval_head Hpass. eval_head Hpass.
  destruct (Hpass (ex_intro _ 900 eq_refl)) as (e & w' & Hrun & Hchildren & Htrace & _).
  exists e, w', (controller.RemoveFinalizer deletedService controller.musicServiceFinalizerName).
  split; [exact Hrun|]. split; [rewrite Htrace; reflexivity|].
  split; [reflexivity|exact Hchildren].
Defined.

(** X22, on a sample: a new service gets the finalizer first. *)
Lemma Reconcile_adds_finalizer_new :
  Finalizers (Meta newService) = [] /\
  exists ms' w1,
    controller.Reconcile (H := binaryQuantity) (L := asWritten)
        (galera.ReconcileGalera (H := binaryQuantity))
      galera.ReconcileGaleraServices (controller.mkRequest "default" "demo")
      (clusterOf newService) =
    controller.reconcileResources (H := binaryQuantity) (L := asWritten)
      (galera.ReconcileGalera (H := binaryQuantity)) galera.ReconcileGaleraServices ms' w1 /\
    Finalizers (Meta ms') = [controller.musicServiceFinalizerName] /\
    musicservices w1 !! ("default", "demo") = Some ms'.
Proof.
  split; [reflexivity|].
  pose proof (Reconcile_adds_finalizer (H := binaryQuantity) (L := asWritten)
                (galera.ReconcileGalera (H := binaryQuantity)) galera.ReconcileGaleraServices
                (controller.mkRequest "default" "demo") newService (clusterOf newService)
                eq_refl eq_refl eq_refl) as Hpass.
  eval_head Hpass. destruct Hpass as [Hfinalizers Hpass].
  eval_head Hpass. destruct (Hpass eq_refl) as (w1 & Hrun & _ & Hstored & _).
  exists (controller.AddFinalizer newService controller.musicServiceFinalizerName), w1.
  split; [exact Hrun|]. split; [exact Hfinalizers|exact Hstored].
Defined.

(** X23, on a sample: the API refuses to create services; the failure is
    recorded in the status and the pass returns no error. *)
Lemma failed_step_returns_write_result_refused :
  exists w1 w',
    controller.firstFailure
      (controller.reconcileSteps (H := binaryQuantity) (L := asWritten) (fun _ => m_ret None)
         (fun _ => m_ret None) (sampleService None None)) refusingCluster
      = (Ok (Some ("ServiceFailed", mkError false "services is forbidden")), w1) /\
    controller.reconcileResources (H := binaryQuantity) (L := asWritten) (fun _ => m_ret None)
      (fun _ => m_ret None) (sampleService None None) refusingCluster
      = (Ok (controller.mkResult 0, None), w').
Proof.
  assert (Hfailed : exists w1,
    controller.firstFailure
      (controller.reconcileSteps (H := binaryQuantity) (L := asWritten) (fun _ => m_ret None)
         (fun _ => m_ret None) (sampleService None None)) refusingCluster
      = (Ok (Some ("ServiceFailed", mkError false "services is forbidden")), w1) /\
    faults w1 VStatusUpdate KMusicService "demo" = None /\
    is_Some (musicservices w1 !! ("default", "demo"))).
  { eexists. split; [vm_compute; reflexivity|]. split; [reflexivity|vm_compute; eauto]. }
  destruct Hfailed as (w1 & Hfailed & Hfault & Hstored).
  destruct (failed_step_returns_write_result (H := binaryQuantity) (L := asWritten)
      (fun _ => m_ret None)
              (fun _ => m_ret None) (sampleService None None) refusingCluster w1 _ _ Hfailed)
    as (w' & _ & Hrun).
  exists w1, w'. split; [exact Hfailed|exact (Hrun Hfault Hstored)].
Defined.

(** X24, on a sample: no application StatefulSet yet, none of the two
    replicas ready, so the next pass is due in 5 seconds. *)
Lemma syncStatus_requeue_pending :
  observedReady (sampleService None None) sampleCluster = 0 /\
  exists res w',
    controller.syncStatus (H := binaryQuantity) (sampleService None None) sampleCluster
      = (Ok (res, None), w') /\
    controller.RequeueAfter res = 5.
Proof.
  split; [reflexivity|].
  assert (Hrun : exists res w',
    controller.syncStatus (H := binaryQuantity) (sampleService None None) sampleCluster
      = (Ok (res, None), w')) by (eexists _, _; vm_compute; reflexivity).
  destruct Hrun as (res & w' & Hrun).
  exists res, w'. split; [exact Hrun|].
  rewrite (syncStatus_requeue (H := binaryQuantity) _ _ _ _ Hrun). reflexivity.
Defined.
